(** * FolderRestructure_Automation: the classification-and-remapping engine

    A shallow embedding of [restructure_directory] (src/restructure.py, with
    the variants src/restructurev3.py and src/v2restructure.py) and of
    [extract_tar_gz], together with the properties of the engine.

    Conventions of the embedding.
    - File names are byte strings; [str.lower], [str.isdigit] and the order
      used by [sorted] are the ASCII ones.
    - A file system is a tree of named entries kept in enumeration order
      (the order [os.listdir] returns).  Every entry is a regular file or a
      directory.
    - [source_dir] and [target_dir] are the roots of two separate trees.
    - The two calls of [uuid.uuid4] are inputs of [restructure_directory].
    - [tarfile] is a function from the bytes of an archive to what reading
      it does ([archive]): the members it writes below the extraction
      directory, the members whose name leads out of it ([../x], as many
      levels up as the name says, within the source tree), and the exception
      that ends the reading, if any, after those were written.
      The reader may fail with [TarError], with [OSError] or with an
      exception that is neither ([EOFError] on a truncated archive).
    - A world lists the locations that refuse to be written ([readonly]);
      creating or writing one raises [OSError], as does a write through a
      regular file or of a file onto a directory.  [shutil.rmtree] with
      [ignore_errors=True] leaves them, and the directories that lead to
      them, where they are. *)

From Stdlib Require Import String Ascii List Arith Lia Bool.
From Stdlib Require Import DecimalString DecimalNat.
From Stdlib Require Import Sorted Permutation.
Import ListNotations.
Open Scope string_scope.
Open Scope list_scope.
Open Scope nat_scope.

(** ** Python strings *)

Module Py.

Definition is_upper (c : ascii) : bool :=
  (65 <=? nat_of_ascii c) && (nat_of_ascii c <=? 90).

(** [str.isdigit] on one character. *)
Definition isdigit (c : ascii) : bool :=
  (48 <=? nat_of_ascii c) && (nat_of_ascii c <=? 57).

Definition lower_ascii (c : ascii) : ascii :=
  if is_upper c then ascii_of_nat (nat_of_ascii c + 32) else c.

(** [s.lower()] *)
Fixpoint lower (s : string) : string :=
  match s with
  | EmptyString => EmptyString
  | String c s' => String (lower_ascii c) (lower s')
  end.

(** [s[n:]] *)
Fixpoint drop (n : nat) (s : string) : string :=
  match n, s with
  | O, _ => s
  | S _, EmptyString => EmptyString
  | S n', String _ s' => drop n' s'
  end.

(** [s.startswith(p)] *)
Definition startswith (s p : string) : bool := String.prefix p s.

(** [s.endswith(p)] *)
Definition endswith (s p : string) : bool :=
  (String.length p <=? String.length s)
  && String.eqb (drop (String.length s - String.length p) s) p.

(** [s.endswith((p1, p2))] *)
Definition endswith_any (s : string) (ps : list string) : bool :=
  existsb (endswith s) ps.

(** [''.join(filter(f, s))] *)
Fixpoint filter_chars (f : ascii -> bool) (s : string) : string :=
  match s with
  | EmptyString => EmptyString
  | String c s' =>
      if f c then String c (filter_chars f s') else filter_chars f s'
  end.

(** [s.partition(sep)]: the text before the leftmost occurrence of [sep] and
    the text after it; [None] when [sep] does not occur. *)
Fixpoint partition (sep s : string) : option (string * string) :=
  if String.prefix sep s then Some (EmptyString, drop (String.length sep) s)
  else match s with
       | EmptyString => None
       | String c s' =>
           match partition sep s' with
           | Some (a, b) => Some (String c a, b)
           | None => None
           end
       end.

(** [sep in s] *)
Definition contains (sep s : string) : bool :=
  match partition sep s with Some _ => true | None => false end.

(** [s.split(sep)] for a non-empty [sep]: the pieces between the successive
    occurrences of [sep], found from the left.  Each piece removes at least
    one character, so [String.length s] rounds are enough. *)
Fixpoint split_aux (fuel : nat) (sep s : string) : list string :=
  match fuel with
  | O => [s]
  | S fuel' =>
      match partition sep s with
      | None => [s]
      | Some (a, b) => a :: split_aux fuel' sep b
      end
  end.

Definition split (sep s : string) : list string :=
  split_aux (String.length s) sep s.

Fixpoint all_chars (f : ascii -> bool) (s : string) : bool :=
  match s with
  | EmptyString => true
  | String c s' => f c && all_chars f s'
  end.

Fixpoint int_acc (acc : nat) (s : string) : nat :=
  match s with
  | EmptyString => acc
  | String c s' => int_acc (10 * acc + (nat_of_ascii c - 48)) s'
  end.

(** [int(s)] for a string of decimal digits; [None] is [ValueError]. *)
Definition int (s : string) : option nat :=
  match s with
  | EmptyString => None
  | _ => if all_chars isdigit s then Some (int_acc 0 s) else None
  end.

(** [str(n)] *)
Definition str (n : nat) : string := NilEmpty.string_of_uint (Nat.to_uint n).

(** Insertion of [x] in a list sorted by [String.leb]. *)
Fixpoint insert (x : string) (l : list string) : list string :=
  match l with
  | [] => [x]
  | y :: l' => if String.leb x y then x :: l else y :: insert x l'
  end.

(** [sorted(l)] on strings: the order is the byte-wise lexicographic one. *)
Fixpoint sorted (l : list string) : list string :=
  match l with
  | [] => []
  | x :: l' => insert x (sorted l')
  end.

(** [enumerate(l, start)] *)
Fixpoint enumerate {A : Type} (start : nat) (l : list A) : list (nat * A) :=
  match l with
  | [] => []
  | x :: l' => (start, x) :: enumerate (S start) l'
  end.

(** [range(a, a + n)] *)
Definition range (a n : nat) : list nat := seq a n.

End Py.

(** ** File-system trees *)

#[local] Set Warnings "-register-all".

Inductive node : Type :=
| File (data : string)
| Dir (entries : list (string * node)).

Definition path := list string.

Fixpoint assoc (name : string) (es : list (string * node)) : option node :=
  match es with
  | [] => None
  | (k, v) :: es' => if String.eqb name k then Some v else assoc name es'
  end.

(** Replaces the entry [name] where it stands, or adds it at the end. *)
Fixpoint set_entry (name : string) (v : node) (es : list (string * node))
  : list (string * node) :=
  match es with
  | [] => [(name, v)]
  | (k, x) :: es' =>
      if String.eqb name k then (k, v) :: es' else (k, x) :: set_entry name v es'
  end.

Fixpoint del_entry (name : string) (es : list (string * node))
  : list (string * node) :=
  match es with
  | [] => []
  | (k, x) :: es' =>
      if String.eqb name k then del_entry name es' else (k, x) :: del_entry name es'
  end.

Fixpoint lookup (p : path) (n : node) : option node :=
  match p with
  | [] => Some n
  | c :: p' =>
      match n with
      | Dir es => match assoc c es with
                  | Some ch => lookup p' ch
                  | None => None
                  end
      | File _ => None
      end
  end.

Definition is_dir (o : option node) : bool :=
  match o with Some (Dir _) => true | _ => false end.

Definition is_file (o : option node) : bool :=
  match o with Some (File _) => true | _ => false end.

Definition is_some (o : option node) : bool :=
  match o with Some _ => true | None => false end.

(** [os.makedirs(p, exist_ok=True)] on the tree [cur]: [None] when a
    component of [p] is a regular file. *)
Fixpoint mkdirs (p : path) (cur : option node) : option node :=
  match cur with
  | Some (File _) => None
  | _ =>
      let es := match cur with Some (Dir es) => es | _ => [] end in
      match p with
      | [] => Some (Dir es)
      | c :: p' =>
          match mkdirs p' (assoc c es) with
          | Some x => Some (Dir (set_entry c x es))
          | None => None
          end
      end
  end.

(** Rewrites the entry at [p] with [f]; the parent of [p] has to be a
    directory, and [f] returns [None] to refuse. *)
Fixpoint alter (p : path) (f : option node -> option node) (cur : option node)
  : option node :=
  match p with
  | [] => f cur
  | c :: p' =>
      match cur with
      | Some (Dir es) =>
          match alter p' f (assoc c es) with
          | Some x => Some (Dir (set_entry c x es))
          | None => None
          end
      | _ => None
      end
  end.

(** Writing a regular file: refused onto a directory. *)
Definition put_file (data : string) (cur : option node) : option node :=
  match cur with
  | Some (Dir _) => None
  | _ => Some (File data)
  end.

(** The entries [es] merged one after the other into the entries [ds], each
    with [f]. *)
Fixpoint merge_with (f : node -> option node -> option node)
  (es ds : list (string * node)) : option (list (string * node)) :=
  match es with
  | [] => Some ds
  | (name, child) :: es' =>
      match f child (assoc name ds) with
      | Some c' => merge_with f es' (set_entry name c' ds)
      | None => None
      end
  end.

(** [shutil.copytree(s, dst, dirs_exist_ok=True)] seen from the entry [dst]:
    the tree [s] is merged into what is there, files overwrite files, and a
    file meeting a directory (either way) is an error. *)
Fixpoint merge (s : node) (cur : option node) {struct s} : option node :=
  match s with
  | File data => put_file data cur
  | Dir es =>
      match cur with
      | Some (File _) => None
      | _ =>
          let ds := match cur with Some (Dir ds) => ds | _ => [] end in
          match merge_with merge es ds with
          | Some ds' => Some (Dir ds')
          | None => None
          end
      end
  end.

(** The tree without the directory at [p]; anything else is left as it
    is. *)
Fixpoint remove (p : path) (n : node) : node :=
  match n with
  | File _ => n
  | Dir es =>
      match p with
      | [] => n
      | c :: p' =>
          match assoc c es with
          | Some ch =>
              match p' with
              | [] => if is_dir (Some ch) then Dir (del_entry c es) else n
              | _ => Dir (set_entry c (remove p' ch) es)
              end
          | None => n
          end
      end
  end.

(** What [shutil.rmtree(..., ignore_errors=True)] leaves of the tree [n]
    standing at [p]: the entries it cannot delete ([keep]) and the
    directories that lead to them; [None] when nothing is left. *)
Fixpoint prune (keep : path -> bool) (p : path) (n : node) : option node :=
  match n with
  | File _ => if keep p then Some n else None
  | Dir es =>
      let es' :=
        (fix go (es : list (string * node)) : list (string * node) :=
           match es with
           | [] => []
           | (name, child) :: es' =>
               match prune keep (p ++ [name]) child with
               | Some kept => (name, kept) :: go es'
               | None => go es'
               end
           end) es in
      if keep p || match es' with [] => false | _ :: _ => true end
      then Some (Dir es') else None
  end.

(** [shutil.rmtree(p, ignore_errors=True)] on the tree [n]: the directory
    at [p] goes, but for what cannot be deleted. *)
Definition rmtree (keep : path -> bool) (p : path) (n : node) : node :=
  match lookup p n with
  | Some (Dir es) =>
      match prune keep p (Dir es) with
      | None => remove p n
      | Some kept =>
          match alter p (fun _ => Some kept) (Some n) with
          | Some n' => n'
          | None => n
          end
      end
  | _ => remove p n
  end.

Definition files_of (es : list (string * node)) : list string :=
  map fst (filter (fun e => is_file (Some (snd e))) es).

Definition dirs_of (es : list (string * node)) : list string :=
  map fst (filter (fun e => is_dir (Some (snd e))) es).

(** [os.walk(top)]: top-down, for every directory its path relative to
    [top] and the names of its regular files. *)
Fixpoint walk (n : node) : list (path * list string) :=
  match n with
  | File _ => []
  | Dir es =>
      ([], files_of es)
      :: (fix go (es : list (string * node)) : list (path * list string) :=
            match es with
            | [] => []
            | (name, child) :: es' =>
                map (fun r => (name :: fst r, snd r)) (walk child) ++ go es'
            end) es
  end.

(** ** Locations, the world and the monad of the engine *)

Inductive root : Type := Source | Target.

Definition loc : Type := root * path.

Definition root_eqb (a b : root) : bool :=
  match a, b with
  | Source, Source | Target, Target => true
  | _, _ => false
  end.

Fixpoint path_eqb (p q : path) : bool :=
  match p, q with
  | [], [] => true
  | a :: p', b :: q' => String.eqb a b && path_eqb p' q'
  | _, _ => false
  end.

Definition loc_eqb (a b : loc) : bool :=
  root_eqb (fst a) (fst b) && path_eqb (snd a) (snd b).

(** [os.path.join(l, c)] *)
Definition join (l : loc) (c : string) : loc := (fst l, snd l ++ [c]).

Notation "l // c" := (join l c) (at level 40, left associativity).

(** [os.path.join(l, rel)] for a relative path of several components. *)
Definition join_rel (l : loc) (rel : path) : loc := (fst l, snd l ++ rel).

(** [os.path.basename(l)] *)
Definition basename (l : loc) : string := last (snd l) EmptyString.

(** [os.path.dirname(l)] *)
Definition dirname (l : loc) : loc := (fst l, removelast (snd l)).

(** The writes the engine performs, in the order it performs them. *)
Inductive event : Type :=
| Makedirs (l : loc)
| Copy (from to : loc)
| Copytree (from to : loc)
| Extractall (tar to : loc)
| Rmtree (l : loc).

(** The lines the engine prints. *)
Inductive msg : Type :=
| Extracted (name : string) (to : loc)
| ErrorExtracting (name : string)
| DetectedMultiSystem
| DetectedSingleSystem
| DetectedWPArtifact (name : string) (num_runs : nat)
| CleanedUp
| RestructuringComplete (uuid_folder : string).

(** The exceptions a run meets: [OSError] of a file-system call,
    [tarfile.TarError], and [EOFError], which the reader of a truncated
    archive raises and which is neither. *)
Inductive exn : Type := OSError | TarError | EOFError.

(** [failed_at] is a ghost field: the number of writes done when an
    exception other than [TarError] was raised.  Nothing reads it. *)
Record world : Type := mkWorld {
  source : node;
  target : node;
  readonly : list loc;
  trace : list event;
  stdout : list msg;
  failed_at : option nat
}.

Definition fs (w : world) (r : root) : node :=
  match r with Source => source w | Target => target w end.

Definition set_fs (r : root) (n : node) (w : world) : world :=
  match r with
  | Source => mkWorld n (target w) (readonly w) (trace w) (stdout w) (failed_at w)
  | Target => mkWorld (source w) n (readonly w) (trace w) (stdout w) (failed_at w)
  end.

Definition log (e : event) (w : world) : world :=
  mkWorld (source w) (target w) (readonly w) (trace w ++ [e]) (stdout w)
    (failed_at w).

Definition node_at (w : world) (l : loc) : option node :=
  lookup (snd l) (fs w (fst l)).

Definition M (A : Type) : Type := world -> (exn + A) * world.

Definition ret {A : Type} (a : A) : M A := fun w => (inr a, w).

Definition bind {A B : Type} (m : M A) (k : A -> M B) : M B :=
  fun w => match m w with
           | (inr a, w') => k a w'
           | (inl e, w') => (inl e, w')
           end.

Notation "x <- m ;; k" := (bind m (fun x => k))
  (at level 61, m at next level, right associativity).
Notation "m ;; k" := (bind m (fun _ => k))
  (at level 61, right associativity).

(** [raise OSError] *)
Definition os_error {A : Type} : M A :=
  fun w => (inl OSError,
            mkWorld (source w) (target w) (readonly w) (trace w) (stdout w)
              (Some (length (trace w)))).

(** [raise tarfile.TarError] *)
Definition tar_error {A : Type} : M A := fun w => (inl TarError, w).

(** [raise EOFError] *)
Definition eof_error {A : Type} : M A :=
  fun w => (inl EOFError,
            mkWorld (source w) (target w) (readonly w) (trace w) (stdout w)
              (Some (length (trace w)))).

Definition raise_ {A : Type} (e : exn) : M A :=
  match e with
  | OSError => os_error
  | TarError => tar_error
  | EOFError => eof_error
  end.

(** [try: body / except tarfile.TarError: handler] *)
Definition try_except_TarError (body handler : M unit) : M unit :=
  fun w => match body w with
           | (inl TarError, w') => handler w'
           | r => r
           end.

Definition print (m : msg) : M unit :=
  fun w => (inr tt,
            mkWorld (source w) (target w) (readonly w) (trace w)
              (stdout w ++ [m]) (failed_at w)).

(** [for x in xs: body(x)] *)
Fixpoint for_ {A : Type} (xs : list A) (body : A -> M unit) : M unit :=
  match xs with
  | [] => ret tt
  | x :: xs' => body x ;; for_ xs' body
  end.

(** [[x for x in xs if p(x)]] *)
Fixpoint filterM {A : Type} (p : A -> M bool) (xs : list A) : M (list A) :=
  match xs with
  | [] => ret []
  | x :: xs' =>
      b <- p x ;;
      rest <- filterM p xs' ;;
      ret (if b then x :: rest else rest)
  end.

Definition when (b : bool) (m : M unit) : M unit := if b then m else ret tt.

(** *** The calls of [os], [os.path] and [shutil] *)

Definition os_path_exists (l : loc) : M bool :=
  fun w => (inr (is_some (node_at w l)), w).

Definition os_path_isdir (l : loc) : M bool :=
  fun w => (inr (is_dir (node_at w l)), w).

Definition os_path_isfile (l : loc) : M bool :=
  fun w => (inr (is_file (node_at w l)), w).

Definition os_listdir (l : loc) : M (list string) :=
  fun w => match node_at w l with
           | Some (Dir es) => (inr (map fst es), w)
           | _ => os_error w
           end.

(** A write at [l]: refused when [l] is read-only or when [f] refuses. *)
Definition write (e : event) (l : loc) (f : option node -> option node)
  : M unit :=
  fun w => if existsb (loc_eqb l) (readonly w) then os_error w
           else match f (Some (fs w (fst l))) with
                | Some n => (inr tt, log e (set_fs (fst l) n w))
                | None => os_error w
                end.

(** [os.makedirs(l, exist_ok=True)] *)
Definition os_makedirs (l : loc) : M unit :=
  write (Makedirs l) l (mkdirs (snd l)).

(** [shutil.copy(from, to)]: into [to] when it is a directory, onto [to]
    otherwise. *)
Definition shutil_copy (from to : loc) : M unit :=
  fun w => match node_at w from with
           | Some (File data) =>
               let dst := if is_dir (node_at w to)
                          then to // basename from else to in
               write (Copy from to) dst (alter (snd dst) (put_file data)) w
           | _ => os_error w
           end.

(** [shutil.copytree(from, to, dirs_exist_ok=True)]; a failed call leaves
    nothing behind here. *)
Definition shutil_copytree (from to : loc) : M unit :=
  fun w => match node_at w from with
           | Some (Dir es) =>
               write (Copytree from to) to
                 (fun cur => match mkdirs (snd to) cur with
                             | Some n => alter (snd to) (merge (Dir es)) (Some n)
                             | None => None
                             end) w
           | _ => os_error w
           end.

(** [shutil.copytree(from, to)]: [to] must not exist. *)
Definition shutil_copytree_new (from to : loc) : M unit :=
  fun w => if is_some (node_at w to) then os_error w
           else shutil_copytree from to w.

(** [shutil.rmtree(l, ignore_errors=True)]: never raises; what is
    read-only stays where it is. *)
Definition shutil_rmtree (l : loc) : M unit :=
  fun w =>
    let keep := fun q => existsb (loc_eqb (fst l, q)) (readonly w) in
    (inr tt,
     log (Rmtree l)
       (set_fs (fst l) (rmtree keep (snd l) (fs w (fst l))) w)).

(** [for root, _, files in os.walk(top)]: the directories below [top] with
    their relative paths; nothing when [top] is no directory. *)
Definition os_walk (top : loc) : M (list (path * list string)) :=
  fun w => (inr (match node_at w top with
                 | Some n => walk n
                 | None => []
                 end), w).

(** ** The engine *)

Definition nonempty {A : Type} (l : list A) : bool :=
  match l with [] => false | _ :: _ => true end.

(** What reading an archive does: [members] are written below the
    extraction directory; a member of [escaped] is written into the
    directory that many levels above it (1 for a name [../x]); [failure] is
    the exception that ends the reading, raised after those were written
    ([None] when the archive is read to its end).  An archive that cannot
    be opened has no members and fails with [TarError]. *)
Record archive : Type := mkArchive {
  members : list (string * node);
  escaped : list (nat * (string * node));
  failure : option exn
}.

(** The directory [up] levels above [l]; the root of the tree at most. *)
Definition ancestor (up : nat) (l : loc) : loc :=
  (fst l, firstn (length (snd l) - up) (snd l)).

Definition run_name (n : nat) : string := ("run" ++ Py.str n)%string.

Definition instance_name (n : nat) : string := ("instance" ++ Py.str n)%string.

(** Lines 37-38: the test on a top-level directory name. *)
Definition is_sut (d : string) : bool :=
  let name_lower := Py.lower d in
  Py.startswith name_lower "vm" || Py.startswith name_lower "sut".

(** Line 49: ['SUT' + sut[len('VM'):] if sut.lower().startswith('vm')
    else 'SUT' + sut[len('SUT'):]]. *)
Definition sut_name (sut : string) : string :=
  if Py.startswith (Py.lower sut) "vm"
  then ("SUT" ++ Py.drop 2 sut)%string
  else ("SUT" ++ Py.drop 3 sut)%string.

(** Line 87: [''.join(filter(str.isdigit, sut))]. *)
Definition sut_number (sut : string) : string :=
  Py.filter_chars Py.isdigit sut.

(** Line 90: the test on a candidate workload-profiler folder. *)
Definition wp_candidate (sut_number candidate : string) : bool :=
  Py.startswith (Py.lower candidate) "wp-"
  && Py.endswith (Py.lower candidate) (Py.lower sut_number).

(** Line 102: the test on the name of an iteration folder. *)
Definition is_iteration (d : string) : bool :=
  Py.startswith (Py.lower d) "iteration".

(** Lines 155-165 (and 185-194): the instance number of a log file.
    [None] inside stands for the [IndexError] or [ValueError] that the
    [except] clause swallows. *)
Definition instance_num (filename : string) : nat :=
  let parsed :=
    if Py.contains "log-run" filename then
      match nth_error (Py.split "log-run" filename) 1 with
      | Some part =>
          match nth_error (Py.split "-" part) 0 with
          | Some piece => Py.int (Py.filter_chars Py.isdigit piece)
          | None => None
          end
      | None => None
      end
    else None in
  match parsed with
  | Some n => n
  | None => 1
  end.

Section Engine.

(** [tarfile.open(..., "r:gz")] with [extractall], as a function of the
    bytes of the archive. *)
Variable tarfile_open : string -> archive.

(** The members are written, those that lead out of [extract_to] where
    their name takes them, and then the reading ends or fails. *)
Definition tarfile_extractall (tar_path extract_to : loc) : M unit :=
  fun w => match node_at w tar_path with
           | Some (File data) =>
               let a := tarfile_open data in
               (when (nonempty (members a))
                  (write (Extractall tar_path extract_to) extract_to
                     (alter (snd extract_to) (merge (Dir (members a))))) ;;
                for_ (escaped a) (fun up_member =>
                  let dst := ancestor (fst up_member) extract_to in
                  write (Extractall tar_path dst) dst
                    (alter (snd dst) (merge (Dir [snd up_member])))) ;;
                match failure a with
                | Some e => raise_ e
                | None => ret tt
                end) w
           | _ => os_error w
           end.

(** [extract_tar_gz], lines 7-16. *)
Definition extract_tar_gz (tar_path extract_to : loc) : M unit :=
  when (Py.endswith (basename tar_path) ".tar.gz")
    (os_makedirs extract_to ;;
     try_except_TarError
       (tarfile_extractall tar_path extract_to ;;
        print (Extracted (basename tar_path) extract_to))
       (print (ErrorExtracting (basename tar_path)))).

(** Lines 33-39: the SUT folders, in enumeration order. *)
Definition identify_suts (source_dir : loc) : M (list string) :=
  ds <- os_listdir source_dir ;;
  filterM (fun d => isd <- os_path_isdir (source_dir // d) ;;
                    ret (isd && is_sut d)) ds.

(** Lines 50-59: the canonical directories of one SUT. *)
Definition create_sut_dirs (sut_dir : loc) : M unit :=
  os_makedirs sut_dir ;;
  os_makedirs (sut_dir // "PlatformProfiler") ;;
  os_makedirs (sut_dir // "WorkloadProfiler") ;;
  os_makedirs (sut_dir // "Results").

(** Lines 61-83: PlatformProfiler, multi-system. *)
Definition copy_pp_run (src_folder_path platform_profiler_dir : loc)
  (idx_sub : nat * string) : M unit :=
  let (idx, sub) := idx_sub in
  let pp_folder := src_folder_path // sub in
  let run_dir := platform_profiler_dir // run_name idx in
  os_makedirs run_dir ;;
  names <- os_listdir pp_folder ;;
  for_ names (fun file_name =>
    let source_file := pp_folder // file_name in
    isf <- os_path_isfile source_file ;;
    when isf (shutil_copy source_file run_dir)).

Definition copy_platform_profiler (source_dir platform_profiler_dir : loc)
  : M unit :=
  for_ ["PlatformProfile"; "Host-pp"] (fun src_folder_name =>
    let src_folder_path := source_dir // src_folder_name in
    ex <- os_path_exists src_folder_path ;;
    when ex
      (contents <- os_listdir src_folder_path ;;
       subdirs <- filterM (fun f => os_path_isdir (src_folder_path // f))
                    contents ;;
       files <- filterM (fun f => os_path_isfile (src_folder_path // f))
                  contents ;;
       if nonempty files && negb (nonempty subdirs) then
         for_ files (fun file_name =>
           shutil_copy (src_folder_path // file_name) platform_profiler_dir)
       else if nonempty subdirs then
         for_ (Py.enumerate 1 (Py.sorted subdirs))
           (copy_pp_run src_folder_path platform_profiler_dir)
       else ret tt)).

(** Lines 86-92: the workload-profiler folder of a SUT, the first candidate
    in enumeration order ([break]). *)
Definition find_wp_folder (source_dir : loc) (sut : string) : M (option loc) :=
  candidates <- os_listdir source_dir ;;
  ret (option_map (join source_dir)
         (find (wp_candidate (sut_number sut)) candidates)).

(** Lines 97-113: one JSON file of the workload-profiler folder. *)
Definition copy_wp_file (wp_folder workload_profiler_dir : loc)
  (idx_file : nat * string) : M unit :=
  let (run_idx, wp_file) := idx_file in
  let run_dir := workload_profiler_dir // run_name run_idx in
  ds <- os_listdir wp_folder ;;
  iteration_folders <-
    filterM (fun d => isd <- os_path_isdir (wp_folder // d) ;;
                      ret (isd && is_iteration d)) ds ;;
  if nonempty iteration_folders then
    for_ iteration_folders (fun iteration =>
      let iteration_dir := run_dir // iteration in
      os_makedirs iteration_dir ;;
      shutil_copy (wp_folder // wp_file) iteration_dir)
  else
    let iteration_dir := run_dir // "iteration1" in
    os_makedirs iteration_dir ;;
    shutil_copy (wp_folder // wp_file) iteration_dir.

(** Lines 94-113: WorkloadProfiler, multi-system. *)
Definition copy_workload_profiler (wp_folder : option loc)
  (workload_profiler_dir : loc) : M unit :=
  match wp_folder with
  | None => ret tt
  | Some wp_folder =>
      ex <- os_path_exists wp_folder ;;
      when ex
        (names <- os_listdir wp_folder ;;
         let wp_files :=
           Py.sorted (filter (fun f => Py.endswith (Py.lower f) ".json") names) in
         for_ (Py.enumerate 1 wp_files)
           (copy_wp_file wp_folder workload_profiler_dir))
  end.

(** Lines 153-169 and 183-198: a log file goes to the instance its name
    gives. *)
Definition copy_log_file (source_item iteration_dir : loc) : M unit :=
  let filename := basename source_item in
  let target_instance_dir :=
    iteration_dir // instance_name (instance_num filename) in
  os_makedirs target_instance_dir ;;
  shutil_copy source_item target_instance_dir.

(** Lines 131-174: one iteration folder of a run.  [strict] is the variant
    of v2restructure.py, whose [copytree] calls differ. *)
Definition copy_iteration (strict : bool) (run_path results_dir : loc)
  (run_number : nat) (iteration : string) : M unit :=
  let iteration_path := run_path // iteration in
  ds <- os_listdir iteration_path ;;
  instance_folders <- filterM (fun d => os_path_isdir (iteration_path // d)) ds ;;
  if nonempty instance_folders then
    for_ instance_folders (fun instance =>
      let target_instance_dir :=
        results_dir // run_name run_number // iteration // instance in
      os_makedirs target_instance_dir ;;
      items <- os_listdir (iteration_path // instance) ;;
      for_ items (fun item =>
        let source_item := iteration_path // instance // item in
        isf <- os_path_isfile source_item ;;
        if isf then shutil_copy source_item target_instance_dir
        else
          isd <- os_path_isdir source_item ;;
          when isd
            (if strict
             then shutil_copytree_new source_item (target_instance_dir // item)
             else shutil_copytree source_item (target_instance_dir // item))))
  else
    items <- os_listdir iteration_path ;;
    for_ items (fun item =>
      let source_item := iteration_path // item in
      isf <- os_path_isfile source_item ;;
      if isf then
        copy_log_file source_item (results_dir // run_name run_number // iteration)
      else
        isd <- os_path_isdir source_item ;;
        when isd
          (let target_dir :=
             results_dir // run_name run_number // iteration // "instance1"
               // item in
           os_makedirs (if strict then target_dir else dirname target_dir) ;;
           shutil_copytree source_item target_dir)).

(** Lines 176-198: a run without iteration folders. *)
Definition copy_no_iterations (run_path results_dir : loc) (run_number : nat)
  : M unit :=
  let benchmarklog_dir := run_path // "BenchmarkLog" in
  ex <- os_path_exists benchmarklog_dir ;;
  items <- (if ex then os_listdir benchmarklog_dir else os_listdir run_path) ;;
  for_ items (fun item =>
    ex' <- os_path_exists benchmarklog_dir ;;
    let source_item := (if ex' then benchmarklog_dir else run_path) // item in
    isf <- os_path_isfile source_item ;;
    when isf
      (copy_log_file source_item
         (results_dir // run_name run_number // "iteration1"))).

(** Lines 124-198: one raw run directory. *)
Definition copy_run (strict : bool) (run_path results_dir : loc)
  (run_number : nat) : M unit :=
  ds <- os_listdir run_path ;;
  iteration_folders <-
    filterM (fun d => isd <- os_path_isdir (run_path // d) ;;
                      ret (isd && is_iteration d)) ds ;;
  if nonempty iteration_folders then
    for_ iteration_folders (copy_iteration strict run_path results_dir run_number)
  else copy_no_iterations run_path results_dir run_number.

(** Lines 119-200: the loop over the sorted entries of the SUT folder, with
    its counter [run_number]; an entry that is no directory is skipped
    ([continue]). *)
Fixpoint copy_runs (strict : bool) (vm_dir results_dir : loc)
  (run_number : nat) (names : list string) : M unit :=
  match names with
  | [] => ret tt
  | run_dir_name :: rest =>
      let run_path := vm_dir // run_dir_name in
      isd <- os_path_isdir run_path ;;
      if negb isd then copy_runs strict vm_dir results_dir run_number rest
      else
        copy_run strict run_path results_dir run_number ;;
        copy_runs strict vm_dir results_dir (S run_number) rest
  end.

(** Lines 115-200: Results, multi-system. *)
Definition copy_results (strict : bool) (source_dir : loc) (sut : string)
  (results_dir : loc) : M unit :=
  let vm_dir := source_dir // sut in
  names <- os_listdir vm_dir ;;
  copy_runs strict vm_dir results_dir 1 (Py.sorted names).

(** Lines 61-200: the three mappers of one SUT. *)
Definition run_mappers (strict : bool) (source_dir sut_dir : loc)
  (sut : string) : M unit :=
  let platform_profiler_dir := sut_dir // "PlatformProfiler" in
  let workload_profiler_dir := sut_dir // "WorkloadProfiler" in
  let results_dir := sut_dir // "Results" in
  copy_platform_profiler source_dir platform_profiler_dir ;;
  wp_folder <- find_wp_folder source_dir sut ;;
  copy_workload_profiler wp_folder workload_profiler_dir ;;
  copy_results strict source_dir sut results_dir.

(** Lines 47-200: the body of the loop over the SUTs. *)
Definition restructure_sut (strict : bool) (source_dir uuid_dir : loc)
  (sut : string) : M unit :=
  let sut_dir := uuid_dir // sut_name sut in
  create_sut_dirs sut_dir ;;
  run_mappers strict source_dir sut_dir sut.

(** Lines 202-211: the files at the root of the source, multi-system. *)
Definition copy_root_files (source_dir uuid_dir : loc) (suts : list string)
  : M unit :=
  items <- os_listdir source_dir ;;
  for_ items (fun item =>
    let source_item := source_dir // item in
    isf <- os_path_isfile source_item ;;
    when isf
      (for_ suts (fun sut =>
         let sut_dir := uuid_dir // sut_name sut in
         shutil_copy source_item sut_dir))).

(** Lines 44-211: the multi-system case. *)
Definition multi_system (strict : bool) (source_dir uuid_dir : loc)
  (suts : list string) : M unit :=
  for_ suts (restructure_sut strict source_dir uuid_dir) ;;
  copy_root_files source_dir uuid_dir suts.

(** *** The single-system case of restructure.py, lines 216-348 *)

(** Lines 229-239: the run folders below [Logs], sorted. *)
Definition list_log_subfolders (logs_src : loc) : M (list string) :=
  ex <- os_path_exists logs_src ;;
  if ex then
    ds <- os_listdir logs_src ;;
    subs <- filterM (fun d => os_path_isdir (logs_src // d)) ds ;;
    ret (Py.sorted subs)
  else ret [].

(** Lines 232 and 238-239. *)
Definition count_runs (log_subfolders : list string) : nat :=
  if nonempty log_subfolders then length log_subfolders else 1.

(** The three variables set by lines 243-261. *)
Record wp_artifact : Type := mkArtifact {
  wp_artifact_path : option loc;
  wp_artifact_is_tar : bool;
  extracted_temp : option loc
}.

(** Lines 249-261: the first [.json] or [.tar.gz] file in sorted order
    ([break]); an archive is extracted once, next to it. *)
Fixpoint identify_wp_artifact (temp_uuid : string) (num_runs : nat)
  (wp_src : loc) (items : list string) : M wp_artifact :=
  match items with
  | [] => ret (mkArtifact None false None)
  | item :: rest =>
      let source_item := wp_src // item in
      isf <- os_path_isfile source_item ;;
      if isf && Py.endswith_any (Py.lower item) [".json"; ".tar.gz"] then
        if Py.endswith (Py.lower item) ".tar.gz" then
          let temp := wp_src // ("extracted_wp_temp_" ++ temp_uuid)%string in
          extract_tar_gz source_item temp ;;
          print (DetectedWPArtifact (basename source_item) num_runs) ;;
          ret (mkArtifact (Some source_item) true (Some temp))
        else
          print (DetectedWPArtifact (basename source_item) num_runs) ;;
          ret (mkArtifact (Some source_item) false None)
      else identify_wp_artifact temp_uuid num_runs wp_src rest
  end.

(** Lines 242-261. *)
Definition prepare_wp_artifact (temp_uuid : string) (num_runs : nat)
  (wp_src : loc) : M wp_artifact :=
  ex <- os_path_exists wp_src ;;
  if ex then
    items <- os_listdir wp_src ;;
    identify_wp_artifact temp_uuid num_runs wp_src (Py.sorted items)
  else ret (mkArtifact None false None).

(** Lines 263-271: PlatformProfile, single-system. *)
Definition copy_platform_profile_single (source_dir platform_profiler_dir : loc)
  : M unit :=
  let platform_src := source_dir // "PlatformProfile" in
  ex <- os_path_exists platform_src ;;
  when ex
    (items <- os_listdir platform_src ;;
     for_ items (fun item =>
       let source_item := platform_src // item in
       isf <- os_path_isfile source_item ;;
       if isf then shutil_copy source_item platform_profiler_dir
       else
         isd <- os_path_isdir source_item ;;
         when isd
           (shutil_copytree source_item (platform_profiler_dir // item)))).

(** Lines 282-286: every regular file below [top], into [target_dir]. *)
Definition copy_walk_flat (top target_dir : loc) : M unit :=
  dirs <- os_walk top ;;
  for_ dirs (fun root_files =>
    for_ (snd root_files) (fun file =>
      let src_file := join_rel top (fst root_files) // file in
      shutil_copy src_file target_dir)).

(** Lines 274-289: the artifact goes to [iteration1] of every run. *)
Definition replicate_wp_artifact (a : wp_artifact) (num_runs : nat)
  (workload_profiler_dir : loc) : M unit :=
  match wp_artifact_path a with
  | None => ret tt
  | Some artifact =>
      for_ (Py.range 1 num_runs) (fun run_idx =>
        let target_dir :=
          workload_profiler_dir // run_name run_idx // "iteration1" in
        os_makedirs target_dir ;;
        if wp_artifact_is_tar a then
          match extracted_temp a with
          | None => ret tt
          | Some temp =>
              ex <- os_path_exists temp ;;
              when ex (copy_walk_flat temp target_dir)
          end
        else shutil_copy artifact target_dir)
  end.

(** Lines 314-324: a run folder of [Logs], with its sub-structure. *)
Definition copy_walk_tree (sub_path instance_dir : loc) : M unit :=
  dirs <- os_walk sub_path ;;
  for_ dirs (fun root_files =>
    let current_target_dir := join_rel instance_dir (fst root_files) in
    os_makedirs current_target_dir ;;
    for_ (snd root_files) (fun file =>
      let src_file := join_rel sub_path (fst root_files) // file in
      shutil_copy src_file current_target_dir)).

(** Lines 292-324: Logs, treated as Results. *)
Definition copy_logs (logs_src results_dir : loc) (log_subfolders : list string)
  : M unit :=
  ex <- os_path_exists logs_src ;;
  when ex
    (if negb (nonempty log_subfolders) then
       let instance_dir :=
         results_dir // "run1" // "iteration1" // "instance1" in
       os_makedirs instance_dir ;;
       items <- os_listdir logs_src ;;
       for_ items (fun item =>
         let src_item := logs_src // item in
         isf <- os_path_isfile src_item ;;
         if isf then shutil_copy src_item instance_dir
         else
           isd <- os_path_isdir src_item ;;
           when isd (shutil_copytree src_item (instance_dir // item)))
     else
       for_ (Py.enumerate 1 log_subfolders) (fun idx_sub =>
         let sub_path := logs_src // snd idx_sub in
         let instance_dir :=
           results_dir // run_name (fst idx_sub) // "iteration1" // "instance1" in
         os_makedirs instance_dir ;;
         copy_walk_tree sub_path instance_dir)).

(** Lines 326-343: the files at the root of the source, single-system. *)
Definition copy_root_files_single (source_dir sut_dir results_dir : loc)
  : M unit :=
  items <- os_listdir source_dir ;;
  for_ items (fun item =>
    let source_item := source_dir // item in
    isf <- os_path_isfile source_item ;;
    if negb isf then ret tt
    else if String.eqb (Py.lower item) "epyc_manual_result.json" then
      shutil_copy source_item sut_dir
    else
      when (Py.endswith_any (Py.lower item) [".json"; ".txt"])
        (let instance_dir :=
           results_dir // "run1" // "iteration1" // "instance1" in
         os_makedirs instance_dir ;;
         shutil_copy source_item instance_dir)).

(** Lines 345-348. *)
Definition cleanup (a : wp_artifact) : M unit :=
  match extracted_temp a with
  | None => ret tt
  | Some temp =>
      ex <- os_path_exists temp ;;
      when ex (shutil_rmtree temp ;; print CleanedUp)
  end.

(** Lines 229-348: what the single-system case does once the canonical
    directories are there. *)
Definition single_mappers (temp_uuid : string) (source_dir sut_dir : loc)
  : M unit :=
  let platform_profiler_dir := sut_dir // "PlatformProfiler" in
  let workload_profiler_dir := sut_dir // "WorkloadProfiler" in
  let results_dir := sut_dir // "Results" in
  let logs_src := source_dir // "Logs" in
  log_subfolders <- list_log_subfolders logs_src ;;
  let num_runs := count_runs log_subfolders in
  let wp_src := source_dir // "WorkloadProfiler" in
  a <- prepare_wp_artifact temp_uuid num_runs wp_src ;;
  copy_platform_profile_single source_dir platform_profiler_dir ;;
  replicate_wp_artifact a num_runs workload_profiler_dir ;;
  copy_logs logs_src results_dir log_subfolders ;;
  copy_root_files_single source_dir sut_dir results_dir ;;
  cleanup a.

(** Lines 216-348. *)
Definition single_system (temp_uuid : string) (source_dir uuid_dir : loc)
  : M unit :=
  let sut_dir := uuid_dir // "SUT1" in
  create_sut_dirs sut_dir ;;
  single_mappers temp_uuid source_dir sut_dir.

(** [restructure_directory] of restructure.py.  [uuid_folder] and
    [temp_uuid] are the results of the two calls of [uuid.uuid4]. *)
Definition restructure_directory (uuid_folder temp_uuid : string)
  (source_dir target_dir : loc) : M unit :=
  let uuid_dir := target_dir // uuid_folder in
  os_makedirs uuid_dir ;;
  suts <- identify_suts source_dir ;;
  (if nonempty suts then
     print DetectedMultiSystem ;;
     multi_system false source_dir uuid_dir suts
   else
     print DetectedSingleSystem ;;
     single_system temp_uuid source_dir uuid_dir) ;;
  print (RestructuringComplete uuid_folder).

(** *** The single-system case of restructurev3.py, lines 216-311 *)

(** Lines 245-276: every item of the WorkloadProfiler folder takes the next
    run index; the extraction directory is named after the run index. *)
Fixpoint copy_wp_items_v3 (wp_src workload_profiler_dir : loc) (run_idx : nat)
  (all_items : list string) : M unit :=
  match all_items with
  | [] => ret tt
  | item :: rest =>
      let source_item := wp_src // item in
      if Py.endswith item ".tar.gz" then
        let extract_temp :=
          wp_src // ("extracted_wp_temp_" ++ Py.str run_idx)%string in
        extract_tar_gz source_item extract_temp ;;
        let target_dir :=
          workload_profiler_dir // run_name run_idx // "iteration1" in
        os_makedirs target_dir ;;
        copy_walk_flat extract_temp target_dir ;;
        shutil_rmtree extract_temp ;;
        copy_wp_items_v3 wp_src workload_profiler_dir (S run_idx) rest
      else
        isf <- os_path_isfile source_item ;;
        if isf then
          let target_dir :=
            workload_profiler_dir // run_name run_idx // "iteration1" in
          os_makedirs target_dir ;;
          shutil_copy source_item target_dir ;;
          copy_wp_items_v3 wp_src workload_profiler_dir (S run_idx) rest
        else copy_wp_items_v3 wp_src workload_profiler_dir run_idx rest
  end.

(** Lines 239-276. *)
Definition copy_workload_profiler_v3 (source_dir workload_profiler_dir : loc)
  : M unit :=
  let wp_src := source_dir // "WorkloadProfiler" in
  ex <- os_path_exists wp_src ;;
  when ex
    (items <- os_listdir wp_src ;;
     copy_wp_items_v3 wp_src workload_profiler_dir 1 (Py.sorted items)).

(** Lines 280-302. *)
Definition copy_logs_v3 (source_dir results_dir : loc) : M unit :=
  let logs_src := source_dir // "Logs" in
  ex <- os_path_exists logs_src ;;
  when ex
    (ds <- os_listdir logs_src ;;
     log_subfolders <- filterM (fun d => os_path_isdir (logs_src // d))
                         (Py.sorted ds) ;;
     if negb (nonempty log_subfolders) then
       let instance_dir :=
         results_dir // "run1" // "iteration1" // "instance1" in
       os_makedirs instance_dir ;;
       files <- os_listdir logs_src ;;
       for_ files (fun file =>
         let src_file := logs_src // file in
         isf <- os_path_isfile src_file ;;
         when isf (shutil_copy src_file instance_dir))
     else
       for_ (Py.enumerate 1 log_subfolders) (fun idx_sub =>
         let sub_path := logs_src // snd idx_sub in
         let instance_dir :=
           results_dir // run_name (fst idx_sub) // "iteration1" // "instance1" in
         os_makedirs instance_dir ;;
         copy_walk_flat sub_path instance_dir)).

(** Lines 305-311. *)
Definition copy_root_files_v3 (source_dir results_dir : loc) : M unit :=
  items <- os_listdir source_dir ;;
  for_ items (fun item =>
    let source_item := source_dir // item in
    isf <- os_path_isfile source_item ;;
    when (isf && Py.endswith_any (Py.lower item) [".json"; ".txt"])
      (let instance_dir :=
         results_dir // "run1" // "iteration1" // "instance1" in
       os_makedirs instance_dir ;;
       shutil_copy source_item instance_dir)).

Definition single_system_v3 (source_dir uuid_dir : loc) : M unit :=
  let sut_dir := uuid_dir // "SUT1" in
  create_sut_dirs sut_dir ;;
  let platform_profiler_dir := sut_dir // "PlatformProfiler" in
  let workload_profiler_dir := sut_dir // "WorkloadProfiler" in
  let results_dir := sut_dir // "Results" in
  copy_platform_profile_single source_dir platform_profiler_dir ;;
  copy_workload_profiler_v3 source_dir workload_profiler_dir ;;
  copy_logs_v3 source_dir results_dir ;;
  copy_root_files_v3 source_dir results_dir.

(** [restructure_directory] of restructurev3.py. *)
Definition restructure_directory_v3 (uuid_folder : string)
  (source_dir target_dir : loc) : M unit :=
  let uuid_dir := target_dir // uuid_folder in
  os_makedirs uuid_dir ;;
  suts <- identify_suts source_dir ;;
  (if nonempty suts then
     print DetectedMultiSystem ;;
     multi_system false source_dir uuid_dir suts
   else
     print DetectedSingleSystem ;;
     single_system_v3 source_dir uuid_dir) ;;
  print (RestructuringComplete uuid_folder).

(** [restructure_directory] of v2restructure.py: the multi-system case
    only. *)
Definition restructure_directory_v2 (uuid_folder : string)
  (source_dir target_dir : loc) : M unit :=
  let uuid_dir := target_dir // uuid_folder in
  os_makedirs uuid_dir ;;
  suts <- identify_suts source_dir ;;
  multi_system true source_dir uuid_dir suts ;;
  print (RestructuringComplete uuid_folder).

End Engine.

(** The roots of the two trees. *)
Definition source_root : loc := (Source, []).
Definition target_root : loc := (Target, []).

(** The world before a run. *)
Definition initial (src tgt : node) (ro : list loc) : world :=
  mkWorld src tgt ro [] [] None.

(** ** Definitions used to state the properties *)

(** The text up to the first ["-"]. *)
Fixpoint up_to_dash (s : string) : string :=
  match s with
  | EmptyString => EmptyString
  | String c s' =>
      if Ascii.eqb c "-" then EmptyString else String c (up_to_dash s')
  end.

(** The digits at the head of [s]. *)
Fixpoint leading_digits (s : string) : string :=
  match s with
  | EmptyString => EmptyString
  | String c s' =>
      if Py.isdigit c then String c (leading_digits s') else EmptyString
  end.

(** The instance number as the specification words it: the digits that
    immediately follow the first ["log-run"], up to the next ["-"]; 1 when
    ["log-run"] is absent or no number can be read there. *)
Definition spec_instance_num (filename : string) : nat :=
  match Py.partition "log-run" filename with
  | None => 1
  | Some (_, rest) =>
      match Py.int (leading_digits (up_to_dash rest)) with
      | Some n => n
      | None => 1
      end
  end.

(** The number read from every digit of the text between the first
    ["log-run"] and the next ["-"], whatever stands between the digits; 1
    when ["log-run"] is absent or that text has no digit. *)
Definition filtered_instance_num (filename : string) : nat :=
  match Py.partition "log-run" filename with
  | None => 1
  | Some (_, rest) =>
      match Py.int (Py.filter_chars Py.isdigit (up_to_dash rest)) with
      | Some n => n
      | None => 1
      end
  end.

(** The order of [sorted]. *)
Definition str_le (a b : string) : Prop := String.leb a b = true.

(** A name without digit characters. *)
Definition no_digit (s : string) : Prop :=
  Py.all_chars (fun c => negb (Py.isdigit c)) s = true.

(** The test "the lowercased name starts with wp-". *)
Definition starts_wp (candidate : string) : bool :=
  Py.startswith (Py.lower candidate) "wp-".

(** *** Reading the source tree *)

Definition listing (s : node) (l : loc) : list string :=
  match lookup (snd l) s with
  | Some (Dir es) => map fst es
  | _ => []
  end.

Definition exists_in (s : node) (l : loc) : bool := is_some (lookup (snd l) s).
Definition isdir_in (s : node) (l : loc) : bool := is_dir (lookup (snd l) s).
Definition isfile_in (s : node) (l : loc) : bool := is_file (lookup (snd l) s).

Definition walk_in (s : node) (l : loc) : list (path * list string) :=
  match lookup (snd l) s with
  | Some n => walk n
  | None => []
  end.

(** *** The writes of a completed computation

    [emits s m a evs]: whenever [m] starts on the source tree [s] and
    returns, it returns [a], it has performed exactly the writes [evs], and
    the source tree is still [s]. *)
Definition emits {A : Type} (s : node) (m : M A) (a : A) (evs : list event)
  : Prop :=
  forall w r w', source w = s -> m w = (inr r, w') ->
    r = a /\ trace w' = trace w ++ evs /\ source w' = s.

(** [never s m]: started on the source tree [s], [m] raises. *)
Definition never {A : Type} (s : node) (m : M A) : Prop :=
  forall w r w', source w = s -> m w <> (inr r, w').

(** *** The writes of each part of the engine, read off the source tree *)

Section Events.

Variable s : node.

Definition files_in (l : loc) : list string :=
  filter (fun f => isfile_in s (l // f)) (listing s l).

Definition subdirs_in (l : loc) : list string :=
  filter (fun f => isdir_in s (l // f)) (listing s l).

(** The sub-directories whose name matches [^iteration], case-insensitive. *)
Definition iteration_folders (l : loc) : list string :=
  filter (fun d => isdir_in s (l // d) && is_iteration d) (listing s l).

(** The [.json] entries of a folder, sorted. *)
Definition json_files (l : loc) : list string :=
  Py.sorted (filter (fun f => Py.endswith (Py.lower f) ".json") (listing s l)).

Definition skeleton_events (sut_dir : loc) : list event :=
  [Makedirs sut_dir;
   Makedirs (sut_dir // "PlatformProfiler");
   Makedirs (sut_dir // "WorkloadProfiler");
   Makedirs (sut_dir // "Results")].

(** PlatformProfiler: run [idx] receives the files of the sub-folder. *)
Definition pp_run_events (folder platform_profiler_dir : loc)
  (idx_sub : nat * string) : list event :=
  let run_dir := platform_profiler_dir // run_name (fst idx_sub) in
  Makedirs run_dir
  :: map (fun f => Copy (folder // snd idx_sub // f) run_dir)
       (files_in (folder // snd idx_sub)).

(** One candidate folder: the run layout when it has sub-folders, its files
    flat otherwise. *)
Definition pp_folder_events (folder platform_profiler_dir : loc) : list event :=
  if nonempty (subdirs_in folder) then
    flat_map (pp_run_events folder platform_profiler_dir)
      (Py.enumerate 1 (Py.sorted (subdirs_in folder)))
  else map (fun f => Copy (folder // f) platform_profiler_dir) (files_in folder).

Definition pp_events (source_dir platform_profiler_dir : loc) : list event :=
  pp_folder_events (source_dir // "PlatformProfile") platform_profiler_dir
  ++ pp_folder_events (source_dir // "Host-pp") platform_profiler_dir.

(** WorkloadProfiler: the iteration slots of a run. *)
Definition wp_iterations (wp_folder : loc) : list string :=
  if nonempty (iteration_folders wp_folder) then iteration_folders wp_folder
  else ["iteration1"].

Definition wp_file_events (wp_folder workload_profiler_dir : loc)
  (idx_file : nat * string) : list event :=
  let run_dir := workload_profiler_dir // run_name (fst idx_file) in
  flat_map (fun iteration =>
              [Makedirs (run_dir // iteration);
               Copy (wp_folder // snd idx_file) (run_dir // iteration)])
    (wp_iterations wp_folder).

Definition wp_events (wp_folder workload_profiler_dir : loc) : list event :=
  flat_map (wp_file_events wp_folder workload_profiler_dir)
    (Py.enumerate 1 (json_files wp_folder)).

(** The folder matched to a SUT. *)
Definition wp_folder_of (source_dir : loc) (sut : string) : option loc :=
  option_map (join source_dir)
    (find (wp_candidate (sut_number sut)) (listing s source_dir)).

Definition wp_sut_events (source_dir : loc) (sut : string)
  (workload_profiler_dir : loc) : list event :=
  match wp_folder_of source_dir sut with
  | Some wp_folder => wp_events wp_folder workload_profiler_dir
  | None => []
  end.

(** Results: a log file goes to the instance its name gives. *)
Definition log_file_events (source_item iteration_dir : loc) : list event :=
  let d := iteration_dir // instance_name (instance_num (basename source_item)) in
  [Makedirs d; Copy source_item d].

Definition instance_events (source_instance target_instance_dir : loc)
  : list event :=
  Makedirs target_instance_dir
  :: flat_map (fun item =>
                 if isfile_in s (source_instance // item)
                 then [Copy (source_instance // item) target_instance_dir]
                 else if isdir_in s (source_instance // item)
                 then [Copytree (source_instance // item)
                         (target_instance_dir // item)]
                 else [])
       (listing s source_instance).

Definition iteration_events (strict : bool) (run_path results_dir : loc)
  (run_number : nat) (iteration : string) : list event :=
  let iteration_path := run_path // iteration in
  let iteration_dir := results_dir // run_name run_number // iteration in
  if nonempty (subdirs_in iteration_path) then
    flat_map (fun instance =>
                instance_events (iteration_path // instance)
                  (iteration_dir // instance))
      (subdirs_in iteration_path)
  else
    flat_map (fun item =>
                if isfile_in s (iteration_path // item)
                then log_file_events (iteration_path // item) iteration_dir
                else if isdir_in s (iteration_path // item)
                then [Makedirs (if strict
                                then iteration_dir // "instance1" // item
                                else iteration_dir // "instance1");
                      Copytree (iteration_path // item)
                        (iteration_dir // "instance1" // item)]
                else [])
      (listing s iteration_path).

(** The folder whose files are the logs of a run without iterations. *)
Definition benchmark_base (run_path : loc) : loc :=
  if isdir_in s (run_path // "BenchmarkLog") then run_path // "BenchmarkLog"
  else run_path.

Definition no_iteration_events (run_path results_dir : loc) (run_number : nat)
  : list event :=
  let base := benchmark_base run_path in
  flat_map (fun item =>
              log_file_events (base // item)
                (results_dir // run_name run_number // "iteration1"))
    (files_in base).

Definition run_events (strict : bool) (run_path results_dir : loc)
  (run_number : nat) : list event :=
  if nonempty (iteration_folders run_path) then
    flat_map (iteration_events strict run_path results_dir run_number)
      (iteration_folders run_path)
  else no_iteration_events run_path results_dir run_number.

(** The raw run directories of a SUT: its sub-directories, sorted. *)
Definition run_dirs (vm_dir : loc) : list string :=
  filter (fun d => isdir_in s (vm_dir // d)) (Py.sorted (listing s vm_dir)).

Definition runs_events (strict : bool) (vm_dir results_dir : loc)
  (start : nat) (dirs : list string) : list event :=
  flat_map (fun idx_dir =>
              run_events strict (vm_dir // snd idx_dir) results_dir (fst idx_dir))
    (Py.enumerate start dirs).

Definition results_events (strict : bool) (source_dir : loc) (sut : string)
  (results_dir : loc) : list event :=
  runs_events strict (source_dir // sut) results_dir 1
    (run_dirs (source_dir // sut)).

(** Everything done for one SUT. *)
Definition mapper_events (strict : bool) (source_dir sut_dir : loc)
  (sut : string) : list event :=
  pp_events source_dir (sut_dir // "PlatformProfiler")
  ++ wp_sut_events source_dir sut (sut_dir // "WorkloadProfiler")
  ++ results_events strict source_dir sut (sut_dir // "Results").

Definition sut_events (strict : bool) (source_dir uuid_dir : loc)
  (sut : string) : list event :=
  skeleton_events (uuid_dir // sut_name sut)
  ++ mapper_events strict source_dir (uuid_dir // sut_name sut) sut.

(** The SUT folders of the source. *)
Definition suts_of (source_dir : loc) : list string :=
  filter (fun d => isdir_in s (source_dir // d) && is_sut d)
    (listing s source_dir).

(** The root files, multi-system: every file into every SUT directory. *)
Definition root_events (source_dir uuid_dir : loc) (suts : list string)
  : list event :=
  flat_map (fun item =>
              map (fun sut => Copy (source_dir // item) (uuid_dir // sut_name sut))
                suts)
    (files_in source_dir).

Definition multi_events (strict : bool) (source_dir uuid_dir : loc)
  (suts : list string) : list event :=
  flat_map (sut_events strict source_dir uuid_dir) suts
  ++ root_events source_dir uuid_dir suts.

(** The root files, single-system. *)
Definition root_single_events (source_dir sut_dir results_dir : loc)
  : list event :=
  flat_map (fun item =>
              if String.eqb (Py.lower item) "epyc_manual_result.json"
              then [Copy (source_dir // item) sut_dir]
              else if Py.endswith_any (Py.lower item) [".json"; ".txt"]
              then [Makedirs (results_dir // "run1" // "iteration1" // "instance1");
                    Copy (source_dir // item)
                      (results_dir // "run1" // "iteration1" // "instance1")]
              else [])
    (files_in source_dir).

End Events.

(** *** Properties kept by every step

    The outcome of a computation: [None] when it returns, the exception
    when it raises. *)
Definition outcome {A : Type} (r : exn + A) : option exn :=
  match r with
  | inl e => Some e
  | inr _ => None
  end.

(** [respects R m]: every execution of [m] relates its first world, its
    outcome and its last world by [R]. *)
Definition respects {A : Type} (R : world -> option exn -> world -> Prop)
  (m : M A) : Prop :=
  forall w, R w (outcome (fst (m w))) (snd (m w)).

(** Error handling: [TarError] never leaves the engine, and an [OSError]
    ends the run at the write where it is raised. *)
Definition fatal_errors (w : world) (o : option exn) (w' : world) : Prop :=
  o <> Some TarError
  /\ (failed_at w = None ->
      match o with
      | None => failed_at w' = None
      | Some _ => failed_at w' = Some (length (trace w'))
      end).

(** Nothing reports completion. *)
Definition no_report (w : world) : Prop :=
  forall u, ~ In (RestructuringComplete u) (stdout w).

Definition silent (w : world) (o : option exn) (w' : world) : Prop :=
  no_report w -> no_report w'.

(** The lines printed while the run is in progress. *)
Definition progress (m : msg) : Prop :=
  match m with
  | RestructuringComplete _ => False
  | _ => True
  end.

(** *** The directories of a tree *)

Definition olookup (p : path) (o : option node) : option node :=
  match o with
  | Some n => lookup p n
  | None => None
  end.

(** Every directory of [a] is a directory of [b]. *)
Definition dirs_le (a b : option node) : Prop :=
  forall q, is_dir (olookup q a) = true -> is_dir (olookup q b) = true.

(** The trace only grows, and so do the directories of the target. *)
Definition grows (w : world) (o : option exn) (w' : world) : Prop :=
  (exists evs, trace w' = trace w ++ evs)
  /\ dirs_le (Some (target w)) (Some (target w')).

(** *** The canonical directories in the trace *)

(** The location an event writes. *)
Definition dest (e : event) : loc :=
  match e with
  | Makedirs l => l
  | Copy _ to => to
  | Copytree _ to => to
  | Extractall _ to => to
  | Rmtree l => l
  end.

Definition categories : list string :=
  ["PlatformProfiler"; "WorkloadProfiler"; "Results"].

Definition canonical_dirs (sut_dir : loc) : list loc :=
  map (join sut_dir) categories.

(** The event writes a canonical directory of [sut_dir] or below it. *)
Definition in_canonical (sut_dir : loc) (e : event) : Prop :=
  exists c rest, In c categories
                 /\ dest e = (fst sut_dir, snd sut_dir ++ c :: rest).

(** The output root, the SUT directories and their canonical directories. *)
Definition skeleton_dirs (uuid_dir : loc) (suts : list string) : list loc :=
  uuid_dir
  :: flat_map (fun sut => (uuid_dir // sut_name sut)
                          :: canonical_dirs (uuid_dir // sut_name sut)) suts.

(** A write of a mapper: any event but the creation of one of those. *)
Definition mapper_write (uuid_dir : loc) (suts : list string) (e : event)
  : Prop :=
  forall d, In d (skeleton_dirs uuid_dir suts) -> e <> Makedirs d.

(** The claim "the canonical directories of every SUT are created before
    any mapper performs its first write", on a trace. *)
Definition created_before_any_write (uuid_dir : loc) (suts : list string)
  (t : list event) : Prop :=
  forall i e, nth_error t i = Some e -> mapper_write uuid_dir suts e ->
    forall sut d, In sut suts ->
                  In d (canonical_dirs (uuid_dir // sut_name sut)) ->
                  exists j, j < i /\ nth_error t j = Some (Makedirs d).

(** *** The shared WorkloadProfiler artifact of the single-system case *)

(** The test of line 251 on an entry of the WorkloadProfiler folder. *)
Definition is_artifact (s : node) (wp_src : loc) (item : string) : bool :=
  isfile_in s (wp_src // item)
  && Py.endswith_any (Py.lower item) [".json"; ".tar.gz"].

(** The first [.json] or [.tar.gz] file, in sorted order. *)
Definition selected_artifact (s : node) (wp_src : loc) : option string :=
  find (is_artifact s wp_src) (Py.sorted (listing s wp_src)).

(** Every regular file below [top], as [os.walk] meets them. *)
Definition walk_files (s : node) (top : loc) : list loc :=
  flat_map (fun root_files =>
              map (fun file => join_rel top (fst root_files) // file)
                (snd root_files))
    (walk_in s top).

(** What is copied for the artifact: the file itself, or the files of the
    extracted archive. *)
Definition artifact_files (s : node) (a : wp_artifact) (artifact : loc)
  : list loc :=
  if wp_artifact_is_tar a then
    match extracted_temp a with
    | Some temp => walk_files s temp
    | None => []
    end
  else [artifact].

(** The same files into [iteration1] of the runs 1 to [num_runs]. *)
Definition replication_events (files : list loc) (num_runs : nat)
  (workload_profiler_dir : loc) : list event :=
  flat_map (fun k =>
              let target_dir :=
                workload_profiler_dir // run_name k // "iteration1" in
              Makedirs target_dir :: map (fun f => Copy f target_dir) files)
    (seq 1 num_runs).

Definition replicate_events (s : node) (a : wp_artifact) (num_runs : nat)
  (workload_profiler_dir : loc) : list event :=
  match wp_artifact_path a with
  | Some artifact =>
      replication_events (artifact_files s a artifact) num_runs
        workload_profiler_dir
  | None => []
  end.

(** *** Run indices *)

(** The event writes the entry [c] of the directory [d], or below it. *)
Definition in_slot (d : loc) (c : string) (e : event) : Prop :=
  exists rest, dest e = (fst d, snd d ++ c :: rest).

(** The runs written below [d] are run1 ... run[n], each of them. *)
Definition dense_runs (d : loc) (n : nat) (evs : list event) : Prop :=
  (forall k, 1 <= k <= n -> exists e, In e evs /\ in_slot d (run_name k) e)
  /\ (forall e, In e evs ->
        dest e = d \/ exists k, 1 <= k <= n /\ in_slot d (run_name k) e).

(** The claim "the run indices present are exactly 1..N for some N", on the
    names found in a category directory. *)
Definition dense_names (names : list string) : Prop :=
  exists n, forall c, In c names <-> exists k, 1 <= k <= n /\ c = run_name k.

(** Something is written for a raw run directory: one of its iteration
    folders holds a sub-directory (an instance folder, whose directory is
    created even when it is empty) or a regular file; or, with no iteration
    folder, its BenchmarkLog folder holds a regular file, or the run
    directory itself when it has no BenchmarkLog folder. *)
Definition run_written (s : node) (run_path : loc) : bool :=
  if nonempty (iteration_folders s run_path) then
    existsb (fun iteration =>
               nonempty (subdirs_in s (run_path // iteration))
               || nonempty (files_in s (run_path // iteration)))
      (iteration_folders s run_path)
  else nonempty (files_in s (benchmark_base s run_path)).

(** The event copies an entry of [from] into [d] under its own name: a
    file into [d], a sub-folder as the sub-folder of that name. *)
Definition own_name (s : node) (from d : loc) (e : event) : Prop :=
  exists item,
    In item (listing s from)
    /\ (e = Copy (from // item) d \/ e = Copytree (from // item) (d // item)).

(** Lines 314-324, the writes. *)
Definition walk_tree_events (s : node) (sub_path instance_dir : loc)
  : list event :=
  flat_map (fun root_files =>
              Makedirs (join_rel instance_dir (fst root_files))
              :: map (fun file =>
                        Copy (join_rel sub_path (fst root_files) // file)
                          (join_rel instance_dir (fst root_files)))
                   (snd root_files))
    (walk_in s sub_path).

(** Lines 292-324, the writes. *)
Definition logs_events (s : node) (logs_src results_dir : loc)
  (log_subfolders : list string) : list event :=
  if exists_in s logs_src then
    if nonempty log_subfolders then
      flat_map (fun idx_sub =>
                  let instance_dir :=
                    results_dir // run_name (fst idx_sub) // "iteration1"
                      // "instance1" in
                  Makedirs instance_dir
                  :: walk_tree_events s (logs_src // snd idx_sub) instance_dir)
        (Py.enumerate 1 log_subfolders)
    else
      Makedirs (results_dir // run_name 1 // "iteration1" // "instance1")
      :: flat_map (fun item =>
                     if isfile_in s (logs_src // item)
                     then [Copy (logs_src // item)
                             (results_dir // run_name 1 // "iteration1"
                                // "instance1")]
                     else if isdir_in s (logs_src // item)
                     then [Copytree (logs_src // item)
                             (results_dir // run_name 1 // "iteration1"
                                // "instance1" // item)]
                     else [])
           (listing s logs_src)
  else [].

(** *** What the extraction of an archive may do *)

(** [w2] comes from [w] by writes that succeeded: nothing was printed,
    nothing failed, the same locations are read-only. *)
Definition writes_only (w w2 : world) : Prop :=
  readonly w2 = readonly w /\ stdout w2 = stdout w
  /\ failed_at w2 = failed_at w /\ exists evs, trace w2 = trace w ++ evs.

(** The claim "a failure to open or extract an archive is caught locally
    and processing continues to completion", on the outcome of a run. *)
Definition continues_to_completion (r : (exn + unit) * world) : Prop :=
  fst r = inr tt /\ exists u, In (RestructuringComplete u) (stdout (snd r)).

(** The same locations are read-only. *)
Definition keeps_readonly (w : world) (o : option exn) (w' : world) : Prop :=
  readonly w' = readonly w.

(** No location of the source tree is read-only. *)
Definition source_writable (w : world) : Prop :=
  forall l, In l (readonly w) -> fst l = Target.

(** *** The extraction of an archive, on the source tree *)

(** The tree [n] once the members of [a] are written from the directory
    [to]: [None] when a member cannot be written. *)
Definition extract_tree (a : archive) (to : path) (n : node) : option node :=
  fold_left
    (fun acc up_member =>
       match acc with
       | Some x =>
           alter (snd (ancestor (fst up_member) (Source, to)))
             (merge (Dir [snd up_member])) (Some x)
       | None => None
       end)
    (escaped a)
    (if nonempty (members a)
     then alter to (merge (Dir (members a))) (Some n) else Some n).

(** The writes of [extractall]. *)
Definition extractall_events (tar to : loc) (a : archive) : list event :=
  (if nonempty (members a) then [Extractall tar to] else [])
  ++ map (fun up_member => Extractall tar (ancestor (fst up_member) to))
       (escaped a).

(** The archive held by the file [tar]. *)
Definition archive_at (tarfile_open : string -> archive) (s : node)
  (tar : loc) : archive :=
  match lookup (snd tar) s with
  | Some (File data) => tarfile_open data
  | _ => mkArchive [] [] (Some OSError)
  end.

(** The source tree after [extract_tar_gz tar to] has returned: as it was
    when the name of [tar] does not end in [.tar.gz]; otherwise with the
    directory [to] and what the reader wrote. *)
Definition extracted_source (tarfile_open : string -> archive) (s : node)
  (tar to : loc) : node :=
  if Py.endswith (basename tar) ".tar.gz" then
    match mkdirs (snd to) (Some s) with
    | Some n0 =>
        match extract_tree (archive_at tarfile_open s tar) (snd to) n0 with
        | Some n => n
        | None => n0
        end
    | None => s
    end
  else s.

(** The writes of [extract_tar_gz tar to] when it returns. *)
Definition extraction_writes (tarfile_open : string -> archive) (s : node)
  (tar to : loc) : list event :=
  if Py.endswith (basename tar) ".tar.gz"
  then Makedirs to :: extractall_events tar to (archive_at tarfile_open s tar)
  else [].

(** Lines 263-271 (restructure.py) and 229-237 (restructurev3.py), the
    writes: the files of PlatformProfile flat, its sub-folders as trees. *)
Definition pp_single_events (s : node) (source_dir platform_profiler_dir : loc)
  : list event :=
  let platform_src := source_dir // "PlatformProfile" in
  flat_map (fun item =>
              if isfile_in s (platform_src // item)
              then [Copy (platform_src // item) platform_profiler_dir]
              else if isdir_in s (platform_src // item)
              then [Copytree (platform_src // item)
                      (platform_profiler_dir // item)]
              else [])
    (listing s platform_src).

(** *** The shared artifact, with its extraction *)

(** The test of line 254: the artifact is an archive. *)
Definition is_archive (item : string) : bool :=
  Py.endswith (Py.lower item) ".tar.gz".

(** The three variables of lines 243-261 for the selected entry. *)
Definition artifact_of (wp_src temp : loc) (sel : option string)
  : wp_artifact :=
  match sel with
  | Some item =>
      mkArtifact (Some (wp_src // item)) (is_archive item)
        (if is_archive item then Some temp else None)
  | None => mkArtifact None false None
  end.

(** The source tree once the artifact is prepared. *)
Definition prepared_source (tarfile_open : string -> archive) (s : node)
  (wp_src temp : loc) (sel : option string) : node :=
  match sel with
  | Some item =>
      if is_archive item
      then extracted_source tarfile_open s (wp_src // item) temp else s
  | None => s
  end.

(** The writes of the preparation. *)
Definition prepare_writes (tarfile_open : string -> archive) (s : node)
  (wp_src temp : loc) (sel : option string) : list event :=
  match sel with
  | Some item =>
      if is_archive item
      then extraction_writes tarfile_open s (wp_src // item) temp else []
  | None => []
  end.

(** The files that are replicated: the JSON file itself; for an archive,
    the regular files found below the extraction directory. *)
Definition shared_files (s1 : node) (wp_src temp : loc) (sel : option string)
  : list loc :=
  match sel with
  | Some item => if is_archive item then walk_files s1 temp else [wp_src // item]
  | None => []
  end.

(** The claim "the artifact's content is replicated into
    WorkloadProfiler/run{k}/iteration1 for every k from 1 to N", on a trace:
    a file is copied into each of these directories. *)
Definition replicated_in_every_run (workload_profiler_dir : loc) (n : nat)
  (t : list event) : Prop :=
  forall k, 1 <= k <= n ->
    exists f,
      In (Copy f (workload_profiler_dir // run_name k // "iteration1")) t.

(** Lines 345-348, the writes. *)
Definition cleanup_writes (s1 : node) (temp : loc) (sel : option string)
  : list event :=
  match sel with
  | Some item =>
      if is_archive item && exists_in s1 temp then [Rmtree temp] else []
  | None => []
  end.

(** *** Source trees used as examples *)

(** A toy archive reader: ["TAR"] holds two files, one in a directory;
    ["LEAK"] has a member named ../leak.json; ["PART"] fails with
    [TarError] after its first member and ["CUT"], truncated, with
    [EOFError]; anything else cannot be opened. *)
Definition example_tarfile (data : string) : archive :=
  if String.eqb data "TAR"
  then mkArchive [("a.json", File "A"); ("d", Dir [("b.json", File "B")])]
         [] None
  else if String.eqb data "LEAK"
  then mkArchive [("a.json", File "A")] [(1, ("leak.json", File "L"))] None
  else if String.eqb data "PART"
  then mkArchive [("a.json", File "A")] [] (Some TarError)
  else if String.eqb data "CUT"
  then mkArchive [("a.json", File "A")] [] (Some EOFError)
  else mkArchive [] [] (Some TarError).

(** The same reader, without the members that lead out of the directory. *)
Definition example_confined (data : string) : archive :=
  mkArchive (members (example_tarfile data)) [] (failure (example_tarfile data)).

(** A multi-system source: two SUTs, one workload-profiler folder. *)
Definition example_multi : node :=
  Dir [("vm1",
        Dir [("a", Dir []);
             ("b", Dir [("BenchmarkLog",
                         Dir [("log-run2-x.txt", File "x");
                              ("notes.txt", File "n");
                              ("sub", Dir [("y", File "y")])]);
                        ("outer.txt", File "o")]);
             ("stray.txt", File "s")]);
       ("VM2",
        Dir [("r1", Dir [("iteration1", Dir [("log-run3-y", File "y")])])]);
       ("wp-vm1", Dir [("run_b.json", File "b"); ("run_a.json", File "a")]);
       ("PlatformProfile",
        Dir [("pp2", Dir [("f2", File "2")]); ("pp1", Dir [("f1", File "1")])]);
       ("readme.txt", File "r")].

(** A single-system source with three runs and one JSON artifact. *)
Definition example_single : node :=
  Dir [("Logs",
        Dir [("a", Dir [("l1", File "1")]);
             ("b", Dir []);
             ("c", Dir [("l3", File "3")])]);
       ("WorkloadProfiler",
        Dir [("notes.md", File "n"); ("capture.json", File "c")]);
       ("EPYC_manual_result.json", File "m");
       ("x.txt", File "x");
       ("y.bin", File "y")].

(** A single-system source whose artifact is an archive, next to a
    directory that bears the name of an extraction directory. *)
Definition example_archive (data : string) : node :=
  Dir [("Logs", Dir [("a", Dir [("l1", File "1")])]);
       ("WorkloadProfiler",
        Dir [("cap.tar.gz", File data);
             ("extracted_wp_temp_1", Dir [("keep.txt", File "k")])])].

(** A single-system source with two runs, whose first artifact in sorted
    order is an archive. *)
Definition example_shared (data : string) : node :=
  Dir [("Logs", Dir [("a", Dir [("l1", File "1")]); ("b", Dir [])]);
       ("WorkloadProfiler",
        Dir [("z.json", File "z"); ("cap.tar.gz", File data)])].

(** *** Further relations and writes, for the properties beyond the core *)

(** The source tree is left as it was, whatever the outcome. *)
Definition keeps_source (w : world) (o : option exn) (w' : world) : Prop :=
  source w' = source w.

(** Nothing is printed. *)
Definition keeps_stdout (w : world) (o : option exn) (w' : world) : Prop :=
  stdout w' = stdout w.

(** restructurev3.py, lines 245-276 without archives: the regular files of
    the WorkloadProfiler folder, sorted, one run each. *)
Definition wp_v3_events (s : node) (wp_src workload_profiler_dir : loc)
  (start : nat) (items : list string) : list event :=
  flat_map (fun idx_item =>
              let target_dir :=
                workload_profiler_dir // run_name (fst idx_item)
                  // "iteration1" in
              [Makedirs target_dir; Copy (wp_src // snd idx_item) target_dir])
    (Py.enumerate start (filter (fun f => isfile_in s (wp_src // f)) items)).

(** restructurev3.py, lines 280-302, the writes: every file below a run
    folder of Logs goes into the one instance directory of its run. *)
Definition logs_v3_events (s : node) (logs_src results_dir : loc)
  : list event :=
  let log_subfolders :=
    filter (fun d => isdir_in s (logs_src // d)) (Py.sorted (listing s logs_src)) in
  if exists_in s logs_src then
    if nonempty log_subfolders then
      flat_map (fun idx_sub =>
                  let instance_dir :=
                    results_dir // run_name (fst idx_sub) // "iteration1"
                      // "instance1" in
                  Makedirs instance_dir
                  :: map (fun f => Copy f instance_dir)
                       (walk_files s (logs_src // snd idx_sub)))
        (Py.enumerate 1 log_subfolders)
    else
      Makedirs (results_dir // "run1" // "iteration1" // "instance1")
      :: map (fun f => Copy (logs_src // f)
                         (results_dir // "run1" // "iteration1" // "instance1"))
           (files_in s logs_src)
  else [].

(** restructurev3.py, lines 305-311, the writes. *)
Definition root_v3_events (s : node) (source_dir results_dir : loc)
  : list event :=
  flat_map (fun item =>
              [Makedirs (results_dir // "run1" // "iteration1" // "instance1");
               Copy (source_dir // item)
                 (results_dir // "run1" // "iteration1" // "instance1")])
    (filter (fun item => isfile_in s (source_dir // item)
                         && Py.endswith_any (Py.lower item) [".json"; ".txt"])
       (listing s source_dir)).

(** The writes of the single-system case of restructure.py when the
    WorkloadProfiler folder holds no archive. *)
Definition single_plain_writes (s : node) (source_dir sut_dir : loc) : list event :=
  let logs_src := source_dir // "Logs" in
  let wp_src := source_dir // "WorkloadProfiler" in
  let log_subfolders := Py.sorted (subdirs_in s logs_src) in
  skeleton_events sut_dir
  ++ pp_single_events s source_dir (sut_dir // "PlatformProfiler")
  ++ match selected_artifact s wp_src with
     | Some item =>
         replication_events [wp_src // item] (count_runs log_subfolders)
           (sut_dir // "WorkloadProfiler")
     | None => []
     end
  ++ logs_events s logs_src (sut_dir // "Results") log_subfolders
  ++ root_single_events s source_dir sut_dir (sut_dir // "Results").

(** The writes of the single-system case of restructurev3.py when the
    WorkloadProfiler folder holds no archive. *)
Definition single_v3_writes (s : node) (source_dir sut_dir : loc) : list event :=
  skeleton_events sut_dir
  ++ pp_single_events s source_dir (sut_dir // "PlatformProfiler")
  ++ wp_v3_events s (source_dir // "WorkloadProfiler")
       (sut_dir // "WorkloadProfiler") 1
       (Py.sorted (listing s (source_dir // "WorkloadProfiler")))
  ++ logs_v3_events s (source_dir // "Logs") (sut_dir // "Results")
  ++ root_v3_events s source_dir (sut_dir // "Results").

(** A single-system source whose archive has an upper-case extension. *)
Definition example_upper : node :=
  Dir [("Logs", Dir [("a", Dir [("l1", File "1")]); ("b", Dir [])]);
       ("WorkloadProfiler", Dir [("CAP.TAR.GZ", File "TAR")])].

(** A single-system source with one archive and nothing in its way. *)
Definition example_archive_only : node :=
  Dir [("Logs", Dir [("a", Dir [("l1", File "1")])]);
       ("WorkloadProfiler", Dir [("cap.tar.gz", File "TAR")])].

(** The event writes the directory [d] or below it. *)
Definition below (d : loc) (e : event) : Prop :=
  exists rest, dest e = (fst d, snd d ++ rest).

(** ** Facts on strings *)

Lemma prefix_length (p s : string) :
  String.prefix p s = true -> String.length p <= String.length s.
Proof.
  revert p. induction s as [|c s IH]; intros [|a p]; simpl; intros H;
    try lia; try discriminate.
  destruct (ascii_dec a c); [|discriminate]. apply IH in H. lia.
Qed.

Lemma prefix_cons (a : ascii) (p s : string) :
  String.prefix (String a p) s = true ->
  exists s', s = String a s' /\ String.prefix p s' = true.
Proof.
  destruct s as [|b s]; cbn [String.prefix]; [discriminate|].
  destruct (ascii_dec a b) as [<-|]; [eauto|discriminate].
Qed.

Lemma partition_length (sep s a b : string) :
  Py.partition sep s = Some (a, b) -> String.length sep <= String.length s.
Proof.
  revert a b. induction s as [|c s IH]; intros a b H.
  - cbn [Py.partition] in H.
    destruct (String.prefix sep "") eqn:E; [|discriminate].
    now apply prefix_length in E.
  - cbn [Py.partition] in H.
    destruct (String.prefix sep (String c s)) eqn:E.
    + now apply prefix_length in E.
    + destruct (Py.partition sep s) as [[a' b']|] eqn:E'; [|discriminate].
      specialize (IH _ _ eq_refl). simpl. lia.
Qed.

Lemma partition_dash_Some (s a b : string) :
  Py.partition "-" s = Some (a, b) -> a = up_to_dash s.
Proof.
  revert a b. induction s as [|c s IH]; intros a b H.
  - discriminate.
  - cbn [Py.partition String.prefix] in H. cbn [up_to_dash].
    destruct (ascii_dec "-" c) as [<-|Hc].
    + destruct s; simpl in H; inversion H; reflexivity.
    + destruct (Ascii.eqb_spec c "-") as [->|_]; [congruence|].
      destruct (Py.partition "-" s) as [[a' b']|]; [|discriminate].
      inversion H; subst. f_equal. eauto.
Qed.

Lemma partition_dash_None (s : string) :
  Py.partition "-" s = None -> up_to_dash s = s.
Proof.
  induction s as [|c s IH]; intros H; [reflexivity|].
  cbn [Py.partition String.prefix] in H. cbn [up_to_dash].
  destruct (ascii_dec "-" c) as [<-|Hc].
  - destruct s; discriminate.
  - destruct (Ascii.eqb_spec c "-") as [->|_]; [congruence|].
    destruct (Py.partition "-" s) as [[a' b']|]; [discriminate|].
    f_equal. auto.
Qed.

(** The first piece of [s.split("-")] is the text up to the first dash. *)
Lemma split_dash_head (s : string) :
  nth_error (Py.split "-" s) 0 = Some (up_to_dash s).
Proof.
  unfold Py.split. destruct s as [|c s]; [reflexivity|].
  cbn [String.length Py.split_aux].
  destruct (Py.partition "-" (String c s)) as [[a b]|] eqn:E;
    cbn [nth_error].
  - f_equal. eapply partition_dash_Some; eauto.
  - f_equal. symmetry. now apply partition_dash_None.
Qed.

(** A later ["log-run"] starts with letters and a dash, so cutting the text
    there does not change the digits read before the next dash. *)
Lemma digits_up_to_dash_piece (rest a b : string) :
  Py.partition "log-run" rest = Some (a, b) ->
  Py.filter_chars Py.isdigit (up_to_dash a)
  = Py.filter_chars Py.isdigit (up_to_dash rest).
Proof.
  revert a b. induction rest as [|c rest IH]; intros a b H.
  - discriminate.
  - cbn [Py.partition] in H.
    destruct (String.prefix "log-run" (String c rest)) eqn:E.
    + inversion H; subst. clear H.
      apply prefix_cons in E as (s1 & E1 & E).
      apply prefix_cons in E as (s2 & -> & E).
      apply prefix_cons in E as (s3 & -> & E).
      apply prefix_cons in E as (s4 & -> & E).
      inversion E1; subst. reflexivity.
    + destruct (Py.partition "log-run" rest) as [[a' b']|] eqn:E';
        [|discriminate].
      inversion H; subst. cbn [up_to_dash].
      destruct (Ascii.eqb c "-"); [reflexivity|].
      cbn [Py.filter_chars]. rewrite (IH _ _ eq_refl). reflexivity.
Qed.

Lemma instance_num_filtered (filename : string) :
  instance_num filename = filtered_instance_num filename.
Proof.
  unfold instance_num, filtered_instance_num, Py.contains.
  destruct (Py.partition "log-run" filename) as [[pre rest]|] eqn:E;
    [|reflexivity].
  pose proof (partition_length _ _ _ _ E) as Hlen. simpl in Hlen.
  unfold Py.split at 1.
  destruct (String.length filename) as [|[|n]] eqn:El; try lia.
  cbn [Py.split_aux]. rewrite E.
  destruct (Py.partition "log-run" rest) as [[a b]|] eqn:E';
    cbn [nth_error];
    match goal with
    | |- context [Py.split "-" ?x] =>
        pose proof (split_dash_head x) as Hd; cbn [nth_error] in Hd; rewrite Hd
    end.
  - now rewrite (digits_up_to_dash_piece _ _ _ E').
  - reflexivity.
Qed.

(** On a text of digits, all the digits are the digits at its head. *)
Lemma digits_only (s : string) :
  Py.all_chars Py.isdigit s = true ->
  Py.filter_chars Py.isdigit s = s /\ leading_digits s = s.
Proof.
  induction s as [|c s IH]; [now split|].
  cbn [Py.all_chars Py.filter_chars leading_digits].
  destruct (Py.isdigit c); [|discriminate]. cbn [andb]. intros H.
  destruct (IH H) as [-> ->]. now split.
Qed.

(** C5, as the code has it.  The instance number of a log file is the
    number written by all the digits, in order, of the text between the
    first "log-run" and the next "-", whatever stands between them; it is 1
    when the name has no "log-run" or that text has no digit.  When that
    text is made of digits only, it is the number that immediately follows
    "log-run"; log-run2-x.txt goes to instance2 and notes.txt to
    instance1. *)
Theorem C5_instance_number :
  (forall filename, instance_num filename = filtered_instance_num filename)
  /\ (forall filename, Py.contains "log-run" filename = false ->
        instance_num filename = 1)
  /\ (forall filename pre rest,
        Py.partition "log-run" filename = Some (pre, rest) ->
        Py.int (Py.filter_chars Py.isdigit (up_to_dash rest)) = None ->
        instance_num filename = 1)
  /\ (forall filename pre rest,
        Py.partition "log-run" filename = Some (pre, rest) ->
        Py.all_chars Py.isdigit (up_to_dash rest) = true ->
        instance_num filename = spec_instance_num filename)
  /\ instance_name (instance_num "log-run2-x.txt") = "instance2"
  /\ instance_name (instance_num "notes.txt") = "instance1".
Proof.
  split; [exact instance_num_filtered|]. split; [|split; [|split; [|split]]].
  - intros f H. rewrite instance_num_filtered. unfold filtered_instance_num.
    unfold Py.contains in H.
    destruct (Py.partition "log-run" f); [discriminate|reflexivity].
  - intros f pre rest H1 H2. rewrite instance_num_filtered.
    unfold filtered_instance_num. now rewrite H1, H2.
  - intros f pre rest H1 H2. rewrite instance_num_filtered.
    unfold filtered_instance_num, spec_instance_num. rewrite H1.
    destruct (digits_only _ H2) as [-> ->]. reflexivity.
  - reflexivity.
  - reflexivity.
Qed.

(** Two names with letters among the digits, and one with digits only. *)
Lemma C5_instance_number_witness :
  instance_num "log-run12b3-4.txt" = 123
  /\ instance_num "log-runx7y-z.txt" = 7
  /\ instance_num "log-run-5.txt" = 1
  /\ instance_num "log-run42-0.txt" = spec_instance_num "log-run42-0.txt".
Proof.
  destruct C5_instance_number as (H & _ & Hnone & Hdigits & _).
  split; [rewrite H; reflexivity|]. split; [rewrite H; reflexivity|].
  split.
  - apply (Hnone "log-run-5.txt" "" "-5.txt"); reflexivity.
  - apply (Hdigits "log-run42-0.txt" "" "42-0.txt"); reflexivity.
Defined.

(** The claim as it is worded fails when the text between "log-run" and
    the next "-" has other characters than digits: the digits that
    immediately follow "log-run" in log-run12b3-4.txt are 12, and none
    follows it in log-runx7y-z.txt. *)
Lemma C5_counterexample :
  instance_num "log-run12b3-4.txt" = 123
  /\ spec_instance_num "log-run12b3-4.txt" = 12
  /\ instance_num "log-runx7y-z.txt" = 7
  /\ spec_instance_num "log-runx7y-z.txt" = 1
  /\ ~ (forall filename, instance_num filename = spec_instance_num filename).
Proof.
  repeat split; try reflexivity.
  intros H. specialize (H "log-run12b3-4.txt"). vm_compute in H.
  discriminate.
Qed.

Lemma drop_all (s : string) : Py.drop (String.length s) s = EmptyString.
Proof. induction s; simpl; auto. Qed.

Lemma endswith_empty (s : string) : Py.endswith s "" = true.
Proof.
  unfold Py.endswith. cbn [String.length Nat.leb andb].
  rewrite Nat.sub_0_r, drop_all. reflexivity.
Qed.

Lemma no_digit_number (sut : string) : no_digit sut -> sut_number sut = "".
Proof.
  unfold no_digit, sut_number.
  induction sut as [|c sut IH]; cbn [Py.all_chars Py.filter_chars];
    [reflexivity|].
  intros H. apply andb_prop in H as [Hc H].
  destruct (Py.isdigit c); [discriminate|auto].
Qed.

Lemma find_ext {A : Type} (f g : A -> bool) (l : list A) :
  (forall x, f x = g x) -> find f l = find g l.
Proof.
  intros H. induction l as [|x l IH]; simpl; [reflexivity|].
  rewrite H, IH. reflexivity.
Qed.

(** C10. For a SUT whose raw name has no digit the numeric key is empty,
    every candidate ends with it, and the folder matched is the first
    top-level entry, in enumeration order, whose lowercased name starts with
    "wp-". *)
Theorem C10_no_digit_sut (sut : string) :
  no_digit sut ->
  sut_number sut = ""
  /\ (forall candidate,
        Py.endswith (Py.lower candidate) (Py.lower (sut_number sut)) = true)
  /\ (forall candidates,
        find (wp_candidate (sut_number sut)) candidates
        = find starts_wp candidates)
  /\ (forall source_dir w,
        find_wp_folder source_dir sut w
        = match node_at w source_dir with
          | Some (Dir es) =>
              (inr (option_map (join source_dir)
                      (find starts_wp (map fst es))), w)
          | _ => os_error w
          end).
Proof.
  intros H. pose proof (no_digit_number _ H) as Hn.
  assert (He : forall candidate,
             Py.endswith (Py.lower candidate) (Py.lower (sut_number sut)) = true).
  { intros c. rewrite Hn. apply endswith_empty. }
  assert (Hf : forall candidates,
             find (wp_candidate (sut_number sut)) candidates
             = find starts_wp candidates).
  { intros l. apply find_ext. intros c. unfold wp_candidate, starts_wp.
    rewrite He. apply andb_true_r. }
  repeat split; auto.
  intros source_dir w. unfold find_wp_folder, bind, os_listdir.
  destruct (node_at w source_dir) as [[d|es]|]; try reflexivity.
  unfold ret. now rewrite Hf.
Qed.

Lemma C10_no_digit_sut_witness :
  no_digit "vm"
  /\ find (wp_candidate (sut_number "vm")) ["vm"; "WP-host9"; "wp-vm"]
     = Some "WP-host9".
Proof.
  split; [reflexivity|].
  destruct (C10_no_digit_sut "vm" eq_refl) as (_ & _ & H & _).
  rewrite H. reflexivity.
Defined.

(** ** Reasoning on computations that return *)

Lemma bind_inr {A B : Type} (m : M A) (k : A -> M B) w b w' :
  bind m k w = (inr b, w') ->
  exists a w1, m w = (inr a, w1) /\ k a w1 = (inr b, w').
Proof.
  unfold bind. destruct (m w) as [[e|a] w1]; intros H; [discriminate|eauto].
Qed.

Lemma write_inr e l f w w' :
  write e l f w = (inr tt, w') ->
  existsb (loc_eqb l) (readonly w) = false
  /\ exists n, f (Some (fs w (fst l))) = Some n
               /\ w' = log e (set_fs (fst l) n w).
Proof.
  unfold write. destruct (existsb _ _); [discriminate|].
  destruct (f _); [|discriminate]. intros H; inversion H; eauto.
Qed.

Lemma basename_join (l : loc) (c : string) : basename (l // c) = c.
Proof. unfold basename, join. simpl. apply last_last. Qed.

Lemma dirname_join (l : loc) (c : string) : dirname (l // c) = l.
Proof.
  unfold dirname, join. simpl. rewrite removelast_last. now destruct l.
Qed.

Lemma flat_map_if {A B : Type} (p : A -> bool) (f : A -> list B) (l : list A) :
  flat_map (fun x => if p x then f x else []) l = flat_map f (filter p l).
Proof.
  induction l as [|x l IH]; simpl; [reflexivity|].
  destruct (p x); simpl; now rewrite IH.
Qed.

Lemma flat_map_single {A B : Type} (f : A -> B) (l : list A) :
  flat_map (fun x => [f x]) l = map f l.
Proof. induction l; simpl; congruence. Qed.

Section Emits.

Variable s : node.

Lemma emits_ret {A : Type} (a : A) : emits s (ret a) a [].
Proof.
  intros w r w' Hs H. inversion H; subst. rewrite app_nil_r. auto.
Qed.

Lemma emits_bind {A B : Type} (m : M A) (k : A -> M B) a e1 b e2 :
  emits s m a e1 -> emits s (k a) b e2 -> emits s (bind m k) b (e1 ++ e2).
Proof.
  intros Hm Hk w r w' Hs H.
  apply bind_inr in H as (a' & w1 & H1 & H2).
  destruct (Hm _ _ _ Hs H1) as (-> & Ht & Hs1).
  destruct (Hk _ _ _ Hs1 H2) as (-> & Ht' & Hs').
  rewrite Ht', Ht, app_assoc. auto.
Qed.

Lemma emits_bind_nil {A B : Type} (m : M A) (k : A -> M B) a b :
  emits s m a [] -> emits s (k a) b [] -> emits s (bind m k) b [].
Proof.
  intros. change (@nil event) with (@nil event ++ []).
  eapply emits_bind; eauto.
Qed.

Lemma emits_conv {A : Type} (m : M A) a a' e e' :
  emits s m a e -> a = a' -> e = e' -> emits s m a' e'.
Proof. intros; subst; auto. Qed.

Lemma emits_if {A : Type} (b : bool) (m1 m2 : M A) a1 a2 e1 e2 :
  emits s m1 a1 e1 -> emits s m2 a2 e2 ->
  emits s (if b then m1 else m2) (if b then a1 else a2) (if b then e1 else e2).
Proof. destruct b; auto. Qed.

Lemma emits_if_unit (b : bool) (m1 m2 : M unit) e1 e2 :
  emits s m1 tt e1 -> emits s m2 tt e2 ->
  emits s (if b then m1 else m2) tt (if b then e1 else e2).
Proof. destruct b; auto. Qed.

Lemma emits_when (b : bool) (m : M unit) e :
  emits s m tt e -> emits s (when b m) tt (if b then e else []).
Proof. destruct b; simpl; auto using emits_ret. Qed.

Lemma emits_for {A : Type} (xs : list A) (body : A -> M unit) f :
  (forall x, emits s (body x) tt (f x)) ->
  emits s (for_ xs body) tt (flat_map f xs).
Proof.
  intros Hb. induction xs as [|x xs IH]; simpl.
  - apply emits_ret.
  - eapply emits_bind; eauto.
Qed.

Lemma emits_filterM {A : Type} (xs : list A) (p : A -> M bool) g :
  (forall x, emits s (p x) (g x) []) ->
  emits s (filterM p xs) (filter g xs) [].
Proof.
  intros Hp. induction xs as [|x xs IH]; simpl.
  - apply emits_ret.
  - eapply emits_conv.
    + eapply emits_bind_nil; [apply Hp|].
      eapply emits_bind_nil; [apply IH|]. apply emits_ret.
    + destruct (g x); reflexivity.
    + reflexivity.
Qed.

Lemma emits_read {A : Type} (g : world -> A) (h : node -> A) :
  (forall w, g w = h (source w)) ->
  emits s (fun w => (inr (g w), w)) (h s) [].
Proof.
  intros Hg w r w' Hs H. inversion H; subst.
  rewrite app_nil_r, Hg. auto.
Qed.

Lemma emits_exists l :
  fst l = Source -> emits s (os_path_exists l) (exists_in s l) [].
Proof.
  intros Hl. unfold os_path_exists, exists_in.
  apply (emits_read _ (fun n => is_some (lookup (snd l) n))).
  intros w. unfold node_at. now rewrite Hl.
Qed.

Lemma emits_isdir l :
  fst l = Source -> emits s (os_path_isdir l) (isdir_in s l) [].
Proof.
  intros Hl. unfold os_path_isdir, isdir_in.
  apply (emits_read _ (fun n => is_dir (lookup (snd l) n))).
  intros w. unfold node_at. now rewrite Hl.
Qed.

Lemma emits_isfile l :
  fst l = Source -> emits s (os_path_isfile l) (isfile_in s l) [].
Proof.
  intros Hl. unfold os_path_isfile, isfile_in.
  apply (emits_read _ (fun n => is_file (lookup (snd l) n))).
  intros w. unfold node_at. now rewrite Hl.
Qed.

Lemma emits_walk l :
  fst l = Source -> emits s (os_walk l) (walk_in s l) [].
Proof.
  intros Hl. unfold os_walk, walk_in.
  apply (emits_read _ (fun n => match lookup (snd l) n with
                                | Some n' => walk n'
                                | None => []
                                end)).
  intros w. unfold node_at. now rewrite Hl.
Qed.

Lemma emits_listdir l :
  fst l = Source -> emits s (os_listdir l) (listing s l) [].
Proof.
  intros Hl w r w' Hs H. unfold os_listdir, node_at, listing in *.
  rewrite Hl in H. simpl in H. rewrite Hs in H.
  destruct (lookup (snd l) s) as [[d|es]|]; try discriminate.
  inversion H; subst. rewrite app_nil_r. auto.
Qed.

Lemma emits_print m : emits s (print m) tt [].
Proof.
  intros w [] w' Hs H. inversion H; subst. cbn. rewrite app_nil_r. auto.
Qed.

Lemma emits_write e l f : fst l = Target -> emits s (write e l f) tt [e].
Proof.
  intros Hl w r w' Hs H. destruct r.
  apply write_inr in H as (_ & n & _ & ->). rewrite Hl. simpl. auto.
Qed.

Lemma emits_makedirs l :
  fst l = Target -> emits s (os_makedirs l) tt [Makedirs l].
Proof. intros. now apply emits_write. Qed.

Lemma emits_copy from to :
  fst to = Target -> emits s (shutil_copy from to) tt [Copy from to].
Proof.
  intros Hl w r w' Hs H. unfold shutil_copy in H.
  destruct (node_at w from) as [[d|es]|]; try discriminate.
  eapply emits_write; [| exact Hs | exact H].
  destruct (is_dir _); simpl; auto.
Qed.

Lemma emits_copytree from to :
  fst to = Target -> emits s (shutil_copytree from to) tt [Copytree from to].
Proof.
  intros Hl w r w' Hs H. unfold shutil_copytree in H.
  destruct (node_at w from) as [[d|es]|]; try discriminate.
  eapply emits_write; [| exact Hs | exact H]. exact Hl.
Qed.

Lemma emits_copytree_new from to :
  fst to = Target ->
  emits s (shutil_copytree_new from to) tt [Copytree from to].
Proof.
  intros Hl w r w' Hs H. unfold shutil_copytree_new in H.
  destruct (is_some _); try discriminate.
  eapply emits_copytree; eauto.
Qed.

(** Computations that raise. *)

Lemma never_emits {A : Type} (m : M A) a e : never s m -> emits s m a e.
Proof. intros Hn w r w' Hs H. now destruct (Hn _ _ _ Hs H). Qed.

Lemma never_bind {A B : Type} (m : M A) (k : A -> M B) :
  never s m -> never s (bind m k).
Proof.
  intros Hn w r w' Hs H. apply bind_inr in H as (a & w1 & H1 & _).
  exact (Hn _ _ _ Hs H1).
Qed.

Lemma never_bind_after {A B : Type} (m : M A) (k : A -> M B) a e :
  emits s m a e -> never s (k a) -> never s (bind m k).
Proof.
  intros Hm Hn w r w' Hs H. apply bind_inr in H as (a' & w1 & H1 & H2).
  destruct (Hm _ _ _ Hs H1) as (-> & _ & Hs1).
  exact (Hn _ _ _ Hs1 H2).
Qed.

Lemma never_listdir l :
  fst l = Source -> isdir_in s l = false -> never s (os_listdir l).
Proof.
  intros Hl Hd w r w' Hs H. unfold os_listdir, node_at, isdir_in in *.
  rewrite Hl in H. simpl in H. rewrite Hs in H.
  destruct (lookup (snd l) s) as [[d|es]|]; discriminate.
Qed.

End Emits.

Ltac loc_side :=
  solve [ unfold join, join_rel, dirname; simpl;
          repeat match goal with
                 | |- context [if ?b then _ else _] => destruct b; simpl
                 end;
          try assumption; try reflexivity ].

Ltac emits_step :=
  match goal with
  | |- emits _ (bind _ _) _ [] => eapply emits_bind_nil
  | |- emits _ (bind _ _) _ _ => eapply emits_bind
  | |- emits _ (ret _) _ _ => apply emits_ret
  | |- emits _ (when _ _) _ _ => eapply emits_when
  | |- emits _ (for_ _ _) _ _ => eapply emits_for; intros
  | |- emits _ (filterM _ _) _ _ => eapply emits_filterM; intros
  | |- emits _ (os_path_exists _) _ _ => eapply emits_exists; loc_side
  | |- emits _ (os_path_isdir _) _ _ => eapply emits_isdir; loc_side
  | |- emits _ (os_path_isfile _) _ _ => eapply emits_isfile; loc_side
  | |- emits _ (os_listdir _) _ _ => eapply emits_listdir; loc_side
  | |- emits _ (os_walk _) _ _ => eapply emits_walk; loc_side
  | |- emits _ (print _) _ _ => eapply emits_print
  | |- emits _ (os_makedirs _) _ _ => eapply emits_makedirs; loc_side
  | |- emits _ (shutil_copy _ _) _ _ => eapply emits_copy; loc_side
  | |- emits _ (shutil_copytree _ _) _ _ => eapply emits_copytree; loc_side
  | |- emits _ (shutil_copytree_new _ _) _ _ =>
      eapply emits_copytree_new; loc_side
  | |- emits _ (if _ then _ else _) _ _ =>
      first [eapply emits_if_unit | eapply emits_if]
  end.

(** Builds the writes of a computation from its text. *)
Ltac emits_auto :=
  eapply emits_conv; [ repeat emits_step | try reflexivity | ].

(** ** Facts on trees and on sorting *)

Lemma assoc_set_same c x es : assoc c (set_entry c x es) = Some x.
Proof.
  induction es as [|[k v] es IH]; simpl.
  - now rewrite String.eqb_refl.
  - destruct (String.eqb c k) eqn:E; simpl; rewrite E; auto.
Qed.

Lemma assoc_set_other c d x es :
  d <> c -> assoc d (set_entry c x es) = assoc d es.
Proof.
  intros Hd. induction es as [|[k v] es IH]; simpl.
  - destruct (String.eqb_spec d c); [contradiction|reflexivity].
  - destruct (String.eqb_spec c k) as [->|Hk]; simpl.
    + destruct (String.eqb_spec d k); [contradiction|reflexivity].
    + now rewrite IH.
Qed.

Lemma lookup_alter p f cur n :
  alter p f cur = Some n ->
  exists x, f (match cur with
               | Some c => lookup p c
               | None => None
               end) = Some x /\ lookup p n = Some x.
Proof.
  revert cur n. induction p as [|c p IH]; intros cur n H; simpl in H.
  - destruct cur; simpl; eauto.
  - destruct cur as [[d|es]|]; try discriminate.
    destruct (alter p f (assoc c es)) as [x|] eqn:E; [|discriminate].
    inversion H; subst. apply IH in E as (y & Hy & Hl).
    exists y. simpl. rewrite assoc_set_same. split; [|exact Hl].
    destruct (assoc c es); exact Hy.
Qed.

Lemma insert_perm x l : Permutation (Py.insert x l) (x :: l).
Proof.
  induction l as [|y l IH]; simpl; [reflexivity|].
  destruct (String.leb x y); [reflexivity|].
  rewrite IH. apply perm_swap.
Qed.

Lemma sorted_perm l : Permutation (Py.sorted l) l.
Proof.
  induction l as [|x l IH]; simpl; [reflexivity|].
  rewrite insert_perm. now constructor.
Qed.

Lemma insert_sorted x l :
  Sorted str_le l -> Sorted str_le (Py.insert x l).
Proof.
  induction l as [|y l IH]; intros Hs; simpl.
  - repeat constructor.
  - destruct (String.leb x y) eqn:E.
    + constructor; [assumption|]. constructor. exact E.
    + inversion Hs as [|? ? Hs' Hhd]; subst.
      constructor; [auto|].
      assert (Hyx : str_le y x).
      { destruct (String.leb_total x y) as [H|H]; [congruence|exact H]. }
      destruct l as [|z l]; simpl.
      * constructor. exact Hyx.
      * destruct (String.leb x z); constructor; [exact Hyx|].
        now inversion Hhd.
Qed.

Lemma sorted_sorted l : Sorted str_le (Py.sorted l).
Proof.
  induction l as [|x l IH]; simpl; [constructor|]. now apply insert_sorted.
Qed.

Lemma enumerate_nth {A : Type} (l : list A) : forall k i,
  nth_error (Py.enumerate k l) i
  = option_map (pair (k + i)) (nth_error l i).
Proof.
  induction l as [|x l IH]; intros k [|i]; simpl; try reflexivity.
  - now rewrite Nat.add_0_r.
  - rewrite IH. now rewrite Nat.add_succ_r.
Qed.

Lemma node_ind2 (P : node -> Prop) :
  (forall d, P (File d)) ->
  (forall es, Forall (fun e => P (snd e)) es -> P (Dir es)) ->
  forall n, P n.
Proof.
  intros HF HD. fix IH 1. intros [d|es]; [apply HF|]. apply HD.
  induction es as [|[k v] es IHes]; constructor; [apply IH|exact IHes].
Qed.

Lemma dirs_le_refl a : dirs_le a a.
Proof. intros q H. exact H. Qed.

Lemma dirs_le_trans a b c : dirs_le a b -> dirs_le b c -> dirs_le a c.
Proof. intros H1 H2 q H. auto. Qed.

Lemma dirs_le_none b : dirs_le None b.
Proof. intros q H. discriminate. Qed.

Lemma dirs_le_file d b : dirs_le (Some (File d)) b.
Proof. intros [|c q] H; discriminate. Qed.

Lemma lookup_cons c q es :
  lookup (c :: q) (Dir es) = olookup q (assoc c es).
Proof. simpl. now destruct (assoc c es). Qed.

Lemma dirs_le_set c x es :
  dirs_le (assoc c es) (Some x) ->
  dirs_le (Some (Dir es)) (Some (Dir (set_entry c x es))).
Proof.
  intros H [|d q]; [reflexivity|].
  cbn [olookup]. rewrite !lookup_cons.
  destruct (String.eqb_spec d c) as [->|Hd].
  - rewrite assoc_set_same. apply H.
  - now rewrite assoc_set_other.
Qed.

Lemma mkdirs_dirs_le p : forall cur n,
  mkdirs p cur = Some n -> dirs_le cur (Some n).
Proof.
  induction p as [|c p IH]; intros [[d|es]|] n H; cbn [mkdirs] in H;
    try discriminate; try apply dirs_le_none.
  - inversion H. apply dirs_le_refl.
  - destruct (mkdirs p (assoc c es)) as [x|] eqn:E; [|discriminate].
    inversion H. apply dirs_le_set. eauto.
Qed.

Lemma mkdirs_is_dir p : forall cur n,
  mkdirs p cur = Some n -> is_dir (lookup p n) = true.
Proof.
  induction p as [|c p IH]; intros cur n H.
  - destruct cur as [[d|es]|]; cbn [mkdirs] in H; try discriminate;
      inversion H; reflexivity.
  - assert (He : exists es x, mkdirs p (assoc c es) = Some x
                              /\ n = Dir (set_entry c x es)).
    { destruct cur as [[d|es]|]; cbn [mkdirs] in H; try discriminate.
      - destruct (mkdirs p (assoc c es)) as [x|] eqn:E; [|discriminate].
        inversion H. eauto.
      - destruct (mkdirs p (assoc c [])) as [x|] eqn:E; [|discriminate].
        inversion H. eauto. }
    destruct He as (es & x & E & ->).
    rewrite lookup_cons, assoc_set_same. cbn [olookup]. eauto.
Qed.

Lemma alter_dirs_le f p :
  (forall cur x, f cur = Some x -> dirs_le cur (Some x)) ->
  forall cur n, alter p f cur = Some n -> dirs_le cur (Some n).
Proof.
  intros Hf. induction p as [|c p IH]; intros cur n H; cbn [alter] in H.
  - auto.
  - destruct cur as [[d|es]|]; try discriminate.
    destruct (alter p f (assoc c es)) as [x|] eqn:E; [|discriminate].
    inversion H. apply dirs_le_set. eauto.
Qed.

Lemma put_file_dirs_le data cur x :
  put_file data cur = Some x -> dirs_le cur (Some x).
Proof.
  destruct cur as [[d|es]|]; intros H;
    [apply dirs_le_file | discriminate | apply dirs_le_none].
Qed.

Lemma merge_with_dirs_le es :
  Forall (fun e => forall cur x, merge (snd e) cur = Some x ->
                                 dirs_le cur (Some x)) es ->
  forall ds ds', merge_with merge es ds = Some ds' ->
                 dirs_le (Some (Dir ds)) (Some (Dir ds')).
Proof.
  induction 1 as [|[name child] es Hc _ IH]; intros ds ds' H;
    cbn [merge_with] in H.
  - inversion H. apply dirs_le_refl.
  - destruct (merge child (assoc name ds)) as [c'|] eqn:E; [|discriminate].
    eapply dirs_le_trans; [|eapply IH; exact H].
    apply dirs_le_set. eapply (Hc _ _ E).
Qed.

Lemma merge_dirs_le s : forall cur x,
  merge s cur = Some x -> dirs_le cur (Some x).
Proof.
  induction s as [data|es IH] using node_ind2; intros cur x H;
    cbn [merge] in H.
  - eapply put_file_dirs_le; eauto.
  - destruct cur as [[d|ds]|]; [discriminate| |apply dirs_le_none].
    destruct (merge_with merge es ds) as [ds'|] eqn:E; [|discriminate].
    inversion H. eapply merge_with_dirs_le; eauto.
Qed.

(** *** Creating a directory and removing it again *)

Lemma del_set c y es : del_entry c (set_entry c y es) = del_entry c es.
Proof.
  induction es as [|[k v] es IH]; simpl.
  - now rewrite String.eqb_refl.
  - destruct (String.eqb c k) eqn:E; simpl; rewrite E; [reflexivity|].
    now rewrite IH.
Qed.

Lemma del_absent c es : assoc c es = None -> del_entry c es = es.
Proof.
  induction es as [|[k v] es IH]; simpl; [reflexivity|].
  destruct (String.eqb c k); [discriminate|]. intros H. now rewrite IH.
Qed.

Lemma set_set c x y es : set_entry c y (set_entry c x es) = set_entry c y es.
Proof.
  induction es as [|[k v] es IH]; simpl.
  - now rewrite String.eqb_refl.
  - destruct (String.eqb c k) eqn:E; simpl; rewrite E; [reflexivity|].
    now rewrite IH.
Qed.

Lemma set_same c ch es : assoc c es = Some ch -> set_entry c ch es = es.
Proof.
  induction es as [|[k v] es IH]; simpl; [discriminate|].
  destruct (String.eqb_spec c k) as [->|Hk].
  - now intros [= ->].
  - intros H. now rewrite IH.
Qed.

Lemma remove_absent p : forall n, lookup p n = None -> remove p n = n.
Proof.
  induction p as [|c p IH]; intros [d|es] H; try reflexivity.
  cbn [remove]. cbn [lookup] in H.
  destruct (assoc c es) as [ch|] eqn:E; [|reflexivity].
  destruct p as [|c' p]; [discriminate|].
  rewrite (IH _ H). now rewrite (set_same _ _ _ E).
Qed.

(** Rewriting the directory at [p] into a directory does not change what is
    left once it is removed. *)
Lemma remove_alter f p : forall n1 n2,
  p <> [] ->
  (forall cur y, f cur = Some y -> is_dir (Some y) = true) ->
  is_dir (lookup p n1) = true ->
  alter p f (Some n1) = Some n2 ->
  remove p n2 = remove p n1.
Proof.
  intros n1 n2 Hp Hf. revert n1 n2.
  induction p as [|c p IH]; [contradiction|]. clear Hp.
  intros [d|es] n2 Hd H; cbn [alter] in H; [discriminate|].
  destruct (alter p f (assoc c es)) as [x|] eqn:E; [|discriminate].
  inversion H; subst n2. clear H.
  cbn [lookup] in Hd. destruct (assoc c es) as [ch|] eqn:Ec;
    [|discriminate].
  cbn [remove]. rewrite assoc_set_same, Ec.
  destruct p as [|c' p].
  - cbn [alter lookup] in E, Hd. rewrite Hd, (Hf _ _ E).
    now rewrite del_set.
  - rewrite set_set. f_equal. f_equal.
    apply IH; [discriminate|exact Hd|exact E].
Qed.

(** A directory created where there was nothing, in a directory that was
    there, is all that [remove] takes away. *)
Lemma remove_mkdirs q c : forall n es n1,
  lookup q n = Some (Dir es) -> assoc c es = None ->
  mkdirs (q ++ [c]) (Some n) = Some n1 ->
  remove (q ++ [c]) n1 = n.
Proof.
  induction q as [|d q IH]; intros n es n1 Hq Hc H.
  - cbn [lookup] in Hq. inversion Hq; subst n. clear Hq.
    cbn [app mkdirs] in H. rewrite Hc in H. inversion H; subst n1.
    cbn [app remove]. rewrite assoc_set_same. cbn [is_dir].
    now rewrite del_set, del_absent.
  - destruct n as [data|es0]; [discriminate|].
    cbn [lookup] in Hq. destruct (assoc d es0) as [ch|] eqn:Ed;
      [|discriminate].
    cbn [app mkdirs] in H.
    change (fix app (l m : list string) {struct l} : list string :=
              match l with
              | [] => m
              | a :: l1 => a :: app l1 m
              end) with (@app string) in H.
    rewrite Ed in H.
    destruct (mkdirs (q ++ [c]) (Some ch)) as [x|] eqn:E; [|discriminate].
    inversion H; subst n1. clear H.
    cbn [app remove]. rewrite assoc_set_same.
    destruct (q ++ [c]) as [|c' p'] eqn:Eq; [now destruct q|].
    rewrite set_set, (IH _ _ _ Hq Hc E).
    now rewrite (set_same _ _ _ Ed).
Qed.

Lemma merge_dir_is_dir es cur y :
  merge (Dir es) cur = Some y -> is_dir (Some y) = true.
Proof.
  cbn [merge]. destruct cur as [[d|ds]|]; try discriminate;
    destruct (merge_with merge es _); intros H; inversion H; reflexivity.
Qed.

(** With nothing to keep, nothing is left of a tree. *)
Lemma prune_none keep :
  (forall q, keep q = false) -> forall n p, prune keep p n = None.
Proof.
  intros Hk. induction n as [d|es IH] using node_ind2; intros p;
    cbn [prune]; rewrite Hk; [reflexivity|].
  cbn [orb].
  assert (E : (fix go (es : list (string * node)) : list (string * node) :=
                 match es with
                 | [] => []
                 | (name, child) :: es' =>
                     match prune keep (p ++ [name]) child with
                     | Some kept => (name, kept) :: go es'
                     | None => go es'
                     end
                 end) es = []).
  { induction IH as [|[k v] es Hv _ IHes]; [reflexivity|].
    cbn [snd] in Hv. rewrite Hv. exact IHes. }
  now rewrite E.
Qed.

Lemma rmtree_remove keep p n :
  (forall q, keep q = false) -> rmtree keep p n = remove p n.
Proof.
  intros Hk. unfold rmtree.
  destruct (lookup p n) as [[d|es]|]; try reflexivity.
  now rewrite (prune_none keep Hk).
Qed.

(** [os.makedirs] leaves the regular files where they are. *)
Lemma mkdirs_keeps_file q : forall cur n,
  mkdirs q cur = Some n ->
  forall p d, olookup p cur = Some (File d) -> lookup p n = Some (File d).
Proof.
  induction q as [|c q IH]; intros cur n H p d Hp;
    destruct cur as [[d'|es]|]; cbn [mkdirs olookup] in H, Hp;
    try discriminate.
  - inversion H; subst. exact Hp.
  - destruct (mkdirs q (assoc c es)) as [x|] eqn:E; [|discriminate].
    inversion H; subst n. clear H.
    destruct p as [|c' p]; [discriminate|].
    rewrite lookup_cons in Hp |- *.
    destruct (String.eqb c' c) eqn:Ec.
    + apply String.eqb_eq in Ec. subst c'. rewrite assoc_set_same.
      eapply IH; [exact E|exact Hp].
    + rewrite assoc_set_other; [exact Hp|].
      intros ->. now rewrite String.eqb_refl in Ec.
Qed.

(** A directory that [os.makedirs] creates is empty. *)
Lemma mkdirs_fresh p : forall cur n,
  mkdirs p cur = Some n -> olookup p cur = None -> lookup p n = Some (Dir []).
Proof.
  induction p as [|c p IH]; intros cur n H Hp.
  - destruct cur as [x|]; [discriminate|]. cbn in H. now inversion H.
  - assert (He : exists es x, mkdirs p (assoc c es) = Some x
                              /\ n = Dir (set_entry c x es)
                              /\ olookup p (assoc c es) = None).
    { destruct cur as [[d|es]|]; cbn [mkdirs] in H; try discriminate.
      - destruct (mkdirs p (assoc c es)) as [x|] eqn:E; [|discriminate].
        inversion H. cbn [olookup] in Hp. rewrite lookup_cons in Hp. eauto.
      - destruct (mkdirs p (assoc c [])) as [x|] eqn:E; [|discriminate].
        inversion H. exists [], x. cbn. auto. }
    destruct He as (es & x & E & -> & Hp').
    rewrite lookup_cons, assoc_set_same. cbn [olookup]. eauto.
Qed.

(** ** The writes of the parts of the engine *)

Lemma listing_not_dir s l : isdir_in s l = false -> listing s l = [].
Proof.
  unfold isdir_in, listing. now destruct (lookup (snd l) s) as [[d|es]|].
Qed.

Lemma exists_not_dir s l : exists_in s l = false -> isdir_in s l = false.
Proof.
  unfold isdir_in, exists_in. now destruct (lookup (snd l) s) as [[d|es]|].
Qed.

Lemma isdir_exists s l : isdir_in s l = true -> exists_in s l = true.
Proof.
  unfold isdir_in, exists_in. now destruct (lookup (snd l) s) as [[d|es]|].
Qed.

Lemma nonempty_false {A : Type} (l : list A) : nonempty l = false -> l = [].
Proof. destruct l; [reflexivity|discriminate]. Qed.

Section Sections.

Variable s : node.
Variables source_dir : loc.
Hypothesis Hsource : fst source_dir = Source.

Lemma create_sut_dirs_emits sut_dir :
  fst sut_dir = Target ->
  emits s (create_sut_dirs sut_dir) tt (skeleton_events sut_dir).
Proof. intros Ht. unfold create_sut_dirs. emits_auto. reflexivity. Qed.

Lemma identify_suts_emits :
  emits s (identify_suts source_dir) (suts_of s source_dir) [].
Proof. unfold identify_suts. emits_auto. reflexivity. Qed.

Lemma copy_pp_run_emits folder ppdir idx_sub :
  fst folder = Source -> fst ppdir = Target ->
  emits s (copy_pp_run folder ppdir idx_sub) tt
    (pp_run_events s folder ppdir idx_sub).
Proof.
  intros Hf Ht. destruct idx_sub as [idx sub]. unfold copy_pp_run.
  emits_auto. unfold pp_run_events, files_in. cbn [fst snd app].
  f_equal. rewrite ?app_nil_r, flat_map_if. apply flat_map_single.
Qed.

Lemma copy_platform_profiler_emits ppdir :
  fst ppdir = Target ->
  emits s (copy_platform_profiler source_dir ppdir) tt
    (pp_events s source_dir ppdir).
Proof.
  intros Ht. unfold copy_platform_profiler.
  eapply emits_conv; [| reflexivity |].
  - eapply emits_for. intros name.
    eapply (emits_conv _ _ _ _ _
              (pp_folder_events s (source_dir // name) ppdir));
      [| reflexivity |].
    + repeat emits_step. all: apply copy_pp_run_emits; loc_side.
    + fold (subdirs_in s (source_dir // name)).
      fold (files_in s (source_dir // name)).
      unfold pp_folder_events.
      destruct (exists_in s (source_dir // name)) eqn:Ex.
      * cbn [app]. destruct (subdirs_in s (source_dir // name)) eqn:Esub;
          cbn [nonempty negb andb].
        -- rewrite andb_true_r, flat_map_single.
           now destruct (files_in s (source_dir // name)).
        -- rewrite andb_false_r. now rewrite ?app_nil_r.
      * apply exists_not_dir, listing_not_dir in Ex.
        unfold subdirs_in, files_in. now rewrite Ex.
  - unfold pp_events. simpl. now rewrite ?app_nil_r.
Qed.

Lemma find_wp_folder_emits sut :
  emits s (find_wp_folder source_dir sut) (wp_folder_of s source_dir sut) [].
Proof. unfold find_wp_folder. emits_auto. reflexivity. Qed.

Lemma copy_wp_file_emits wp_folder wpdir idx_file :
  fst wp_folder = Source -> fst wpdir = Target ->
  emits s (copy_wp_file wp_folder wpdir idx_file) tt
    (wp_file_events s wp_folder wpdir idx_file).
Proof.
  intros Hf Ht. destruct idx_file as [idx f]. unfold copy_wp_file.
  emits_auto. fold (iteration_folders s wp_folder).
  unfold wp_file_events, wp_iterations. cbn [fst snd app].
  destruct (nonempty (iteration_folders s wp_folder)); reflexivity.
Qed.

Lemma copy_workload_profiler_emits wp_folder wpdir :
  fst wp_folder = Source -> fst wpdir = Target ->
  emits s (copy_workload_profiler (Some wp_folder) wpdir) tt
    (wp_events s wp_folder wpdir).
Proof.
  intros Hf Ht. unfold copy_workload_profiler.
  eapply emits_conv; [| reflexivity |].
  - repeat emits_step. apply copy_wp_file_emits; assumption.
  - fold (json_files s wp_folder). unfold wp_events. cbn [app].
    destruct (exists_in s wp_folder) eqn:Ex.
    + now rewrite ?app_nil_r.
    + apply exists_not_dir, listing_not_dir in Ex.
      unfold json_files. now rewrite Ex.
Qed.

Lemma wp_folder_of_source sut wp_folder :
  wp_folder_of s source_dir sut = Some wp_folder -> fst wp_folder = Source.
Proof.
  unfold wp_folder_of. destruct (find _ _); [|discriminate].
  intros H. inversion H. exact Hsource.
Qed.

Lemma copy_wp_sut_emits sut wpdir :
  fst wpdir = Target ->
  emits s (copy_workload_profiler (wp_folder_of s source_dir sut) wpdir) tt
    (wp_sut_events s source_dir sut wpdir).
Proof.
  intros Ht. unfold wp_sut_events.
  destruct (wp_folder_of s source_dir sut) as [wp|] eqn:E.
  - apply copy_workload_profiler_emits; [|assumption].
    eapply wp_folder_of_source; eauto.
  - apply emits_ret.
Qed.

Lemma copy_log_file_emits source_item iteration_dir :
  fst iteration_dir = Target ->
  emits s (copy_log_file source_item iteration_dir) tt
    (log_file_events source_item iteration_dir).
Proof. intros Ht. unfold copy_log_file. emits_auto. reflexivity. Qed.

Lemma copy_iteration_emits strict run_path results_dir n iteration :
  fst run_path = Source -> fst results_dir = Target ->
  emits s (copy_iteration strict run_path results_dir n iteration) tt
    (iteration_events s strict run_path results_dir n iteration).
Proof.
  intros Hf Ht. unfold copy_iteration.
  eapply emits_conv; [| reflexivity |].
  - repeat emits_step. apply copy_log_file_emits. loc_side.
  - fold (subdirs_in s (run_path // iteration)).
    unfold iteration_events, instance_events. cbn [app].
    destruct (nonempty (subdirs_in s (run_path // iteration))).
    + apply flat_map_ext. intros instance. cbn [app]. f_equal.
      rewrite ?app_nil_r. apply flat_map_ext. intros item.
      destruct (isfile_in s _); [reflexivity|].
      cbn [app]. destruct (isdir_in s _); [|reflexivity].
      now destruct strict.
    + rewrite ?app_nil_r. apply flat_map_ext. intros item.
      destruct (isfile_in s _); [reflexivity|].
      cbn [app]. destruct (isdir_in s _); [|reflexivity].
      destruct strict; cbn [app]; [reflexivity|].
      now rewrite dirname_join.
Qed.

Lemma copy_no_iterations_emits run_path results_dir n :
  fst run_path = Source -> fst results_dir = Target ->
  emits s (copy_no_iterations run_path results_dir n) tt
    (no_iteration_events s run_path results_dir n).
Proof.
  intros Hf Ht. unfold copy_no_iterations.
  destruct (exists_in s (run_path // "BenchmarkLog")) eqn:Ex.
  - destruct (isdir_in s (run_path // "BenchmarkLog")) eqn:Ed.
    + eapply emits_conv; [| reflexivity |].
      * repeat emits_step. apply copy_log_file_emits. loc_side.
      * rewrite Ex. unfold no_iteration_events, benchmark_base, files_in.
        rewrite Ed. cbn [app]. now rewrite flat_map_if.
    + apply never_emits. eapply never_bind_after.
      * apply emits_exists. loc_side.
      * rewrite Ex. apply never_bind. apply never_listdir; [loc_side|exact Ed].
  - eapply emits_conv; [| reflexivity |].
    + repeat emits_step. apply copy_log_file_emits. loc_side.
    + rewrite Ex. unfold no_iteration_events, benchmark_base, files_in.
      rewrite (exists_not_dir _ _ Ex). cbn [app]. now rewrite flat_map_if.
Qed.

Lemma copy_run_emits strict run_path results_dir n :
  fst run_path = Source -> fst results_dir = Target ->
  emits s (copy_run strict run_path results_dir n) tt
    (run_events s strict run_path results_dir n).
Proof.
  intros Hf Ht. unfold copy_run.
  eapply emits_conv; [| reflexivity |].
  - repeat emits_step.
    + apply copy_iteration_emits; assumption.
    + apply copy_no_iterations_emits; assumption.
  - reflexivity.
Qed.

Lemma copy_runs_emits strict vm_dir results_dir names : forall n,
  fst vm_dir = Source -> fst results_dir = Target ->
  emits s (copy_runs strict vm_dir results_dir n names) tt
    (runs_events s strict vm_dir results_dir n
       (filter (fun d => isdir_in s (vm_dir // d)) names)).
Proof.
  induction names as [|d names IH]; intros n Hf Ht; cbn [copy_runs filter].
  - apply emits_ret.
  - eapply emits_conv; [| reflexivity |].
    + eapply emits_bind; [apply emits_isdir; loc_side|].
      eapply emits_if_unit.
      * apply IH; assumption.
      * eapply emits_bind; [apply copy_run_emits; assumption|].
        apply IH; assumption.
    + cbn [app]. destruct (isdir_in s (vm_dir // d)); reflexivity.
Qed.

Lemma copy_results_emits strict sut results_dir :
  fst results_dir = Target ->
  emits s (copy_results strict source_dir sut results_dir) tt
    (results_events s strict source_dir sut results_dir).
Proof.
  intros Ht. unfold copy_results.
  eapply emits_conv; [| reflexivity |].
  - eapply emits_bind; [apply emits_listdir; loc_side|].
    apply copy_runs_emits; [loc_side|assumption].
  - reflexivity.
Qed.

Lemma run_mappers_emits strict sut_dir sut :
  fst sut_dir = Target ->
  emits s (run_mappers strict source_dir sut_dir sut) tt
    (mapper_events s strict source_dir sut_dir sut).
Proof.
  intros Ht. unfold run_mappers.
  eapply emits_conv; [| reflexivity |].
  - eapply emits_bind; [apply copy_platform_profiler_emits; loc_side|].
    eapply emits_bind; [apply find_wp_folder_emits|].
    eapply emits_bind; [apply copy_wp_sut_emits; loc_side|].
    apply copy_results_emits; loc_side.
  - reflexivity.
Qed.

Lemma restructure_sut_emits strict uuid_dir sut :
  fst uuid_dir = Target ->
  emits s (restructure_sut strict source_dir uuid_dir sut) tt
    (sut_events s strict source_dir uuid_dir sut).
Proof.
  intros Ht. unfold restructure_sut.
  eapply emits_bind; [apply create_sut_dirs_emits; loc_side|].
  apply run_mappers_emits; loc_side.
Qed.

Lemma copy_root_files_emits uuid_dir suts :
  fst uuid_dir = Target ->
  emits s (copy_root_files source_dir uuid_dir suts) tt
    (root_events s source_dir uuid_dir suts).
Proof.
  intros Ht. unfold copy_root_files. emits_auto.
  unfold root_events, files_in. cbn [app].
  etransitivity;
    [apply (flat_map_if (fun x => isfile_in s (source_dir // x)))|].
  apply flat_map_ext. intros item. apply flat_map_single.
Qed.

Lemma multi_system_emits strict uuid_dir suts :
  fst uuid_dir = Target ->
  emits s (multi_system strict source_dir uuid_dir suts) tt
    (multi_events s strict source_dir uuid_dir suts).
Proof.
  intros Ht. unfold multi_system.
  eapply emits_bind.
  - eapply emits_for. intros sut. apply restructure_sut_emits; assumption.
  - apply copy_root_files_emits; assumption.
Qed.

Lemma copy_root_files_single_emits sut_dir results_dir :
  fst sut_dir = Target -> fst results_dir = Target ->
  emits s (copy_root_files_single source_dir sut_dir results_dir) tt
    (root_single_events s source_dir sut_dir results_dir).
Proof.
  intros Ht Hr. unfold copy_root_files_single. emits_auto.
  unfold root_single_events, files_in. cbn [app].
  rewrite <- (flat_map_if (fun x => isfile_in s (source_dir // x))).
  apply flat_map_ext. intros item.
  destruct (isfile_in s (source_dir // item)); reflexivity.
Qed.

End Sections.

(** ** Properties kept by every step of the engine

    One pass over the text of the engine, for any relation that the calls
    of [os] and [shutil] keep and that composes along a sequence. *)

Lemma identify_wp_artifact_temp tarfile_open temp_uuid num_runs wp_src items :
  fst wp_src = Source ->
  forall w a,
    fst (identify_wp_artifact tarfile_open temp_uuid num_runs wp_src items w)
    = inr a ->
    forall t, extracted_temp a = Some t -> fst t = Source.
Proof.
  intros Hs. induction items as [|item items IH]; intros w a H t Ht;
    cbn [identify_wp_artifact] in H.
  - inversion H; subst. discriminate.
  - unfold bind at 1 in H. cbn [os_path_isfile] in H.
    destruct (is_file (node_at w (wp_src // item))
              && Py.endswith_any (Py.lower item) [".json"; ".tar.gz"]).
    + destruct (Py.endswith (Py.lower item) ".tar.gz").
      * unfold bind in H.
        destruct (extract_tar_gz _ _ _ _) as [[e|[]] w1];
          [discriminate|].
        cbn in H. inversion H; subst. cbn in Ht. inversion Ht. exact Hs.
      * cbn in H. inversion H; subst. discriminate.
    + eapply IH; eauto.
Qed.

Lemma prepare_wp_artifact_temp tarfile_open temp_uuid num_runs wp_src :
  fst wp_src = Source ->
  forall w a,
    fst (prepare_wp_artifact tarfile_open temp_uuid num_runs wp_src w) = inr a ->
    forall t, extracted_temp a = Some t -> fst t = Source.
Proof.
  intros Hs w a H t Ht. unfold prepare_wp_artifact, bind in H.
  cbn [os_path_exists] in H.
  destruct (is_some (node_at w wp_src)).
  - unfold os_listdir in H.
    destruct (node_at w wp_src) as [[d|es]|]; try discriminate.
    eapply identify_wp_artifact_temp; eauto.
  - inversion H; subst. discriminate.
Qed.

Section Walk.

Variable tarfile_open : string -> archive.
Variable R : world -> option exn -> world -> Prop.

Hypothesis R_ret : forall w, R w None w.
Hypothesis R_seq : forall w1 w2 o w3, R w1 None w2 -> R w2 o w3 -> R w1 o w3.
Hypothesis R_print : forall m, progress m -> respects R (print m).
Hypothesis R_complete : forall u, respects R (print (RestructuringComplete u)).
Hypothesis R_os_error : respects R (@os_error unit).
Hypothesis R_makedirs : forall l, fst l = Target -> respects R (os_makedirs l).
Hypothesis R_copy :
  forall from to, fst to = Target -> respects R (shutil_copy from to).
Hypothesis R_copytree :
  forall from to, fst to = Target -> respects R (shutil_copytree from to).
Hypothesis R_extract :
  forall tar to, fst to = Source ->
                 respects R (extract_tar_gz tarfile_open tar to).
Hypothesis R_rmtree : forall l, fst l = Source -> respects R (shutil_rmtree l).

Lemma respects_ret {A : Type} (a : A) : respects R (ret a).
Proof. intros w. apply R_ret. Qed.

Lemma respects_bind {A B : Type} (m : M A) (k : A -> M B) :
  respects R m -> (forall a, respects R (k a)) -> respects R (bind m k).
Proof.
  intros Hm Hk w. unfold bind. specialize (Hm w).
  destruct (m w) as [[e|a] w1]; simpl in *; [exact Hm|].
  eapply R_seq; [exact Hm|apply Hk].
Qed.

Lemma respects_bind_val {A B : Type} (P : A -> Prop) (m : M A)
  (k : A -> M B) :
  respects R m -> (forall w a, fst (m w) = inr a -> P a) ->
  (forall a, P a -> respects R (k a)) -> respects R (bind m k).
Proof.
  intros Hm HP Hk w. unfold bind. specialize (Hm w). specialize (HP w).
  destruct (m w) as [[e|a] w1]; simpl in *; [exact Hm|].
  eapply R_seq; [exact Hm|]. apply Hk. now apply HP.
Qed.

Lemma respects_if {A : Type} (b : bool) (m1 m2 : M A) :
  respects R m1 -> respects R m2 -> respects R (if b then m1 else m2).
Proof. now destruct b. Qed.

Lemma respects_when (b : bool) (m : M unit) :
  respects R m -> respects R (when b m).
Proof. destruct b; simpl; auto using respects_ret. Qed.

Lemma respects_for {A : Type} (xs : list A) (body : A -> M unit) :
  (forall x, respects R (body x)) -> respects R (for_ xs body).
Proof.
  intros Hb. induction xs as [|x xs IH]; simpl.
  - apply respects_ret.
  - apply respects_bind; auto.
Qed.

Lemma respects_filterM {A : Type} (xs : list A) (p : A -> M bool) :
  (forall x, respects R (p x)) -> respects R (filterM p xs).
Proof.
  intros Hp. induction xs as [|x xs IH]; simpl.
  - apply respects_ret.
  - apply respects_bind; [apply Hp|]. intros b.
    apply respects_bind; [apply IH|]. intros rest. apply respects_ret.
Qed.

Lemma respects_exists l : respects R (os_path_exists l).
Proof. intros w. apply R_ret. Qed.

Lemma respects_isdir l : respects R (os_path_isdir l).
Proof. intros w. apply R_ret. Qed.

Lemma respects_isfile l : respects R (os_path_isfile l).
Proof. intros w. apply R_ret. Qed.

Lemma respects_walk l : respects R (os_walk l).
Proof. intros w. apply R_ret. Qed.

Lemma respects_os_error {A : Type} : respects R (@os_error A).
Proof. intros w. exact (R_os_error w). Qed.

Lemma respects_listdir l : respects R (os_listdir l).
Proof.
  intros w. unfold os_listdir.
  destruct (node_at w l) as [[d|es]|]; try apply respects_os_error.
  apply R_ret.
Qed.

Lemma respects_copytree_new from to :
  fst to = Target -> respects R (shutil_copytree_new from to).
Proof.
  intros Ht w. unfold shutil_copytree_new.
  destruct (is_some _); [apply respects_os_error|now apply R_copytree].
Qed.

Ltac walk_step :=
  match goal with
  | |- respects _ (bind _ _) => apply respects_bind; [|intros ?]
  | |- respects _ (ret _) => apply respects_ret
  | |- respects _ (when _ _) => apply respects_when
  | |- respects _ (for_ _ _) => apply respects_for; intros ?
  | |- respects _ (filterM _ _) => apply respects_filterM; intros ?
  | |- respects _ (print (RestructuringComplete _)) => apply R_complete
  | |- respects _ (print _) => apply R_print; exact I
  | |- respects _ (os_path_exists _) => apply respects_exists
  | |- respects _ (os_path_isdir _) => apply respects_isdir
  | |- respects _ (os_path_isfile _) => apply respects_isfile
  | |- respects _ (os_listdir _) => apply respects_listdir
  | |- respects _ (os_walk _) => apply respects_walk
  | |- respects _ (os_makedirs _) => apply R_makedirs; loc_side
  | |- respects _ (shutil_copy _ _) => apply R_copy; loc_side
  | |- respects _ (shutil_copytree _ _) => apply R_copytree; loc_side
  | |- respects _ (shutil_copytree_new _ _) =>
      apply respects_copytree_new; loc_side
  | |- respects _ (shutil_rmtree _) => apply R_rmtree; loc_side
  | |- respects _ (extract_tar_gz _ _ _) => apply R_extract; loc_side
  | |- respects _ (if _ then _ else _) => apply respects_if
  | |- respects _ (match ?x with Some _ => _ | None => _ end) => destruct x
  | |- respects _ (let (_, _) := ?x in _) => destruct x
  end.

Variables source_dir target_dir : loc.
Hypothesis Hsource : fst source_dir = Source.
Hypothesis Htarget : fst target_dir = Target.

Lemma copy_runs_respects strict vm_dir results_dir names : forall n,
  fst results_dir = Target ->
  respects R (copy_runs strict vm_dir results_dir n names).
Proof.
  induction names as [|d names IH]; intros n Ht; cbn [copy_runs].
  - apply respects_ret.
  - unfold copy_run, copy_iteration, copy_no_iterations, copy_log_file.
    repeat first [apply IH; assumption | walk_step].
Qed.

Lemma run_mappers_respects strict sut_dir sut :
  fst sut_dir = Target ->
  respects R (run_mappers strict source_dir sut_dir sut).
Proof.
  intros Ht.
  unfold run_mappers, copy_platform_profiler, copy_pp_run, find_wp_folder,
    copy_workload_profiler, copy_wp_file, copy_results.
  repeat first [apply copy_runs_respects; loc_side | walk_step].
Qed.

Lemma create_sut_dirs_respects sut_dir :
  fst sut_dir = Target -> respects R (create_sut_dirs sut_dir).
Proof. intros Ht. unfold create_sut_dirs. repeat walk_step. Qed.

Lemma copy_root_files_respects uuid_dir suts :
  fst uuid_dir = Target ->
  respects R (copy_root_files source_dir uuid_dir suts).
Proof. intros Ht. unfold copy_root_files. repeat walk_step. Qed.

Lemma multi_system_respects strict uuid_dir suts :
  fst uuid_dir = Target ->
  respects R (multi_system strict source_dir uuid_dir suts).
Proof.
  intros Ht. unfold multi_system, restructure_sut, copy_root_files.
  repeat first [ apply run_mappers_respects; loc_side
               | apply create_sut_dirs_respects; loc_side
               | walk_step ].
Qed.

Lemma identify_wp_artifact_respects temp_uuid num_runs wp_src items :
  fst wp_src = Source ->
  respects R (identify_wp_artifact tarfile_open temp_uuid num_runs wp_src items).
Proof.
  intros Hs. induction items as [|item items IH]; cbn [identify_wp_artifact].
  - apply respects_ret.
  - repeat first [exact IH | walk_step].
Qed.

Lemma prepare_wp_artifact_respects temp_uuid num_runs wp_src :
  fst wp_src = Source ->
  respects R (prepare_wp_artifact tarfile_open temp_uuid num_runs wp_src).
Proof.
  intros Hs. unfold prepare_wp_artifact.
  repeat first [apply identify_wp_artifact_respects; loc_side | walk_step].
Qed.

Lemma list_log_subfolders_respects logs_src :
  respects R (list_log_subfolders logs_src).
Proof. unfold list_log_subfolders. repeat walk_step. Qed.

Lemma copy_platform_profile_single_respects ppdir :
  fst ppdir = Target ->
  respects R (copy_platform_profile_single source_dir ppdir).
Proof. intros Ht. unfold copy_platform_profile_single. repeat walk_step. Qed.

Lemma copy_walk_flat_respects top dir :
  fst dir = Target -> respects R (copy_walk_flat top dir).
Proof. intros Ht. unfold copy_walk_flat. repeat walk_step. Qed.

Lemma replicate_wp_artifact_respects a num_runs wpdir :
  fst wpdir = Target -> respects R (replicate_wp_artifact a num_runs wpdir).
Proof.
  intros Ht. unfold replicate_wp_artifact, copy_walk_flat. repeat walk_step.
Qed.

Lemma copy_logs_respects logs_src results_dir log_subfolders :
  fst results_dir = Target ->
  respects R (copy_logs logs_src results_dir log_subfolders).
Proof. intros Ht. unfold copy_logs, copy_walk_tree. repeat walk_step. Qed.

Lemma copy_root_files_single_respects sut_dir results_dir :
  fst sut_dir = Target -> fst results_dir = Target ->
  respects R (copy_root_files_single source_dir sut_dir results_dir).
Proof. intros Ht Hr. unfold copy_root_files_single. repeat walk_step. Qed.

Lemma single_mappers_respects temp_uuid sut_dir :
  fst sut_dir = Target ->
  respects R (single_mappers tarfile_open temp_uuid source_dir sut_dir).
Proof.
  intros Ht. unfold single_mappers.
  apply respects_bind;
    [unfold list_log_subfolders; repeat walk_step|intros log_subfolders].
  apply (respects_bind_val
           (fun a => forall t, extracted_temp a = Some t -> fst t = Source)).
  - apply prepare_wp_artifact_respects. loc_side.
  - intros w a0 H. eapply prepare_wp_artifact_temp; [|exact H]. loc_side.
  - intros a0 Ha.
    unfold copy_platform_profile_single, replicate_wp_artifact,
      copy_walk_flat, copy_logs, copy_walk_tree, copy_root_files_single,
      cleanup.
    repeat walk_step.
    all: apply R_rmtree, Ha; reflexivity.
Qed.

Lemma single_system_respects temp_uuid uuid_dir :
  fst uuid_dir = Target ->
  respects R (single_system tarfile_open temp_uuid source_dir uuid_dir).
Proof.
  intros Ht. unfold single_system.
  apply respects_bind; [apply create_sut_dirs_respects; loc_side|intros _].
  apply single_mappers_respects. loc_side.
Qed.

Lemma identify_suts_respects : respects R (identify_suts source_dir).
Proof. unfold identify_suts. repeat walk_step. Qed.

(** The run up to its last line. *)
Lemma restructure_body_respects uuid_folder temp_uuid :
  respects R
    (os_makedirs (target_dir // uuid_folder) ;;
     suts <- identify_suts source_dir ;;
     if nonempty suts then
       print DetectedMultiSystem ;;
       multi_system false source_dir (target_dir // uuid_folder) suts
     else
       print DetectedSingleSystem ;;
       single_system tarfile_open temp_uuid source_dir
         (target_dir // uuid_folder)).
Proof.
  repeat first [ apply identify_suts_respects
               | apply multi_system_respects; loc_side
               | apply single_system_respects; loc_side
               | walk_step ].
Qed.

Lemma restructure_directory_respects uuid_folder temp_uuid :
  respects R
    (restructure_directory tarfile_open uuid_folder temp_uuid source_dir
       target_dir).
Proof.
  unfold restructure_directory.
  repeat first [ apply identify_suts_respects
               | apply multi_system_respects; loc_side
               | apply single_system_respects; loc_side
               | walk_step ].
Qed.

Lemma copy_wp_items_v3_respects wp_src workload_profiler_dir items : forall n,
  fst wp_src = Source -> fst workload_profiler_dir = Target ->
  respects R
    (copy_wp_items_v3 tarfile_open wp_src workload_profiler_dir n items).
Proof.
  induction items as [|item items IH]; intros n Hs Ht;
    cbn [copy_wp_items_v3].
  - apply respects_ret.
  - unfold copy_walk_flat.
    repeat first [apply IH; assumption | walk_step].
Qed.

Lemma restructure_directory_v3_respects uuid_folder :
  respects R
    (restructure_directory_v3 tarfile_open uuid_folder source_dir target_dir).
Proof.
  unfold restructure_directory_v3, single_system_v3, create_sut_dirs,
    copy_platform_profile_single, copy_workload_profiler_v3, copy_logs_v3,
    copy_walk_flat, copy_root_files_v3.
  repeat first [ apply identify_suts_respects
               | apply multi_system_respects; loc_side
               | apply copy_wp_items_v3_respects; loc_side
               | walk_step ].
Qed.

Lemma restructure_directory_v2_respects uuid_folder :
  respects R (restructure_directory_v2 uuid_folder source_dir target_dir).
Proof.
  unfold restructure_directory_v2.
  repeat first [ apply identify_suts_respects
               | apply multi_system_respects; loc_side
               | walk_step ].
Qed.

End Walk.

(** ** The Results of a run without iteration folders *)

(** C4. In a raw run directory without iteration folders the files of its
    BenchmarkLog sub-directory, when there is one, stand for its own; every
    such file goes to Results/run{n}/iteration1/instance{m}; nothing is done
    for a sub-directory. *)
Theorem C4_no_iterations (strict : bool) (run_path results_dir : loc)
  (n : nat) (w w' : world) :
  fst run_path = Source -> fst results_dir = Target ->
  iteration_folders (source w) run_path = [] ->
  copy_run strict run_path results_dir n w = (inr tt, w') ->
  let base :=
    if isdir_in (source w) (run_path // "BenchmarkLog")
    then run_path // "BenchmarkLog" else run_path in
  let iteration_dir := results_dir // run_name n // "iteration1" in
  trace w' =
    trace w
    ++ flat_map (fun item =>
         [Makedirs (iteration_dir // instance_name (instance_num item));
          Copy (base // item)
            (iteration_dir // instance_name (instance_num item))])
         (files_in (source w) base)
  /\ Forall (fun e => match e with Copytree _ _ => False | _ => True end)
       (skipn (length (trace w)) (trace w'))
  /\ source w' = source w.
Proof.
  intros Hf Ht Hit Hrun base iteration_dir.
  destruct (copy_run_emits (source w) strict run_path results_dir n Hf Ht
              w tt w' eq_refl Hrun) as (_ & Htr & Hs).
  unfold run_events in Htr. rewrite Hit in Htr. cbn [nonempty] in Htr.
  unfold no_iteration_events, log_file_events, benchmark_base in Htr.
  fold base in Htr. fold iteration_dir in Htr.
  assert (Hev : trace w' =
    trace w
    ++ flat_map (fun item =>
         [Makedirs (iteration_dir // instance_name (instance_num item));
          Copy (base // item)
            (iteration_dir // instance_name (instance_num item))])
         (files_in (source w) base)).
  { rewrite Htr. f_equal. apply flat_map_ext. intros item.
    now rewrite basename_join. }
  split; [exact Hev|]. split; [|exact Hs].
  rewrite Hev, skipn_app, Nat.sub_diag, skipn_all. cbn [app skipn].
  apply Forall_flat_map. apply Forall_forall. intros item _.
  repeat constructor.
Qed.

Lemma C4_no_iterations_witness :
  trace (snd (copy_run false (Source, ["vm1"; "b"])
                (Target, ["U"; "SUT1"; "Results"]) 2
                (initial example_multi (Dir []) [])))
  = [Makedirs (Target, ["U"; "SUT1"; "Results"; "run2"; "iteration1"; "instance2"]);
     Copy (Source, ["vm1"; "b"; "BenchmarkLog"; "log-run2-x.txt"])
       (Target, ["U"; "SUT1"; "Results"; "run2"; "iteration1"; "instance2"]);
     Makedirs (Target, ["U"; "SUT1"; "Results"; "run2"; "iteration1"; "instance1"]);
     Copy (Source, ["vm1"; "b"; "BenchmarkLog"; "notes.txt"])
       (Target, ["U"; "SUT1"; "Results"; "run2"; "iteration1"; "instance1"])].
Proof.
  destruct (C4_no_iterations false (Source, ["vm1"; "b"])
              (Target, ["U"; "SUT1"; "Results"]) 2
              (initial example_multi (Dir []) [])
              (snd (copy_run false (Source, ["vm1"; "b"])
                      (Target, ["U"; "SUT1"; "Results"]) 2
                      (initial example_multi (Dir []) []))))
    as (H & _ & _); [reflexivity | reflexivity | vm_compute; reflexivity
                    | vm_compute; reflexivity |].
  exact H.
Defined.

(** ** WorkloadProfiler, multi-system *)

(** C6. The JSON files of the matched folder, sorted, take the run indices
    1, 2, ... in that order; each is copied into every iteration
    sub-directory of the folder under its run, or into iteration1 when the
    folder has none. *)
Theorem C6_workload_profiler (wp_folder workload_profiler_dir : loc)
  (w w' : world) :
  fst wp_folder = Source -> fst workload_profiler_dir = Target ->
  copy_workload_profiler (Some wp_folder) workload_profiler_dir w
  = (inr tt, w') ->
  let jsons := json_files (source w) wp_folder in
  let iterations := iteration_folders (source w) wp_folder in
  Sorted str_le jsons
  /\ Permutation jsons
       (filter (fun f => Py.endswith (Py.lower f) ".json")
          (listing (source w) wp_folder))
  /\ (forall i, nth_error (Py.enumerate 1 jsons) i
                = option_map (pair (S i)) (nth_error jsons i))
  /\ trace w' =
       trace w
       ++ flat_map (fun idx_file =>
            flat_map (fun iteration =>
              [Makedirs (workload_profiler_dir // run_name (fst idx_file)
                           // iteration);
               Copy (wp_folder // snd idx_file)
                 (workload_profiler_dir // run_name (fst idx_file)
                    // iteration)])
              (if nonempty iterations then iterations else ["iteration1"]))
            (Py.enumerate 1 jsons)
  /\ source w' = source w.
Proof.
  intros Hf Ht Hrun jsons iterations.
  destruct (copy_workload_profiler_emits (source w) wp_folder
              workload_profiler_dir Hf Ht w tt w' eq_refl Hrun)
    as (_ & Htr & Hs).
  split; [apply sorted_sorted|]. split; [apply sorted_perm|].
  split; [intros i; apply enumerate_nth|]. split; [exact Htr|exact Hs].
Qed.

Lemma C6_workload_profiler_witness :
  trace (snd (copy_workload_profiler (Some (Source, ["wp-vm1"]))
                (Target, ["U"; "SUT1"; "WorkloadProfiler"])
                (initial example_multi (Dir []) [])))
  = [Makedirs (Target, ["U"; "SUT1"; "WorkloadProfiler"; "run1"; "iteration1"]);
     Copy (Source, ["wp-vm1"; "run_a.json"])
       (Target, ["U"; "SUT1"; "WorkloadProfiler"; "run1"; "iteration1"]);
     Makedirs (Target, ["U"; "SUT1"; "WorkloadProfiler"; "run2"; "iteration1"]);
     Copy (Source, ["wp-vm1"; "run_b.json"])
       (Target, ["U"; "SUT1"; "WorkloadProfiler"; "run2"; "iteration1"])].
Proof.
  destruct (C6_workload_profiler (Source, ["wp-vm1"])
              (Target, ["U"; "SUT1"; "WorkloadProfiler"])
              (initial example_multi (Dir []) [])
              (snd (copy_workload_profiler (Some (Source, ["wp-vm1"]))
                      (Target, ["U"; "SUT1"; "WorkloadProfiler"])
                      (initial example_multi (Dir []) []))))
    as (_ & _ & _ & H & _); [reflexivity | reflexivity
                             | vm_compute; reflexivity |].
  exact H.
Defined.

(** ** The files at the root of the source *)

Lemma shutil_copy_content from to w w' :
  shutil_copy from to w = (inr tt, w') ->
  is_dir (node_at w to) = true ->
  is_file (node_at w from) = true
  /\ node_at w' (to // basename from) = node_at w from.
Proof.
  unfold shutil_copy. intros H Hd.
  destruct (node_at w from) as [[data|es]|] eqn:E; try discriminate.
  rewrite Hd in H. apply write_inr in H as (_ & n & Hn & ->).
  split; [reflexivity|].
  apply lookup_alter in Hn as (x & Hx & Hl).
  assert (Hx' : x = File data).
  { unfold put_file in Hx.
    destruct (lookup _ _) as [[?|?]|]; now inversion Hx. }
  subst x. destruct to as [[|] p]; unfold node_at, join;
    cbn [fst snd log set_fs fs source target] in *; exact Hl.
Qed.

(** C8. Multi-system: every regular file at the root of the source is
    copied, as it is, into the directory of every SUT.  Single-system: the
    manual-result file goes to the SUT directory, every other root file
    ending in .json or .txt to Results/run1/iteration1/instance1. *)
Theorem C8_root_files (source_dir : loc) :
  fst source_dir = Source ->
  (forall uuid_dir suts w w',
      fst uuid_dir = Target ->
      copy_root_files source_dir uuid_dir suts w = (inr tt, w') ->
      trace w' =
        trace w
        ++ flat_map (fun item =>
             map (fun sut =>
                    Copy (source_dir // item) (uuid_dir // sut_name sut)) suts)
             (files_in (source w) source_dir)
      /\ source w' = source w)
  /\ (forall sut_dir results_dir w w',
      fst sut_dir = Target -> fst results_dir = Target ->
      copy_root_files_single source_dir sut_dir results_dir w = (inr tt, w') ->
      let instance_dir := results_dir // "run1" // "iteration1" // "instance1" in
      trace w' =
        trace w
        ++ flat_map (fun item =>
             if String.eqb (Py.lower item) "epyc_manual_result.json"
             then [Copy (source_dir // item) sut_dir]
             else if Py.endswith_any (Py.lower item) [".json"; ".txt"]
             then [Makedirs instance_dir; Copy (source_dir // item) instance_dir]
             else [])
             (files_in (source w) source_dir)
      /\ source w' = source w)
  /\ (forall from to w w',
      shutil_copy from to w = (inr tt, w') ->
      is_dir (node_at w to) = true ->
      is_file (node_at w from) = true
      /\ node_at w' (to // basename from) = node_at w from).
Proof.
  intros Hs. split; [|split].
  - intros uuid_dir suts w w' Ht Hrun.
    destruct (copy_root_files_emits (source w) source_dir Hs uuid_dir suts Ht
                w tt w' eq_refl Hrun) as (_ & Htr & Hsrc).
    split; assumption.
  - intros sut_dir results_dir w w' Ht Hr Hrun instance_dir.
    destruct (copy_root_files_single_emits (source w) source_dir Hs sut_dir
                results_dir Ht Hr w tt w' eq_refl Hrun) as (_ & Htr & Hsrc).
    split; assumption.
  - exact shutil_copy_content.
Qed.

Lemma C8_root_files_witness :
  trace (snd (copy_root_files (Source, []) (Target, ["U"]) ["vm1"; "VM2"]
                (initial example_multi
                   (Dir [("U", Dir [("SUT1", Dir []); ("SUT2", Dir [])])]) [])))
  = [Copy (Source, ["readme.txt"]) (Target, ["U"; "SUT1"]);
     Copy (Source, ["readme.txt"]) (Target, ["U"; "SUT2"])]
  /\ trace (snd (copy_root_files_single (Source, []) (Target, ["U"; "SUT1"])
                   (Target, ["U"; "SUT1"; "Results"])
                   (initial example_single
                      (Dir [("U", Dir [("SUT1", Dir [])])]) [])))
     = [Copy (Source, ["EPYC_manual_result.json"]) (Target, ["U"; "SUT1"]);
        Makedirs (Target, ["U"; "SUT1"; "Results"; "run1"; "iteration1"; "instance1"]);
        Copy (Source, ["x.txt"])
          (Target, ["U"; "SUT1"; "Results"; "run1"; "iteration1"; "instance1"])].
Proof.
  destruct (C8_root_files (Source, []) eq_refl) as (Hm & Hs & _).
  split.
  - destruct (Hm (Target, ["U"]) ["vm1"; "VM2"]
                (initial example_multi
                   (Dir [("U", Dir [("SUT1", Dir []); ("SUT2", Dir [])])]) [])
                (snd (copy_root_files (Source, []) (Target, ["U"])
                        ["vm1"; "VM2"]
                        (initial example_multi
                           (Dir [("U", Dir [("SUT1", Dir []); ("SUT2", Dir [])])])
                           []))))
      as (H & _); [reflexivity | vm_compute; reflexivity |].
    exact H.
  - destruct (Hs (Target, ["U"; "SUT1"]) (Target, ["U"; "SUT1"; "Results"])
                (initial example_single (Dir [("U", Dir [("SUT1", Dir [])])]) [])
                (snd (copy_root_files_single (Source, [])
                        (Target, ["U"; "SUT1"])
                        (Target, ["U"; "SUT1"; "Results"])
                        (initial example_single
                           (Dir [("U", Dir [("SUT1", Dir [])])]) []))))
      as (H & _); [reflexivity | reflexivity | vm_compute; reflexivity |].
    exact H.
Defined.

(** ** The archive reader *)

Lemma write_cases e l f w :
  write e l f w = os_error w
  \/ exists n, f (Some (fs w (fst l))) = Some n
               /\ write e l f w = (inr tt, log e (set_fs (fst l) n w)).
Proof.
  unfold write. destruct (existsb _ _); [now left|].
  destruct (f _) as [n|]; [right; eauto|now left].
Qed.

Lemma failed_at_log e r n w : failed_at (log e (set_fs r n w)) = failed_at w.
Proof. now destruct r. Qed.

Lemma stdout_log e r n w : stdout (log e (set_fs r n w)) = stdout w.
Proof. now destruct r. Qed.

Lemma bind_of_inr {A B : Type} (m : M A) (k : A -> M B) w a w1 :
  m w = (inr a, w1) -> bind m k w = k a w1.
Proof. unfold bind. now intros ->. Qed.

Lemma bind_of_inl {A B : Type} (m : M A) (k : A -> M B) w e w1 :
  m w = (inl e, w1) -> bind m k w = (inl e, w1).
Proof. unfold bind. now intros ->. Qed.

Lemma writes_only_refl w : writes_only w w.
Proof. repeat split. exists []. now rewrite app_nil_r. Qed.

Lemma writes_only_trans w1 w2 w3 :
  writes_only w1 w2 -> writes_only w2 w3 -> writes_only w1 w3.
Proof.
  intros (R1 & O1 & F1 & e1 & T1) (R2 & O2 & F2 & e2 & T2).
  repeat split; try congruence.
  exists (e1 ++ e2). now rewrite T2, T1, app_assoc.
Qed.

Lemma write_only e l f w :
  write e l f w = os_error w
  \/ exists w2, write e l f w = (inr tt, w2) /\ writes_only w w2
                /\ (fst l = Source -> target w2 = target w)
                /\ (fst l = Target -> source w2 = source w).
Proof.
  destruct (write_cases e l f w) as [H|(n & _ & H)]; [now left|right].
  eexists. split; [exact H|]. destruct l as [[] p]; cbn [fst].
  - repeat split; try discriminate. now exists [e].
  - repeat split; try discriminate. now exists [e].
Qed.

Ltac outcome_case :=
  repeat match goal with
         | |- _ /\ _ => split
         | |- _ -> _ => intro
         end;
  first [ assumption | apply writes_only_refl | reflexivity
        | eapply writes_only_trans; eassumption
        | left; assumption | right; assumption
        | left; reflexivity | right; reflexivity | right; left; reflexivity
        | right; right; left; reflexivity
        | right; right; right; reflexivity
        | congruence
        | match goal with
          | H : ?P -> _ = _, HP : ?P |- _ => rewrite (H HP); auto
          end ].

Section Reader.

Variable tarfile_open : string -> archive.

(** The outcomes of [extractall]: some members are written, and then the
    call returns or raises. *)
Lemma tarfile_extractall_cases tar to w :
  exists w2,
    writes_only w w2
    /\ (fst to = Source -> target w2 = target w)
    /\ (tarfile_extractall tarfile_open tar to w = (inr tt, w2)
        \/ tarfile_extractall tarfile_open tar to w = tar_error w2
        \/ tarfile_extractall tarfile_open tar to w = os_error w2
        \/ tarfile_extractall tarfile_open tar to w = eof_error w2).
Proof.
  unfold tarfile_extractall.
  destruct (node_at w tar) as [[data|es]|];
    try solve [exists w; outcome_case].
  set (a := tarfile_open data).
  set (first := when (nonempty (members a))
                  (write (Extractall tar to) to
                     (alter (snd to) (merge (Dir (members a)))))).
  set (rest := fun ups =>
                 for_ ups (fun up_member : nat * (string * node) =>
                   write (Extractall tar (ancestor (fst up_member) to))
                     (ancestor (fst up_member) to)
                     (alter (snd (ancestor (fst up_member) to))
                        (merge (Dir [snd up_member]))))).
  change (for_ (escaped a) _) with (rest (escaped a)).
  assert (Hfirst : exists w1,
            writes_only w w1 /\ (fst to = Source -> target w1 = target w)
            /\ (first w = (inr tt, w1) \/ first w = os_error w1)).
  { unfold first. destruct (nonempty (members a)); cbn [when].
    - destruct (write_only (Extractall tar to) to
                  (alter (snd to) (merge (Dir (members a)))) w)
        as [H|(w1 & H & Hw & Ht & _)].
      + exists w. outcome_case.
      + exists w1. outcome_case.
    - exists w. outcome_case. }
  assert (Hrest : forall ups w1,
            exists w2,
              writes_only w1 w2 /\ (fst to = Source -> target w2 = target w1)
              /\ (rest ups w1 = (inr tt, w2) \/ rest ups w1 = os_error w2)).
  { unfold rest. induction ups as [|um ups IH]; intros w0; cbn [for_].
    - exists w0. outcome_case.
    - destruct (write_only (Extractall tar (ancestor (fst um) to))
                  (ancestor (fst um) to)
                  (alter (snd (ancestor (fst um) to)) (merge (Dir [snd um])))
                  w0) as [H|(wa & H & Hw & Ht & _)]; unfold bind; rewrite H.
      + exists w0. outcome_case.
      + destruct (IH wa) as (wb & Wb & Tb & Hb).
        exists wb. split; [eapply writes_only_trans; eassumption|].
        split; [|exact Hb].
        intros Hs. rewrite (Tb Hs). apply Ht. exact Hs. }
  destruct Hfirst as (w1 & W1 & T1 & [H1|H1]); unfold bind; rewrite H1.
  - destruct (Hrest (escaped a) w1) as (w2 & W2 & T2 & [H2|H2]); rewrite H2;
      exists w2;
      (split; [eapply writes_only_trans; eassumption|]);
      (split; [intros Hs; rewrite (T2 Hs); auto|]).
    + destruct (failure a) as [[]|]; cbn [raise_]; outcome_case.
    + outcome_case.
  - exists w1. outcome_case.
Qed.

(** The outcomes of [extract_tar_gz]: it returns, having printed one line
    at most, or it raises [OSError] or [EOFError]; a [TarError] does not
    leave it. *)
Lemma extract_tar_gz_cases tar to w :
  exists w2,
    writes_only w w2
    /\ (fst to = Source -> target w2 = target w)
    /\ (extract_tar_gz tarfile_open tar to w = (inr tt, w2)
        \/ (exists m, progress m
                      /\ extract_tar_gz tarfile_open tar to w = print m w2)
        \/ extract_tar_gz tarfile_open tar to w = os_error w2
        \/ extract_tar_gz tarfile_open tar to w = eof_error w2).
Proof.
  unfold extract_tar_gz.
  destruct (Py.endswith (basename tar) ".tar.gz"); cbn [when];
    [|exists w; outcome_case].
  unfold os_makedirs.
  destruct (write_only (Makedirs to) to (mkdirs (snd to)) w)
    as [H|(w1 & H & W1 & T1 & _)].
  - rewrite (bind_of_inl _ _ _ _ _ H). exists w. outcome_case.
  - rewrite (bind_of_inr _ _ _ _ _ H).
    destruct (tarfile_extractall_cases tar to w1) as (w2 & W2 & T2 & Hx).
    exists w2. split; [eapply writes_only_trans; eassumption|].
    split; [intros Hs; rewrite (T2 Hs); auto|].
    unfold try_except_TarError, bind.
    destruct Hx as [Hx|[Hx|[Hx|Hx]]]; rewrite Hx.
    + right. left. eexists. split; [|reflexivity]. exact I.
    + right. left. eexists. split; [|reflexivity]. exact I.
    + right. right. left. reflexivity.
    + right. right. right. reflexivity.
Qed.

End Reader.

(** ** What an extraction that returns has done *)

Lemma respects_unfold {A : Type} R (m : M A) w r w' :
  respects R m -> m w = (r, w') -> R w (outcome r) w'.
Proof. intros H E. specialize (H w). now rewrite E in H. Qed.

Lemma write_source_inr e l f w w' :
  fst l = Source -> write e l f w = (inr tt, w') ->
  f (Some (source w)) = Some (source w')
  /\ trace w' = trace w ++ [e] /\ target w' = target w
  /\ readonly w' = readonly w.
Proof.
  intros Hl H. apply write_inr in H as (_ & n & Hn & ->).
  rewrite Hl in *. cbn [fs] in Hn. cbn. auto.
Qed.

Lemma write_source_cases e l f w :
  fst l = Source ->
  write e l f w = os_error w
  \/ exists w', write e l f w = (inr tt, w')
                /\ f (Some (source w)) = Some (source w')
                /\ trace w' = trace w ++ [e] /\ target w' = target w
                /\ readonly w' = readonly w.
Proof.
  intros Hl. destruct (write_only e l f w) as [E|(w' & E & _)]; [now left|].
  right. exists w'. split; [exact E|]. now apply write_source_inr in E.
Qed.

(** The members that lead out of the directory, one write each. *)
Lemma escaped_written tar to ups : forall w,
  fst to = Source ->
  (exists w', for_ ups (fun up_member =>
                write (Extractall tar (ancestor (fst up_member) to))
                  (ancestor (fst up_member) to)
                  (alter (snd (ancestor (fst up_member) to))
                     (merge (Dir [snd up_member])))) w = os_error w')
  \/ exists w',
       for_ ups (fun up_member =>
         write (Extractall tar (ancestor (fst up_member) to))
           (ancestor (fst up_member) to)
           (alter (snd (ancestor (fst up_member) to))
              (merge (Dir [snd up_member])))) w = (inr tt, w')
       /\ fold_left
            (fun acc up_member =>
               match acc with
               | Some x =>
                   alter (snd (ancestor (fst up_member) (Source, snd to)))
                     (merge (Dir [snd up_member])) (Some x)
               | None => None
               end) ups (Some (source w)) = Some (source w')
       /\ trace w'
          = trace w
            ++ map (fun up_member => Extractall tar (ancestor (fst up_member) to))
                 ups
       /\ target w' = target w /\ readonly w' = readonly w.
Proof.
  induction ups as [|um ups IH]; intros w Hl; cbn [for_ fold_left map].
  - right. exists w. rewrite app_nil_r. auto.
  - destruct (write_source_cases (Extractall tar (ancestor (fst um) to))
                (ancestor (fst um) to)
                (alter (snd (ancestor (fst um) to)) (merge (Dir [snd um]))) w Hl)
      as [E|(w1 & E & S1 & T1 & G1 & R1)].
    + left. exists w. now rewrite (bind_of_inl _ _ _ _ _ E).
    + rewrite (bind_of_inr _ _ _ _ _ E).
      change (snd (ancestor (fst um) (Source, snd to)))
        with (snd (ancestor (fst um) to)).
      rewrite S1.
      destruct (IH w1 Hl) as [(w' & E')|(w' & E' & S' & T' & G' & R')].
      * left. eauto.
      * right. exists w'. split; [exact E'|]. split; [exact S'|].
        rewrite T', T1, <- app_assoc. cbn [app].
        repeat split; congruence.
Qed.

Section Extraction.

Variable tarfile_open : string -> archive.

(** When [extractall] returns, or raises what the reader failed with, every
    member has been written. *)
Lemma tarfile_extractall_exact tar to data w r w' :
  fst to = Source ->
  node_at w tar = Some (File data) ->
  tarfile_extractall tarfile_open tar to w = (r, w') ->
  r <> inl OSError ->
  extract_tree (tarfile_open data) (snd to) (source w) = Some (source w')
  /\ trace w' = trace w ++ extractall_events tar to (tarfile_open data)
  /\ target w' = target w /\ readonly w' = readonly w
  /\ r = match failure (tarfile_open data) with
         | Some e => inl e
         | None => inr tt
         end.
Proof.
  intros Hl Hn H Hr. unfold tarfile_extractall in H. rewrite Hn in H.
  set (a := tarfile_open data) in *.
  unfold extract_tree, extractall_events.
  assert (Hfirst : exists w1,
            when (nonempty (members a))
              (write (Extractall tar to) to
                 (alter (snd to) (merge (Dir (members a))))) w = (inr tt, w1)
            /\ (if nonempty (members a)
                then alter (snd to) (merge (Dir (members a))) (Some (source w))
                else Some (source w)) = Some (source w1)
            /\ trace w1
               = trace w
                 ++ (if nonempty (members a) then [Extractall tar to] else [])
            /\ target w1 = target w /\ readonly w1 = readonly w).
  { destruct (nonempty (members a)); cbn [when] in *.
    - destruct (write_source_cases (Extractall tar to) to
                  (alter (snd to) (merge (Dir (members a)))) w Hl)
        as [E|(w1 & E & Hw)].
      + rewrite (bind_of_inl _ _ _ _ _ E) in H. inversion H; subst.
        now destruct Hr.
      + exists w1. auto.
    - exists w. rewrite app_nil_r. auto. }
  destruct Hfirst as (w1 & E1 & S1 & T1 & G1 & R1).
  rewrite (bind_of_inr _ _ _ _ _ E1) in H. rewrite S1.
  destruct (escaped_written tar to (escaped a) w1 Hl)
    as [(w2 & E2)|(w2 & E2 & S2 & T2 & G2 & R2)].
  - rewrite (bind_of_inl _ _ _ _ _ E2) in H. inversion H; subst.
    now destruct Hr.
  - rewrite (bind_of_inr _ _ _ _ _ E2) in H. rewrite S2.
    assert (Hw : trace w2 = trace w ++
                   (if nonempty (members a) then [Extractall tar to] else [])
                   ++ map (fun up_member =>
                             Extractall tar (ancestor (fst up_member) to))
                        (escaped a))
      by (rewrite T2, T1; now rewrite app_assoc).
    destruct (failure a) as [[]|]; inversion H; subst; cbn [source trace
      target readonly]; repeat split; congruence.
Qed.

(** [extract_tar_gz] on a regular file, when it returns. *)
Lemma extract_tar_gz_exact tar to w w' :
  fst tar = Source -> fst to = Source ->
  isfile_in (source w) tar = true ->
  extract_tar_gz tarfile_open tar to w = (inr tt, w') ->
  source w' = extracted_source tarfile_open (source w) tar to
  /\ trace w' = trace w ++ extraction_writes tarfile_open (source w) tar to
  /\ target w' = target w /\ readonly w' = readonly w
  /\ (Py.endswith (basename tar) ".tar.gz" = true ->
      exists n0,
        mkdirs (snd to) (Some (source w)) = Some n0
        /\ extract_tree (archive_at tarfile_open (source w) tar) (snd to) n0
           = Some (source w')).
Proof.
  intros Hr Hl Hf H. unfold extract_tar_gz in H.
  unfold extracted_source, extraction_writes.
  destruct (Py.endswith (basename tar) ".tar.gz"); cbn [when] in H;
    [|inversion H; subst; rewrite app_nil_r; repeat split; discriminate].
  destruct (write_source_cases (Makedirs to) to (mkdirs (snd to)) w Hl)
    as [E|(w1 & E & S1 & T1 & G1 & R1)]; unfold os_makedirs in H.
  - rewrite (bind_of_inl _ _ _ _ _ E) in H. discriminate.
  - rewrite (bind_of_inr _ _ _ _ _ E) in H. rewrite S1.
    unfold isfile_in in Hf.
    destruct (lookup (snd tar) (source w)) as [[data|es]|] eqn:Et;
      try discriminate.
    assert (Hn : node_at w1 tar = Some (File data)).
    { unfold node_at. rewrite Hr. cbn [fs].
      eapply mkdirs_keeps_file; [exact S1|]. exact Et. }
    unfold archive_at. rewrite Et.
    unfold try_except_TarError in H.
    destruct (tarfile_extractall tarfile_open tar to w1) as [r w2] eqn:Ex.
    assert (Hne : r <> inl OSError).
    { intros ->. rewrite (bind_of_inl _ _ _ _ _ Ex) in H. discriminate. }
    destruct (tarfile_extractall_exact tar to data w1 r w2 Hl Hn Ex Hne)
      as (S2 & T2 & G2 & R2 & Hres).
    rewrite S2.
    assert (Hw' : source w' = source w2 /\ trace w' = trace w2
                  /\ target w' = target w2 /\ readonly w' = readonly w2).
    { destruct r as [[]|[]].
      - rewrite (bind_of_inl _ _ _ _ _ Ex) in H. discriminate.
      - rewrite (bind_of_inl _ _ _ _ _ Ex) in H. inversion H; subst. cbn. auto.
      - rewrite (bind_of_inl _ _ _ _ _ Ex) in H. discriminate.
      - rewrite (bind_of_inr _ _ _ _ _ Ex) in H. inversion H; subst. cbn. auto. }
    destruct Hw' as (-> & -> & -> & ->).
    rewrite T2, T1, <- app_assoc. cbn [app].
    repeat split; try congruence.
    intros _. exists (source w1). auto.
Qed.

End Extraction.

(** ** Error handling *)

Section Fatal.

Variable tarfile_open : string -> archive.

Lemma fatal_ret w : fatal_errors w None w.
Proof. split; [discriminate|auto]. Qed.

Lemma fatal_seq w1 w2 o w3 :
  fatal_errors w1 None w2 -> fatal_errors w2 o w3 -> fatal_errors w1 o w3.
Proof.
  intros [_ H1] [H2 H3]. split; [exact H2|].
  intros H. apply H3. exact (H1 H).
Qed.

Lemma fatal_os_error {A : Type} : respects fatal_errors (@os_error A).
Proof. intros w. split; [discriminate|]. intros _. reflexivity. Qed.

Lemma fatal_print m : respects fatal_errors (print m).
Proof. intros w. split; [discriminate|]. intros H. exact H. Qed.

Lemma fatal_write e l f : respects fatal_errors (write e l f).
Proof.
  intros w. destruct (write_cases e l f w) as [H|(n & _ & H)]; rewrite H.
  - apply fatal_os_error.
  - split; [discriminate|]. cbn [fst snd outcome]. now rewrite failed_at_log.
Qed.

Lemma fatal_copy from to : respects fatal_errors (shutil_copy from to).
Proof.
  intros w. unfold shutil_copy.
  destruct (node_at w from) as [[d|es]|]; try apply fatal_os_error.
  apply fatal_write.
Qed.

Lemma fatal_copytree from to : respects fatal_errors (shutil_copytree from to).
Proof.
  intros w. unfold shutil_copytree.
  destruct (node_at w from) as [[d|es]|]; try apply fatal_os_error.
  apply fatal_write.
Qed.

Lemma fatal_rmtree l : respects fatal_errors (shutil_rmtree l).
Proof.
  intros w. unfold shutil_rmtree.
  split; [discriminate|]. cbn [fst snd outcome]. now rewrite failed_at_log.
Qed.

(** The [except] clause of [extract_tar_gz] takes the [TarError]; the
    directory creation before the [try] is not covered, and neither is a
    failure of the reader that is no [TarError]. *)
Lemma fatal_extract tar to :
  respects fatal_errors (extract_tar_gz tarfile_open tar to).
Proof.
  intros w.
  destruct (extract_tar_gz_cases tarfile_open tar to w)
    as (w2 & (_ & _ & F & _) & _ & [H|[(m & _ & H)|[H|H]]]); rewrite H;
    (split; [discriminate|]); cbn [fst snd outcome print os_error eof_error
                                failed_at trace]; congruence.
Qed.

Lemma silent_ret w : silent w None w.
Proof. intros H. exact H. Qed.

Lemma silent_seq w1 w2 o w3 :
  silent w1 None w2 -> silent w2 o w3 -> silent w1 o w3.
Proof. unfold silent. auto. Qed.

Lemma silent_any {A : Type} (m : M A) :
  (forall w, stdout (snd (m w)) = stdout w) -> respects silent m.
Proof. intros H w Hw u. rewrite H. apply Hw. Qed.

Lemma silent_print m : progress m -> respects silent (print m).
Proof.
  intros Hm w Hw u. cbn. rewrite in_app_iff. intros [H|[H|[]]].
  - exact (Hw u H).
  - subst m. exact Hm.
Qed.

Lemma stdout_write e l f w : stdout (snd (write e l f w)) = stdout w.
Proof.
  destruct (write_cases e l f w) as [H|(n & _ & H)]; rewrite H;
    [reflexivity|]. cbn [snd]. apply stdout_log.
Qed.

Lemma silent_copy from to : respects silent (shutil_copy from to).
Proof.
  apply silent_any. intros w. unfold shutil_copy.
  destruct (node_at w from) as [[d|es]|]; try reflexivity.
  apply stdout_write.
Qed.

Lemma silent_copytree from to : respects silent (shutil_copytree from to).
Proof.
  apply silent_any. intros w. unfold shutil_copytree.
  destruct (node_at w from) as [[d|es]|]; try reflexivity.
  apply stdout_write.
Qed.

Lemma silent_rmtree l : respects silent (shutil_rmtree l).
Proof.
  apply silent_any. intros w. unfold shutil_rmtree.
  cbn [snd]. apply stdout_log.
Qed.

Lemma silent_write e l f : respects silent (write e l f).
Proof. apply silent_any. intros w. apply stdout_write. Qed.

Lemma silent_extract tar to :
  respects silent (extract_tar_gz tarfile_open tar to).
Proof.
  intros w Hw.
  destruct (extract_tar_gz_cases tarfile_open tar to w)
    as (w2 & (_ & O & _ & _) & _ & Hc).
  assert (Hw2 : no_report w2) by (intros u; rewrite O; apply Hw).
  destruct Hc as [H|[(m & Pm & H)|[H|H]]]; rewrite H.
  - exact Hw2.
  - exact (silent_print m Pm w2 Hw2).
  - exact Hw2.
  - exact Hw2.
Qed.

Variables source_dir target_dir : loc.
Hypothesis Hsource : fst source_dir = Source.
Hypothesis Htarget : fst target_dir = Target.

Lemma restructure_directory_fatal uuid_folder temp_uuid :
  respects fatal_errors
    (restructure_directory tarfile_open uuid_folder temp_uuid source_dir
       target_dir).
Proof.
  apply restructure_directory_respects;
    first [ exact fatal_ret | exact fatal_seq | assumption
          | exact (@fatal_os_error unit)
          | intros; first [ apply fatal_print | apply fatal_copy
                          | apply fatal_copytree | apply fatal_rmtree
                          | apply fatal_extract
                          | unfold os_makedirs; apply fatal_write ] ].
Qed.

Lemma restructure_body_silent uuid_folder temp_uuid :
  respects silent
    (os_makedirs (target_dir // uuid_folder) ;;
     suts <- identify_suts source_dir ;;
     if nonempty suts then
       print DetectedMultiSystem ;;
       multi_system false source_dir (target_dir // uuid_folder) suts
     else
       print DetectedSingleSystem ;;
       single_system tarfile_open temp_uuid source_dir
         (target_dir // uuid_folder)).
Proof.
  apply restructure_body_respects;
    first [ exact silent_ret | exact silent_seq | assumption
          | exact silent_print
          | apply (silent_any (@os_error unit)); reflexivity
          | intros; first [ apply silent_copy | apply silent_copytree
                          | apply silent_rmtree | apply silent_extract
                          | unfold os_makedirs; apply silent_write ] ].
Qed.

End Fatal.

Lemma bind_assoc {A B C : Type} (m : M A) (k : A -> M B) (h : B -> M C) w :
  bind (bind m k) h w = bind m (fun a => bind (k a) h) w.
Proof. unfold bind. now destruct (m w) as [[e|a] w1]. Qed.

Lemma bind_ext {A B : Type} (m : M A) (k k' : A -> M B) w :
  (forall a w1, k a w1 = k' a w1) -> bind m k w = bind m k' w.
Proof. intros H. unfold bind. destruct (m w) as [[e|a] w1]; auto. Qed.

Lemma bind_inl {A B : Type} (m : M A) (k : A -> M B) w :
  (forall a w1, exists b w2, k a w1 = (inr b, w2)) ->
  forall e, fst (bind m k w) = inl e ->
            m w = (inl e, snd (bind m k w)).
Proof.
  intros Hk e. unfold bind. destruct (m w) as [[e'|a] w1]; cbn [fst snd].
  - now intros [= ->].
  - destruct (Hk a w1) as (b & w2 & ->). discriminate.
Qed.

Lemma restructure_directory_split tarfile_open uuid_folder temp_uuid
  source_dir target_dir w :
  restructure_directory tarfile_open uuid_folder temp_uuid source_dir
    target_dir w
  = bind (os_makedirs (target_dir // uuid_folder) ;;
          suts <- identify_suts source_dir ;;
          if nonempty suts then
            print DetectedMultiSystem ;;
            multi_system false source_dir (target_dir // uuid_folder) suts
          else
            print DetectedSingleSystem ;;
            single_system tarfile_open temp_uuid source_dir
              (target_dir // uuid_folder))
      (fun _ => print (RestructuringComplete uuid_folder)) w.
Proof.
  unfold restructure_directory. cbv zeta. rewrite bind_assoc.
  apply bind_ext. intros _ w1. now rewrite bind_assoc.
Qed.

(** C9, as the code has it.  The [except] clause of [extract_tar_gz] takes
    a [TarError] of the reader, whatever was extracted until then stays, and
    the run goes on.  Everything else is caught nowhere: a failure of the
    reader that is no [TarError] ([EOFError] on a truncated archive), the
    creation of the extraction directory, which is outside the [try], and
    the failure of any other file-system call leave
    [restructure_directory] at the call that raised them, without the
    completion line.  No [TarError] leaves [restructure_directory], and the
    run returns exactly when no such exception was raised. *)
Theorem C9_error_handling
  (tarfile_open : string -> archive)
  (uuid_folder temp_uuid : string) (source_dir target_dir : loc) (w : world) :
  fst source_dir = Source -> fst target_dir = Target ->
  failed_at w = None -> no_report w ->
  let run := restructure_directory tarfile_open uuid_folder temp_uuid
               source_dir target_dir w in
  (forall tar to w0 w1 w2,
      Py.endswith (basename tar) ".tar.gz" = true ->
      os_makedirs to w0 = (inr tt, w1) ->
      tarfile_extractall tarfile_open tar to w1 = (inl TarError, w2) ->
      extract_tar_gz tarfile_open tar to w0
      = print (ErrorExtracting (basename tar)) w2)
  /\ (forall tar to w0 w1 w2 e,
      Py.endswith (basename tar) ".tar.gz" = true ->
      os_makedirs to w0 = (inr tt, w1) ->
      tarfile_extractall tarfile_open tar to w1 = (inl e, w2) ->
      e <> TarError ->
      extract_tar_gz tarfile_open tar to w0 = (inl e, w2))
  /\ (forall tar to w0 w1 e,
      Py.endswith (basename tar) ".tar.gz" = true ->
      os_makedirs to w0 = (inl e, w1) ->
      extract_tar_gz tarfile_open tar to w0 = (inl e, w1))
  /\ fst run <> inl TarError
  /\ (fst run = inr tt <-> failed_at (snd run) = None)
  /\ (forall e, fst run = inl e ->
        failed_at (snd run) = Some (length (trace (snd run)))
        /\ no_report (snd run)).
Proof.
  intros Hs Ht Hf Hr run.
  split; [|split; [|split]].
  - intros tar to w0 w1 w2 He Hm Hx.
    unfold extract_tar_gz. rewrite He. cbn [when].
    rewrite (bind_of_inr _ _ _ _ _ Hm).
    unfold try_except_TarError. now rewrite (bind_of_inl _ _ _ _ _ Hx).
  - intros tar to w0 w1 w2 e He Hm Hx Hne.
    unfold extract_tar_gz. rewrite He. cbn [when].
    rewrite (bind_of_inr _ _ _ _ _ Hm).
    unfold try_except_TarError. rewrite (bind_of_inl _ _ _ _ _ Hx).
    destruct e; [reflexivity|congruence|reflexivity].
  - intros tar to w0 w1 e He Hm.
    unfold extract_tar_gz. rewrite He. cbn [when].
    now rewrite (bind_of_inl _ _ _ _ _ Hm).
  - pose proof (restructure_directory_fatal tarfile_open source_dir target_dir
                  Hs Ht uuid_folder temp_uuid w) as [Hne Hg].
    fold run in Hne, Hg. specialize (Hg Hf).
    assert (Hsil : forall e, fst run = inl e -> no_report (snd run)).
    { intros e He. subst run.
      rewrite restructure_directory_split in He |- *.
      apply bind_inl in He;
        [|intros a w1; eexists; eexists; reflexivity].
      pose proof (restructure_body_silent tarfile_open source_dir target_dir
                    Hs Ht uuid_folder temp_uuid w) as Hsl.
      rewrite He in Hsl. cbn [fst snd] in Hsl.
      exact (Hsl Hr). }
    split; [|split].
    + intros He. rewrite He in Hne. now apply Hne.
    + split.
      * intros He. rewrite He in Hg. exact Hg.
      * intros Hn. destruct (fst run) as [e|[]] eqn:E; [|reflexivity].
        cbn [outcome] in Hg. congruence.
    + intros e He. rewrite He in Hg. cbn [outcome] in *.
      split; [exact Hg|]. eauto.
Qed.

(** A reader that fails with [TarError] after its first member: the run
    completes, and the member it had written is what is replicated.  The
    same call of [extract_tar_gz] on a truncated archive raises. *)
Lemma C9_error_handling_witness :
  let run := restructure_directory example_tarfile "U" "T" source_root
               target_root (initial (example_archive "PART") (Dir []) []) in
  let tar := (Source, ["WorkloadProfiler"; "cap.tar.gz"]) in
  let to := (Source, ["WorkloadProfiler"; "extracted_wp_temp_T"]) in
  let caught := extract_tar_gz example_tarfile tar to
                  (initial (example_archive "PART") (Dir []) []) in
  let raised := extract_tar_gz example_tarfile tar to
                  (initial (example_archive "CUT") (Dir []) []) in
  fst run = inr tt
  /\ stdout (snd run)
     = [DetectedSingleSystem; ErrorExtracting "cap.tar.gz";
        DetectedWPArtifact "cap.tar.gz" 1; CleanedUp;
        RestructuringComplete "U"]
  /\ In (Copy (Source, ["WorkloadProfiler"; "extracted_wp_temp_T"; "a.json"])
           (Target, ["U"; "SUT1"; "WorkloadProfiler"; "run1"; "iteration1"]))
       (trace (snd run))
  /\ fst run <> inl TarError
  /\ failed_at (snd run) = None
  /\ (fst caught = inr tt
      /\ stdout (snd caught) = [ErrorExtracting "cap.tar.gz"]
      /\ lookup (snd (to // "a.json")) (source (snd caught)) = Some (File "A"))
  /\ fst raised = inl EOFError.
Proof.
  intros run tar to caught raised.
  destruct (C9_error_handling example_tarfile "U" "T" source_root target_root
              (initial (example_archive "PART") (Dir []) [])
              eq_refl eq_refl eq_refl (fun u H => H))
    as (Hcaught & Hraised & _ & Hne & Hiff & _).
  assert (Hrun : fst run = inr tt) by (vm_compute; reflexivity).
  split; [exact Hrun|]. split; [vm_compute; reflexivity|].
  split; [vm_compute; tauto|]. split; [exact Hne|].
  split; [apply Hiff; exact Hrun|]. split.
  - unfold caught.
    rewrite (Hcaught tar to (initial (example_archive "PART") (Dir []) [])
               (snd (os_makedirs to
                       (initial (example_archive "PART") (Dir []) [])))
               (snd (tarfile_extractall example_tarfile tar to
                       (snd (os_makedirs to
                               (initial (example_archive "PART") (Dir [])
                                  [])))))
               eq_refl ltac:(vm_compute; reflexivity)
               ltac:(vm_compute; reflexivity)).
    vm_compute. repeat split.
  - unfold raised.
    rewrite (Hraised tar to (initial (example_archive "CUT") (Dir []) [])
               (snd (os_makedirs to
                       (initial (example_archive "CUT") (Dir []) [])))
               (snd (tarfile_extractall example_tarfile tar to
                       (snd (os_makedirs to
                               (initial (example_archive "CUT") (Dir [])
                                  [])))))
               EOFError eq_refl ltac:(vm_compute; reflexivity)
               ltac:(vm_compute; reflexivity) ltac:(discriminate)).
    reflexivity.
Defined.

(** The claim as it is worded fails on a truncated archive: the reader
    raises [EOFError], which the [except] clause does not take, and the run
    ends there. *)
Lemma C9_counterexample :
  let run := restructure_directory example_tarfile "U" "T" source_root
               target_root (initial (example_archive "CUT") (Dir []) []) in
  ~ continues_to_completion run
  /\ fst run = inl EOFError
  /\ stdout (snd run) = [DetectedSingleSystem].
Proof.
  vm_compute. split; [|split; reflexivity]. intros [H _]. discriminate.
Qed.

(** A write that is refused ends the run: the tenth write of this run is
    into a read-only directory. *)
Example write_failure_aborts :
  let run := restructure_directory example_tarfile "U" "T" source_root
               target_root
               (initial (example_archive "TAR") (Dir [])
                  [(Target, ["U"; "SUT1"; "Results"; "run1"; "iteration1";
                             "instance1"])]) in
  fst run = inl OSError
  /\ length (trace (snd run)) = 10
  /\ failed_at (snd run) = Some 10
  /\ stdout (snd run)
     = [DetectedSingleSystem;
        Extracted "cap.tar.gz"
          (Source, ["WorkloadProfiler"; "extracted_wp_temp_T"]);
        DetectedWPArtifact "cap.tar.gz" 1].
Proof. vm_compute. repeat split. Qed.

(** ** The canonical directories *)

Lemma trace_log e r n w : trace (log e (set_fs r n w)) = trace w ++ [e].
Proof. now destruct r. Qed.

Lemma grows_refl w o : grows w o w.
Proof. split; [exists []; now rewrite app_nil_r|apply dirs_le_refl]. Qed.

Lemma grows_seq w1 w2 o w3 :
  grows w1 None w2 -> grows w2 o w3 -> grows w1 o w3.
Proof.
  intros [[e1 H1] D1] [[e2 H2] D2]. split.
  - exists (e1 ++ e2). now rewrite H2, H1, app_assoc.
  - eapply dirs_le_trans; eauto.
Qed.

Lemma grows_any o o' w w' : grows w o w' -> grows w o' w'.
Proof. intros H. exact H. Qed.

Lemma grows_os_error {A : Type} : respects grows (@os_error A).
Proof.
  intros w. split; [exists []; cbn; now rewrite app_nil_r|apply dirs_le_refl].
Qed.

Lemma grows_print m : respects grows (print m).
Proof.
  intros w. split; [exists []; cbn; now rewrite app_nil_r|apply dirs_le_refl].
Qed.

Lemma grows_write_target e l f :
  fst l = Target ->
  (forall cur x, f cur = Some x -> dirs_le cur (Some x)) ->
  respects grows (write e l f).
Proof.
  intros Hl Hf w. destruct (write_cases e l f w) as [H|(n & Hn & H)];
    rewrite H; [apply grows_os_error|].
  cbn [fst snd outcome]. split.
  - exists [e]. apply trace_log.
  - rewrite Hl in *. cbn [set_fs log target fs] in *. eauto.
Qed.

Lemma grows_write_source e l f :
  fst l = Source -> respects grows (write e l f).
Proof.
  intros Hl w. destruct (write_cases e l f w) as [H|(n & Hn & H)];
    rewrite H; [apply grows_os_error|].
  cbn [fst snd outcome]. split.
  - exists [e]. apply trace_log.
  - rewrite Hl. apply dirs_le_refl.
Qed.

Lemma grows_makedirs l : fst l = Target -> respects grows (os_makedirs l).
Proof.
  intros Hl. apply grows_write_target; [exact Hl|].
  intros cur x. apply mkdirs_dirs_le.
Qed.

Lemma grows_copy from to :
  fst to = Target -> respects grows (shutil_copy from to).
Proof.
  intros Hl w. unfold shutil_copy.
  destruct (node_at w from) as [[d|es]|]; try apply grows_os_error.
  apply grows_write_target.
  - now destruct (is_dir _).
  - intros cur x. apply alter_dirs_le. intros c y. apply put_file_dirs_le.
Qed.

Lemma grows_copytree from to :
  fst to = Target -> respects grows (shutil_copytree from to).
Proof.
  intros Hl w. unfold shutil_copytree.
  destruct (node_at w from) as [[d|es]|]; try apply grows_os_error.
  apply grows_write_target; [exact Hl|].
  intros cur x H.
  destruct (mkdirs (snd to) cur) as [n|] eqn:E; [|discriminate].
  eapply dirs_le_trans; [eapply mkdirs_dirs_le; exact E|].
  eapply alter_dirs_le; [|exact H]. intros c y. apply merge_dirs_le.
Qed.

Lemma grows_rmtree l : fst l = Source -> respects grows (shutil_rmtree l).
Proof.
  intros Hl w. unfold shutil_rmtree.
  cbn [fst snd outcome]. split.
  - eexists. apply trace_log.
  - rewrite Hl. apply dirs_le_refl.
Qed.

Lemma grows_extract tarfile_open tar to :
  fst to = Source -> respects grows (extract_tar_gz tarfile_open tar to).
Proof.
  intros Hl w.
  destruct (extract_tar_gz_cases tarfile_open tar to w)
    as (w2 & (_ & _ & _ & evs & T) & Ht & Hc).
  specialize (Ht Hl).
  assert (G : forall o, grows w o w2).
  { intros o. split; [now exists evs|]. rewrite Ht. apply dirs_le_refl. }
  destruct Hc as [H|[(m & _ & H)|[H|H]]]; rewrite H;
    cbn [fst snd outcome print os_error eof_error]; split;
    cbn [trace target]; first [now exists evs | rewrite Ht; apply dirs_le_refl].
Qed.

Ltac grows_side :=
  first [ exact (fun w => grows_refl w None) | exact grows_seq | assumption
        | exact (@grows_os_error unit)
        | intros;
          first [ apply grows_print | apply grows_makedirs; assumption
                | apply grows_copy; assumption
                | apply grows_copytree; assumption
                | apply grows_rmtree; assumption
                | apply grows_extract; assumption ] ].

Lemma restructure_directory_grows tarfile_open uuid_folder temp_uuid
  source_dir target_dir :
  fst source_dir = Source -> fst target_dir = Target ->
  respects grows
    (restructure_directory tarfile_open uuid_folder temp_uuid source_dir
       target_dir).
Proof. intros Hs Ht. apply restructure_directory_respects; grows_side. Qed.

Lemma run_mappers_grows strict source_dir sut_dir sut :
  fst sut_dir = Target ->
  respects grows (run_mappers strict source_dir sut_dir sut).
Proof. intros Ht. apply run_mappers_respects; grows_side. Qed.

Lemma restructure_sut_grows strict source_dir uuid_dir sut :
  fst uuid_dir = Target ->
  respects grows (restructure_sut strict source_dir uuid_dir sut).
Proof.
  intros Ht. unfold restructure_sut.
  apply (respects_bind grows grows_seq).
  - apply create_sut_dirs_respects; first [grows_side | loc_side].
  - intros _. apply run_mappers_grows. loc_side.
Qed.

Lemma copy_root_files_grows source_dir uuid_dir suts :
  fst uuid_dir = Target ->
  respects grows (copy_root_files source_dir uuid_dir suts).
Proof. intros Ht. apply copy_root_files_respects; grows_side. Qed.

Lemma single_mappers_grows tarfile_open temp_uuid source_dir sut_dir :
  fst source_dir = Source -> fst sut_dir = Target ->
  respects grows (single_mappers tarfile_open temp_uuid source_dir sut_dir).
Proof. intros Hs Ht. apply single_mappers_respects; grows_side. Qed.

Lemma Forall_flat_map_all {A B : Type} (P : B -> Prop) (f : A -> list B) l :
  (forall x, Forall P (f x)) -> Forall P (flat_map f l).
Proof. intros H. apply Forall_flat_map, Forall_forall. auto. Qed.

Lemma Forall_map_all {A B : Type} (P : B -> Prop) (f : A -> B) l :
  (forall x, P (f x)) -> Forall P (map f l).
Proof. intros H. apply Forall_map, Forall_forall. auto. Qed.

Ltac in_canonical_at c :=
  exists c; eexists; split; [simpl; tauto|];
  cbn [dest]; unfold join; cbn [fst snd];
  rewrite <- ?app_assoc; cbn [app]; reflexivity.

Ltac in_canonical_leaf :=
  unfold in_canonical;
  repeat match goal with
         | |- context [if ?b then _ else _] => destruct b
         end;
  first [ in_canonical_at "PlatformProfiler"
        | in_canonical_at "WorkloadProfiler"
        | in_canonical_at "Results" ].

Ltac forall_events :=
  repeat first
    [ apply Forall_nil
    | apply Forall_cons; [in_canonical_leaf|]
    | apply Forall_app; split
    | apply Forall_flat_map_all; intros ?
    | apply Forall_map_all; intros ?; in_canonical_leaf
    | match goal with
      | |- Forall _ (if ?b then _ else _) => destruct b
      | |- Forall _ (match ?x with Some _ => _ | None => _ end) => destruct x
      end ].

(** Every write of the mappers of a SUT is at or below one of its canonical
    directories. *)
Lemma mapper_events_in_canonical s strict source_dir sut_dir sut :
  Forall (in_canonical sut_dir)
    (mapper_events s strict source_dir sut_dir sut).
Proof.
  unfold mapper_events, pp_events, pp_folder_events, pp_run_events,
    wp_sut_events, wp_events, wp_file_events, results_events, runs_events,
    run_events, iteration_events, instance_events, no_iteration_events,
    log_file_events.
  forall_events.
Qed.

Lemma node_at_target w l :
  fst l = Target -> node_at w l = olookup (snd l) (Some (target w)).
Proof. intros Hl. unfold node_at. now rewrite Hl. Qed.

Lemma is_dir_kept w w' l :
  fst l = Target ->
  dirs_le (Some (target w)) (Some (target w')) ->
  is_dir (node_at w l) = true -> is_dir (node_at w' l) = true.
Proof.
  intros Hl Hd. rewrite !node_at_target by exact Hl. apply Hd.
Qed.

Lemma makedirs_inr l w w' :
  fst l = Target -> os_makedirs l w = (inr tt, w') ->
  is_dir (node_at w' l) = true
  /\ dirs_le (Some (target w)) (Some (target w')).
Proof.
  intros Hl H. pose proof (grows_makedirs l Hl w) as [_ Hg].
  rewrite H in Hg. cbn [snd] in Hg. split; [|exact Hg].
  apply write_inr in H as (_ & n & Hn & ->).
  rewrite node_at_target by exact Hl. rewrite Hl in *.
  cbn [log set_fs target fs olookup] in *.
  eapply mkdirs_is_dir; eauto.
Qed.

(** Once [create_sut_dirs] has returned, the three canonical directories
    are there. *)
Lemma create_sut_dirs_exist sut_dir w w' :
  fst sut_dir = Target ->
  create_sut_dirs sut_dir w = (inr tt, w') ->
  forall d, In d (canonical_dirs sut_dir) -> is_dir (node_at w' d) = true.
Proof.
  intros Ht H. unfold create_sut_dirs in H.
  apply bind_inr in H as ([] & w1 & H1 & H).
  apply bind_inr in H as ([] & w2 & H2 & H).
  apply bind_inr in H as ([] & w3 & H3 & H4).
  apply makedirs_inr in H2 as [D2 _]; [|loc_side].
  apply makedirs_inr in H3 as [D3 L3]; [|loc_side].
  apply makedirs_inr in H4 as [D4 L4]; [|loc_side].
  intros d [<-|[<-|[<-|[]]]].
  - apply (is_dir_kept w3); [loc_side|exact L4|].
    apply (is_dir_kept w2); [loc_side|exact L3|exact D2].
  - apply (is_dir_kept w3); [loc_side|exact L4|exact D3].
  - exact D4.
Qed.

Lemma respects_inr {A : Type} (m : M A) w a w' :
  respects grows m -> m w = (inr a, w') ->
  (exists evs, trace w' = trace w ++ evs)
  /\ dirs_le (Some (target w)) (Some (target w')).
Proof. intros Hm H. specialize (Hm w). now rewrite H in Hm. Qed.

(** Each element of a completed loop had its turn, and the directories of
    the target have only grown since. *)
Lemma for_member {A : Type} (body : A -> M unit) (xs : list A) :
  (forall x, respects grows (body x)) ->
  forall w w', for_ xs body w = (inr tt, w') ->
  forall x, In x xs ->
  exists wa wb, body x wa = (inr tt, wb)
                /\ dirs_le (Some (target wb)) (Some (target w')).
Proof.
  intros Hb. induction xs as [|y xs IH]; intros w w' H x Hx; [destruct Hx|].
  cbn [for_] in H. apply bind_inr in H as ([] & w1 & H1 & H2).
  destruct Hx as [->|Hx].
  - exists w, w1. split; [exact H1|].
    eapply respects_inr; [|exact H2].
    apply (respects_for grows (fun w0 => grows_refl w0 None) grows_seq).
    exact Hb.
  - eapply IH; eauto.
Qed.

Lemma print_inr m w w' :
  print m w = (inr tt, w') ->
  trace w' = trace w /\ target w' = target w /\ source w' = source w.
Proof. intros H. inversion H. auto. Qed.

(** C2, as the code has it.  The canonical directories of a SUT are created
    when its turn comes: first its four directories, then the writes of its
    mappers, all of them at or below its canonical directories, then the
    next SUT; the root files come last.  In the single-system case the
    directories of SUT1 come before every other write.  After a completed
    run the canonical directories of every SUT exist. *)
Theorem C2_canonical_directories
  (tarfile_open : string -> archive)
  (uuid_folder temp_uuid : string) (source_dir target_dir : loc)
  (w w' : world) :
  fst source_dir = Source -> fst target_dir = Target ->
  restructure_directory tarfile_open uuid_folder temp_uuid source_dir
    target_dir w = (inr tt, w') ->
  let s := source w in
  let uuid_dir := target_dir // uuid_folder in
  let suts := suts_of s source_dir in
  if nonempty suts then
    trace w' =
      trace w
      ++ Makedirs uuid_dir
         :: flat_map (fun sut =>
              skeleton_events (uuid_dir // sut_name sut)
              ++ mapper_events s false source_dir (uuid_dir // sut_name sut) sut)
              suts
         ++ root_events s source_dir uuid_dir suts
    /\ (forall sut,
          Forall (in_canonical (uuid_dir // sut_name sut))
            (mapper_events s false source_dir (uuid_dir // sut_name sut) sut))
    /\ (forall sut d, In sut suts ->
          In d (canonical_dirs (uuid_dir // sut_name sut)) ->
          is_dir (node_at w' d) = true)
  else
    (exists rest,
        trace w' =
          trace w
          ++ Makedirs uuid_dir :: skeleton_events (uuid_dir // "SUT1") ++ rest)
    /\ (forall d, In d (canonical_dirs (uuid_dir // "SUT1")) ->
          is_dir (node_at w' d) = true).
Proof.
  intros Hs Ht Hrun s uuid_dir suts.
  unfold restructure_directory in Hrun.
  apply bind_inr in Hrun as ([] & w1 & H1 & Hrun).
  apply bind_inr in Hrun as (suts' & w2 & H2 & Hrun).
  apply bind_inr in Hrun as ([] & w5 & Hbody & Hlast).
  fold uuid_dir in H1, Hbody.
  destruct (emits_makedirs s uuid_dir ltac:(loc_side) w tt w1 eq_refl H1)
    as (_ & T1 & S1).
  destruct (identify_suts_emits s source_dir Hs w1 _ w2 S1 H2)
    as (-> & T2 & S2).
  fold suts in Hbody |- *. rewrite app_nil_r in T2.
  apply print_inr in Hlast as (T5 & G5 & _).
  destruct (nonempty suts).
  - apply bind_inr in Hbody as ([] & w3 & H3 & H4).
    apply print_inr in H3 as (T3 & G3 & S3).
    assert (Hu : fst uuid_dir = Target) by loc_side.
    destruct (multi_system_emits s source_dir Hs false uuid_dir suts Hu
                w3 tt w5 ltac:(congruence) H4) as (_ & T4 & _).
    split; [|split].
    + rewrite T5, T4, T3, T2, T1. unfold multi_events, sut_events.
      rewrite <- app_assoc. reflexivity.
    + intros sut. apply mapper_events_in_canonical.
    + intros sut d Hin Hd. unfold multi_system in H4.
      apply bind_inr in H4 as ([] & w4 & Hfor & Hroot).
      destruct (for_member _ suts
                  (fun x => restructure_sut_grows false source_dir uuid_dir x Hu)
                  _ _ Hfor sut Hin) as (wa & wb & Hsut & Hle).
      unfold restructure_sut in Hsut.
      apply bind_inr in Hsut as ([] & wc & Hc & Hm).
      assert (Hd' : fst d = Target).
      { destruct Hd as [<-|[<-|[<-|[]]]]; loc_side. }
      rewrite node_at_target by exact Hd'. rewrite G5.
      rewrite <- node_at_target by exact Hd'.
      apply (is_dir_kept w4); [exact Hd'| |].
      { eapply respects_inr; [|exact Hroot].
        apply copy_root_files_grows. exact Hu. }
      apply (is_dir_kept wb); [exact Hd'|exact Hle|].
      apply (is_dir_kept wc); [exact Hd'| |].
      { eapply respects_inr; [|exact Hm].
        apply run_mappers_grows. loc_side. }
      eapply create_sut_dirs_exist; [|exact Hc|exact Hd]. loc_side.
  - apply bind_inr in Hbody as ([] & w3 & H3 & H4).
    apply print_inr in H3 as (T3 & G3 & S3).
    unfold single_system in H4.
    apply bind_inr in H4 as ([] & wc & Hc & Hm).
    destruct (create_sut_dirs_emits s (uuid_dir // "SUT1") ltac:(loc_side)
                w3 tt wc ltac:(congruence) Hc) as (_ & Tc & _).
    destruct (respects_inr _ _ _ _
                (single_mappers_grows tarfile_open temp_uuid source_dir
                   (uuid_dir // "SUT1") Hs ltac:(loc_side)) Hm)
      as [[rest Tm] Hle].
    split.
    + exists rest. rewrite T5, Tm, Tc, T3, T2, T1.
      rewrite <- !app_assoc. reflexivity.
    + intros d Hd.
      assert (Hd' : fst d = Target).
      { destruct Hd as [<-|[<-|[<-|[]]]]; loc_side. }
      rewrite node_at_target by exact Hd'. rewrite G5.
      rewrite <- node_at_target by exact Hd'.
      apply (is_dir_kept wc); [exact Hd'|exact Hle|].
      eapply create_sut_dirs_exist; [|exact Hc|exact Hd]. loc_side.
Qed.

Lemma C2_canonical_directories_witness :
  let run := restructure_directory example_tarfile "U" "T" source_root
               target_root (initial example_multi (Dir []) []) in
  (forall sut d, In sut ["vm1"; "VM2"] ->
      In d (canonical_dirs (target_root // "U" // sut_name sut)) ->
      is_dir (node_at (snd run) d) = true)
  /\ listing (target (snd run)) (Target, ["U"; "SUT2"; "WorkloadProfiler"]) = [].
Proof.
  intros run.
  assert (Hrun : restructure_directory example_tarfile "U" "T" source_root
                   target_root (initial example_multi (Dir []) [])
                 = (inr tt, snd run)) by (vm_compute; reflexivity).
  pose proof (C2_canonical_directories example_tarfile "U" "T" source_root
                target_root (initial example_multi (Dir []) []) (snd run)
                eq_refl eq_refl Hrun) as H.
  cbv zeta in H.
  change (source (initial example_multi (Dir []) [])) with example_multi in H.
  assert (E : suts_of example_multi source_root = ["vm1"; "VM2"])
    by (vm_compute; reflexivity).
  rewrite E in H. cbn [nonempty] in H. destruct H as (_ & _ & H).
  split; [exact H|]. vm_compute. reflexivity.
Defined.

(** The claim as it is worded fails on two SUTs: the first write of a mapper
    for SUT1 (event 6) comes before SUT2/Results is created. *)
Lemma C2_counterexample :
  ~ created_before_any_write (target_root // "U")
      (suts_of example_multi source_root)
      (trace (snd (restructure_directory example_tarfile "U" "T" source_root
                     target_root (initial example_multi (Dir []) [])))).
Proof.
  intros H.
  remember (trace (snd (restructure_directory example_tarfile "U" "T"
                          source_root target_root
                          (initial example_multi (Dir []) [])))) as t eqn:Et.
  vm_compute in Et.
  assert (E : suts_of example_multi source_root = ["vm1"; "VM2"])
    by (vm_compute; reflexivity).
  rewrite E in H. subst t.
  specialize (H 6 (Copy (Source, ["PlatformProfile"; "pp1"; "f1"])
                     (Target, ["U"; "SUT1"; "PlatformProfiler"; "run1"]))
                eq_refl).
  assert (Hw : mapper_write (target_root // "U") ["vm1"; "VM2"]
                 (Copy (Source, ["PlatformProfile"; "pp1"; "f1"])
                    (Target, ["U"; "SUT1"; "PlatformProfiler"; "run1"]))).
  { intros d _. discriminate. }
  specialize (H Hw "VM2" (Target, ["U"; "SUT2"; "Results"])).
  destruct H as (j & Hj & Hn).
  - simpl. tauto.
  - vm_compute. tauto.
  - do 6 (destruct j as [|j]; [discriminate Hn|]). lia.
Qed.

(** ** The single-system case of restructure.py *)

Lemma map_of_flat_map {A B C : Type} (g : B -> C) (f : A -> list B) l :
  map g (flat_map f l) = flat_map (fun x => map g (f x)) l.
Proof.
  induction l as [|x l IH]; simpl; [reflexivity|].
  now rewrite map_app, IH.
Qed.

Section Single.

Variable tarfile_open : string -> archive.
Variable s : node.
Variable source_dir : loc.
Hypothesis Hsource : fst source_dir = Source.

Lemma list_log_subfolders_emits logs_src :
  fst logs_src = Source ->
  emits s (list_log_subfolders logs_src) (Py.sorted (subdirs_in s logs_src)) [].
Proof.
  intros Hl. unfold list_log_subfolders.
  eapply emits_conv; [repeat emits_step| |].
  - fold (subdirs_in s logs_src).
    destruct (exists_in s logs_src) eqn:E; [reflexivity|].
    apply exists_not_dir, listing_not_dir in E.
    unfold subdirs_in. now rewrite E.
  - now destruct (exists_in s logs_src).
Qed.

Lemma copy_platform_profile_single_emits ppdir :
  fst ppdir = Target ->
  exists evs, emits s (copy_platform_profile_single source_dir ppdir) tt evs.
Proof.
  intros Ht. eexists. unfold copy_platform_profile_single.
  eapply emits_conv; [repeat emits_step|reflexivity|reflexivity].
Qed.

Lemma copy_platform_profile_single_writes ppdir :
  fst ppdir = Target ->
  emits s (copy_platform_profile_single source_dir ppdir) tt
    (pp_single_events s source_dir ppdir).
Proof.
  intros Ht. unfold copy_platform_profile_single. emits_auto.
  unfold pp_single_events. cbn [app].
  destruct (exists_in s (source_dir // "PlatformProfile")) eqn:E;
    [reflexivity|].
  apply exists_not_dir, listing_not_dir in E. now rewrite E.
Qed.

Lemma copy_walk_flat_emits top target_dir :
  fst top = Source -> fst target_dir = Target ->
  emits s (copy_walk_flat top target_dir) tt
    (map (fun f => Copy f target_dir) (walk_files s top)).
Proof.
  intros Hs Ht. unfold copy_walk_flat. emits_auto.
  unfold walk_files. cbn [app]. rewrite map_of_flat_map.
  apply flat_map_ext. intros rf. rewrite map_map. apply flat_map_single.
Qed.

Lemma walk_in_absent top : exists_in s top = false -> walk_files s top = [].
Proof.
  unfold exists_in, walk_files, walk_in.
  now destruct (lookup (snd top) s).
Qed.

Lemma replicate_wp_artifact_emits a num_runs wpdir :
  (forall t, extracted_temp a = Some t -> fst t = Source) ->
  fst wpdir = Target ->
  emits s (replicate_wp_artifact a num_runs wpdir) tt
    (replicate_events s a num_runs wpdir).
Proof.
  intros Ha Ht. unfold replicate_wp_artifact, replicate_events.
  destruct (wp_artifact_path a) as [artifact|]; [|apply emits_ret].
  unfold replication_events, Py.range, artifact_files.
  destruct (wp_artifact_is_tar a).
  - destruct (extracted_temp a) as [t|] eqn:Et.
    + specialize (Ha t eq_refl). apply emits_for. intros k.
      eapply emits_conv; [|reflexivity|].
      * eapply emits_bind; [apply emits_makedirs; loc_side|].
        eapply emits_bind; [apply emits_exists; exact Ha|].
        apply emits_when. apply copy_walk_flat_emits; [exact Ha|loc_side].
      * cbn [app]. f_equal.
        destruct (exists_in s t) eqn:E; [reflexivity|].
        now rewrite (walk_in_absent _ E).
    + apply emits_for. intros k. emits_auto. reflexivity.
  - apply emits_for. intros k. emits_auto. reflexivity.
Qed.

Lemma copy_logs_emits logs_src results_dir log_subfolders :
  fst logs_src = Source -> fst results_dir = Target ->
  emits s (copy_logs logs_src results_dir log_subfolders) tt
    (logs_events s logs_src results_dir log_subfolders).
Proof.
  intros Hl Ht. unfold copy_logs, copy_walk_tree.
  eapply emits_conv; [repeat emits_step|reflexivity|].
  unfold logs_events, walk_tree_events.
  destruct (exists_in s logs_src); [|reflexivity].
  destruct (nonempty log_subfolders); cbn [negb app].
  - apply flat_map_ext. intros [idx sub]. cbn [fst snd].
    f_equal;
      try (apply flat_map_ext; intros rf; cbn [app]; f_equal;
           apply flat_map_single).
  - reflexivity.
Qed.

End Single.

Lemma isfile_source w l :
  fst l = Source -> is_file (node_at w l) = isfile_in (source w) l.
Proof. intros Hl. unfold node_at, isfile_in. now rewrite Hl. Qed.

(** Lines 249-261: the entries before the artifact are passed over, and
    an archive is extracted. *)
Lemma identify_wp_artifact_exact tarfile_open temp_uuid num_runs wp_src items :
  fst wp_src = Source ->
  forall w a w',
    identify_wp_artifact tarfile_open temp_uuid num_runs wp_src items w
    = (inr a, w') ->
    let temp := wp_src // ("extracted_wp_temp_" ++ temp_uuid)%string in
    let sel := find (is_artifact (source w) wp_src) items in
    a = artifact_of wp_src temp sel
    /\ source w' = prepared_source tarfile_open (source w) wp_src temp sel
    /\ trace w' = trace w
                  ++ prepare_writes tarfile_open (source w) wp_src temp sel
    /\ target w' = target w /\ readonly w' = readonly w
    /\ (forall item,
          sel = Some item -> is_archive item = true ->
          Py.endswith item ".tar.gz" = true ->
          exists n0,
            mkdirs (snd temp) (Some (source w)) = Some n0
            /\ extract_tree (archive_at tarfile_open (source w)
                               (wp_src // item)) (snd temp) n0
               = Some (source w')).
Proof.
  intros Hs. induction items as [|item items IH]; intros w a w' H;
    cbn [identify_wp_artifact find] in *.
  - inversion H; subst. cbn. rewrite app_nil_r. repeat split. discriminate.
  - apply bind_inr in H as (isf & w1 & H1 & H).
    inversion H1; subst w1 isf. clear H1.
    rewrite (isfile_source w (wp_src // item)) in H by loc_side.
    fold (is_artifact (source w) wp_src item) in H.
    destruct (is_artifact (source w) wp_src item) eqn:Ea; [|eauto].
    unfold artifact_of, prepared_source, prepare_writes, is_archive.
    destruct (Py.endswith (Py.lower item) ".tar.gz") eqn:Earch.
    + apply bind_inr in H as ([] & w1 & He & H).
      apply bind_inr in H as ([] & w2 & Hp & H).
      inversion H; subst. inversion Hp; subst. cbn [source trace target readonly].
      apply extract_tar_gz_exact in He; [|loc_side|loc_side|].
      * destruct He as (S & T & G & R & X). repeat split; try assumption.
        intros item' [= <-] _ Hc. apply X. now rewrite basename_join.
      * unfold is_artifact in Ea. now apply andb_true_iff in Ea.
    + apply bind_inr in H as ([] & w1 & Hp & H).
      inversion H; subst. inversion Hp; subst. cbn. rewrite app_nil_r.
      repeat split. intros item' Hsel Harch _. congruence.
Qed.

Lemma prepare_wp_artifact_exact tarfile_open temp_uuid num_runs wp_src w a w' :
  fst wp_src = Source ->
  prepare_wp_artifact tarfile_open temp_uuid num_runs wp_src w = (inr a, w') ->
  let temp := wp_src // ("extracted_wp_temp_" ++ temp_uuid)%string in
  let sel := selected_artifact (source w) wp_src in
  a = artifact_of wp_src temp sel
  /\ source w' = prepared_source tarfile_open (source w) wp_src temp sel
  /\ trace w' = trace w
                ++ prepare_writes tarfile_open (source w) wp_src temp sel
  /\ target w' = target w /\ readonly w' = readonly w
  /\ (forall item,
        sel = Some item -> is_archive item = true ->
        Py.endswith item ".tar.gz" = true ->
        exists n0,
          mkdirs (snd temp) (Some (source w)) = Some n0
          /\ extract_tree (archive_at tarfile_open (source w)
                             (wp_src // item)) (snd temp) n0
             = Some (source w')).
Proof.
  intros Hs H temp sel. unfold prepare_wp_artifact in H.
  apply bind_inr in H as (ex & w1 & H1 & H).
  inversion H1; subst w1 ex. clear H1.
  assert (Hex : is_some (node_at w wp_src) = exists_in (source w) wp_src).
  { unfold node_at, exists_in. now rewrite Hs. }
  rewrite Hex in H. unfold sel, selected_artifact.
  destruct (exists_in (source w) wp_src) eqn:E.
  - apply bind_inr in H as (items & w1 & H1 & H).
    assert (Hw1 : w1 = w /\ items = listing (source w) wp_src).
    { unfold os_listdir, node_at in H1. rewrite Hs in H1. cbn [fs] in H1.
      unfold listing.
      destruct (lookup (snd wp_src) (source w)) as [[d|es]|];
        try discriminate.
      inversion H1. auto. }
    destruct Hw1 as (-> & ->).
    exact (identify_wp_artifact_exact tarfile_open temp_uuid num_runs wp_src
             _ Hs w a w' H).
  - inversion H; subst. apply exists_not_dir, listing_not_dir in E.
    rewrite E. cbn. rewrite app_nil_r. repeat split. discriminate.
Qed.

(** Lines 345-348. *)
Lemma cleanup_exact wp_src temp sel w w' :
  fst temp = Source ->
  cleanup (artifact_of wp_src temp sel) w = (inr tt, w') ->
  trace w' = trace w ++ cleanup_writes (source w) temp sel.
Proof.
  intros Ht. unfold cleanup, artifact_of, cleanup_writes.
  destruct sel as [item|]; cbn [extracted_temp];
    [|intros H; inversion H; subst; now rewrite app_nil_r].
  destruct (is_archive item); cbn [andb];
    [|intros H; inversion H; subst; now rewrite app_nil_r].
  intros H. apply bind_inr in H as (ex & w1 & Hex & H).
  inversion Hex; subst w1 ex. clear Hex.
  unfold node_at in H. rewrite Ht in H. cbn [fs] in H.
  fold (exists_in (source w) temp) in H.
  destruct (exists_in (source w) temp); cbn [when] in H.
  - apply bind_inr in H as ([] & w2 & Hrm & Hpr). inversion Hpr; subst.
    unfold shutil_rmtree in Hrm. inversion Hrm; subst.
    cbn [trace]. apply trace_log.
  - inversion H; subst. now rewrite app_nil_r.
Qed.

Lemma count_runs_sorted (subs : list string) :
  count_runs (Py.sorted subs) = if nonempty subs then length subs else 1.
Proof.
  unfold count_runs.
  pose proof (Permutation_length (sorted_perm subs)) as Hl.
  rewrite Hl.
  destruct subs; destruct (Py.sorted _); try discriminate; reflexivity.
Qed.

(** C7, as the code has it.  Single-system, shared artifact.  The artifact
    is the first regular file of the WorkloadProfiler folder, in sorted
    order, whose lower-cased name ends in .json or .tar.gz.  The number of
    runs is the number of sub-directories of Logs, or 1 when there is none
    or no Logs.  A completed run writes, between the PlatformProfile copies
    and the Logs, exactly: for k = 1 to that number, the directory
    WorkloadProfiler/run{k}/iteration1 and a copy into it of the same files,
    read from the same source tree: the JSON file itself, or, for an archive,
    every regular file found below its extraction directory once
    [extract_tar_gz] has returned.  An archive whose name ends in .tar.gz,
    read into a new directory, leaves there exactly the members the reader
    delivered, all of them or those that came before a [TarError]: their
    regular files, at any depth, are the files replicated. *)
Theorem C7_shared_artifact
  (tarfile_open : string -> archive)
  (temp_uuid : string) (source_dir uuid_dir : loc) (w w' : world) :
  fst source_dir = Source -> fst uuid_dir = Target ->
  single_system tarfile_open temp_uuid source_dir uuid_dir w = (inr tt, w') ->
  let s := source w in
  let wp_src := source_dir // "WorkloadProfiler" in
  let sut_dir := uuid_dir // "SUT1" in
  let workload_profiler_dir := sut_dir // "WorkloadProfiler" in
  let temp := wp_src // ("extracted_wp_temp_" ++ temp_uuid)%string in
  let runs := subdirs_in s (source_dir // "Logs") in
  let num_runs := if nonempty runs then length runs else 1 in
  let sel := selected_artifact s wp_src in
  let s1 := prepared_source tarfile_open s wp_src temp sel in
  let files := shared_files s1 wp_src temp sel in
  trace w' =
    trace w
    ++ skeleton_events sut_dir
    ++ prepare_writes tarfile_open s wp_src temp sel
    ++ pp_single_events s1 source_dir (sut_dir // "PlatformProfiler")
    ++ match sel with
       | Some _ =>
           flat_map (fun k =>
             Makedirs (workload_profiler_dir // run_name k // "iteration1")
             :: map (fun f =>
                       Copy f (workload_profiler_dir // run_name k
                                 // "iteration1"))
                  files)
             (seq 1 num_runs)
       | None => []
       end
    ++ logs_events s1 (source_dir // "Logs") (sut_dir // "Results")
         (Py.sorted runs)
    ++ root_single_events s1 source_dir sut_dir (sut_dir // "Results")
    ++ cleanup_writes s1 temp sel
  /\ (forall item data,
        sel = Some item -> is_archive item = true ->
        Py.endswith item ".tar.gz" = true ->
        lookup (snd (wp_src // item)) s = Some (File data) ->
        lookup (snd temp) s = None ->
        escaped (tarfile_open data) = [] ->
        lookup (snd temp) s1
        = merge (Dir (members (tarfile_open data))) (Some (Dir []))
        /\ files
           = match merge (Dir (members (tarfile_open data))) (Some (Dir []))
             with
             | Some n =>
                 flat_map (fun root_files =>
                             map (fun file =>
                                    join_rel temp (fst root_files) // file)
                               (snd root_files))
                   (walk n)
             | None => []
             end).
Proof.
  intros Hs Ht Hrun s wp_src sut_dir workload_profiler_dir temp runs num_runs
    sel s1 files.
  unfold single_system in Hrun.
  apply bind_inr in Hrun as ([] & w1 & H1 & Hrun).
  destruct (create_sut_dirs_emits s sut_dir ltac:(loc_side)
              w tt w1 eq_refl H1) as (_ & T1 & S1).
  unfold single_mappers in Hrun.
  apply bind_inr in Hrun as (logs & w2 & H2 & Hrun).
  destruct (list_log_subfolders_emits s (source_dir // "Logs")
              ltac:(loc_side) w1 logs w2 S1 H2) as (-> & T2 & S2).
  apply bind_inr in Hrun as (a & w3 & H3 & Hrun).
  apply prepare_wp_artifact_exact in H3 as (Ha & S3 & T3 & _ & _ & X3);
    [|loc_side].
  rewrite S2 in Ha, S3, T3, X3.
  fold s wp_src temp sel in Ha, S3, T3, X3. fold s1 in S3.
  apply bind_inr in Hrun as ([] & w4 & H4 & Hrun).
  destruct (copy_platform_profile_single_writes s1 source_dir Hs
              (sut_dir // "PlatformProfiler") ltac:(loc_side)
              w3 tt w4 S3 H4) as (_ & T4 & S4).
  assert (Htemp : forall t, extracted_temp a = Some t -> fst t = Source).
  { rewrite Ha. unfold artifact_of. destruct sel as [item|]; cbn;
      [|discriminate]. destruct (is_archive item); [|discriminate].
    intros t [= <-]. exact Hs. }
  apply bind_inr in Hrun as ([] & w5 & H5 & Hrun).
  destruct (replicate_wp_artifact_emits s1 a
              (count_runs (Py.sorted runs)) workload_profiler_dir Htemp
              ltac:(loc_side) w4 tt w5 S4 H5) as (_ & T5 & S5).
  apply bind_inr in Hrun as ([] & w6 & H6 & Hrun).
  destruct (copy_logs_emits s1 (source_dir // "Logs") (sut_dir // "Results")
              (Py.sorted runs) ltac:(loc_side) ltac:(loc_side)
              w5 tt w6 S5 H6) as (_ & T6 & S6).
  apply bind_inr in Hrun as ([] & w7 & H7 & Hrun).
  destruct (copy_root_files_single_emits s1 source_dir Hs sut_dir
              (sut_dir // "Results") ltac:(loc_side) ltac:(loc_side)
              w6 tt w7 S6 H7) as (_ & T7 & S7).
  rewrite Ha in Hrun. apply cleanup_exact in Hrun; [|exact Hs].
  rewrite S7 in Hrun. rewrite count_runs_sorted in T5. fold num_runs in T5.
  split.
  - rewrite Hrun, T7, T6, T5, T4, T3, T2, T1.
    rewrite !app_nil_r, <- !app_assoc. do 4 f_equal.
    rewrite Ha. unfold replicate_events, replication_events, artifact_files,
      artifact_of, files, shared_files.
    destruct sel as [item|]; [|reflexivity].
    cbn [wp_artifact_path wp_artifact_is_tar extracted_temp].
    now destruct (is_archive item).
  - intros item data Hsel Harch Hcase Hdata Hfresh Hesc.
    destruct (X3 item Hsel Harch Hcase) as (n0 & Hmk & Hex).
    rewrite S3 in Hex. unfold archive_at in Hex. rewrite Hdata in Hex.
    unfold extract_tree in Hex. rewrite Hesc in Hex. cbn [fold_left] in Hex.
    pose proof (mkdirs_fresh _ _ _ Hmk Hfresh) as Hn0.
    assert (Hdir : lookup (snd temp) s1
                   = merge (Dir (members (tarfile_open data)))
                       (Some (Dir []))).
    { destruct (nonempty (members (tarfile_open data))) eqn:En.
      - apply lookup_alter in Hex as (x & Hx & Hl).
        rewrite Hn0 in Hx. now rewrite Hl, Hx.
      - inversion Hex as [E]. rewrite <- E, Hn0.
        apply nonempty_false in En. now rewrite En. }
    split; [exact Hdir|].
    unfold files, shared_files. rewrite Hsel, Harch.
    unfold walk_files, walk_in. rewrite Hdir.
    now destruct (merge _ _).
Qed.

(** Two runs, an archive of two files, one of them in a directory. *)
Lemma C7_shared_artifact_witness :
  let s := example_shared "TAR" in
  let wp_src := (Source, ["WorkloadProfiler"]) in
  let temp := (Source, ["WorkloadProfiler"; "extracted_wp_temp_T"]) in
  lookup (snd temp)
    (prepared_source example_tarfile s wp_src temp (selected_artifact s wp_src))
  = Some (Dir [("a.json", File "A"); ("d", Dir [("b.json", File "B")])])
  /\ trace (snd (single_system example_tarfile "T" source_root (Target, ["U"])
                (initial (example_shared "TAR") (Dir [("U", Dir [])]) [])))
  = [Makedirs (Target, ["U"; "SUT1"]);
     Makedirs (Target, ["U"; "SUT1"; "PlatformProfiler"]);
     Makedirs (Target, ["U"; "SUT1"; "WorkloadProfiler"]);
     Makedirs (Target, ["U"; "SUT1"; "Results"]);
     Makedirs (Source, ["WorkloadProfiler"; "extracted_wp_temp_T"]);
     Extractall (Source, ["WorkloadProfiler"; "cap.tar.gz"])
       (Source, ["WorkloadProfiler"; "extracted_wp_temp_T"]);
     Makedirs (Target, ["U"; "SUT1"; "WorkloadProfiler"; "run1"; "iteration1"]);
     Copy (Source, ["WorkloadProfiler"; "extracted_wp_temp_T"; "a.json"])
       (Target, ["U"; "SUT1"; "WorkloadProfiler"; "run1"; "iteration1"]);
     Copy (Source, ["WorkloadProfiler"; "extracted_wp_temp_T"; "d"; "b.json"])
       (Target, ["U"; "SUT1"; "WorkloadProfiler"; "run1"; "iteration1"]);
     Makedirs (Target, ["U"; "SUT1"; "WorkloadProfiler"; "run2"; "iteration1"]);
     Copy (Source, ["WorkloadProfiler"; "extracted_wp_temp_T"; "a.json"])
       (Target, ["U"; "SUT1"; "WorkloadProfiler"; "run2"; "iteration1"]);
     Copy (Source, ["WorkloadProfiler"; "extracted_wp_temp_T"; "d"; "b.json"])
       (Target, ["U"; "SUT1"; "WorkloadProfiler"; "run2"; "iteration1"]);
     Makedirs
       (Target, ["U"; "SUT1"; "Results"; "run1"; "iteration1"; "instance1"]);
     Makedirs
       (Target, ["U"; "SUT1"; "Results"; "run1"; "iteration1"; "instance1"]);
     Copy (Source, ["Logs"; "a"; "l1"])
       (Target, ["U"; "SUT1"; "Results"; "run1"; "iteration1"; "instance1"]);
     Makedirs
       (Target, ["U"; "SUT1"; "Results"; "run2"; "iteration1"; "instance1"]);
     Makedirs
       (Target, ["U"; "SUT1"; "Results"; "run2"; "iteration1"; "instance1"]);
     Rmtree (Source, ["WorkloadProfiler"; "extracted_wp_temp_T"])].
Proof.
  intros s wp_src temp. split.
  { refine (eq_trans
              (proj1 (proj2 (C7_shared_artifact example_tarfile "T" source_root
                      (Target, ["U"])
                      (initial (example_shared "TAR") (Dir [("U", Dir [])]) [])
                      (snd (single_system example_tarfile "T" source_root
                              (Target, ["U"])
                              (initial (example_shared "TAR")
                                 (Dir [("U", Dir [])]) [])))
                      eq_refl eq_refl ltac:(vm_compute; reflexivity))
                    "cap.tar.gz" "TAR" eq_refl eq_refl eq_refl eq_refl
                    eq_refl eq_refl)) _).
    reflexivity. }
  rewrite (proj1 (C7_shared_artifact example_tarfile "T" source_root
                    (Target, ["U"])
                    (initial (example_shared "TAR") (Dir [("U", Dir [])]) [])
                    (snd (single_system example_tarfile "T" source_root
                            (Target, ["U"])
                            (initial (example_shared "TAR")
                               (Dir [("U", Dir [])]) [])))
                    eq_refl eq_refl ltac:(vm_compute; reflexivity))).
  vm_compute. reflexivity.
Defined.

(** The claim as it is worded fails on an archive that cannot be read, whose
    failure is caught, and on a readable archive named CAP.TAR.GZ, which is
    selected and not extracted: the artifact is selected, the run completes
    and nothing is copied into run1/iteration1. *)
Lemma C7_counterexample :
  let workload_profiler_dir := (Target, ["U"; "SUT1"; "WorkloadProfiler"]) in
  let unreadable :=
    single_system example_tarfile "T" source_root (Target, ["U"])
      (initial (example_shared "BAD") (Dir [("U", Dir [])]) []) in
  let upper :=
    single_system example_tarfile "T" source_root (Target, ["U"])
      (initial example_upper (Dir [("U", Dir [])]) []) in
  (fst unreadable = inr tt
   /\ selected_artifact (example_shared "BAD") (Source, ["WorkloadProfiler"])
      = Some "cap.tar.gz"
   /\ subdirs_in (example_shared "BAD") (Source, ["Logs"]) = ["a"; "b"]
   /\ ~ replicated_in_every_run workload_profiler_dir 2
         (trace (snd unreadable)))
  /\ (fst upper = inr tt
      /\ selected_artifact example_upper (Source, ["WorkloadProfiler"])
         = Some "CAP.TAR.GZ"
      /\ subdirs_in example_upper (Source, ["Logs"]) = ["a"; "b"]
      /\ members (example_tarfile "TAR") <> []
      /\ ~ replicated_in_every_run workload_profiler_dir 2
            (trace (snd upper))).
Proof.
  cbv zeta. repeat split; try reflexivity; try discriminate;
    intros H; destruct (H 1 ltac:(lia)) as (f & Hin); vm_compute in Hin;
    repeat match goal with
           | H : _ \/ _ |- _ => destruct H
           end;
    try discriminate; contradiction.
Qed.

(** ** The source tree after a run *)

Lemma lookup_snoc q c : forall n es,
  lookup q n = Some (Dir es) -> lookup (q ++ [c]) n = assoc c es.
Proof.
  induction q as [|d q IH]; intros n es H.
  - cbn in H. inversion H; subst. cbn. now destruct (assoc c es).
  - destruct n as [data|es0]; [discriminate|]. cbn [lookup app] in *.
    destruct (assoc d es0); [eauto|discriminate].
Qed.

Lemma emits_source {A : Type} {s : node} {m : M A} {a evs w r w'} :
  source w = s -> m w = (inr r, w') -> emits s m a evs -> source w' = s.
Proof. intros Hs Hm He. now destruct (He w r w' Hs Hm) as (_ & _ & ?). Qed.

(** [extract_tar_gz] into a fresh directory of an existing one, by a reader
    none of whose members leads out of the directory: the source is as
    before (nothing was created) or differs by that directory only. *)
Lemma extract_tar_gz_source tarfile_open tar to q c es w w' :
  (forall data, escaped (tarfile_open data) = []) ->
  fst to = Source -> snd to = q ++ [c] ->
  lookup q (source w) = Some (Dir es) -> assoc c es = None ->
  extract_tar_gz tarfile_open tar to w = (inr tt, w') ->
  source w' = source w
  \/ (remove (snd to) (source w') = source w
      /\ is_dir (lookup (snd to) (source w')) = true).
Proof.
  intros Hesc. destruct to as [r p]. cbn [fst snd]. intros -> -> Hq Hc.
  unfold extract_tar_gz.
  destruct (Py.endswith (basename tar) ".tar.gz"); cbn [when];
    [|intros H; inversion H; now left].
  intros H. right. unfold os_makedirs in H.
  destruct (write_source_cases (Makedirs (Source, q ++ [c])) (Source, q ++ [c])
              (mkdirs (q ++ [c])) w eq_refl)
    as [E|(w1 & E & S1 & _)].
  { rewrite (bind_of_inl _ _ _ _ _ E) in H. discriminate. }
  rewrite (bind_of_inr _ _ _ _ _ E) in H.
  pose proof (remove_mkdirs _ _ _ _ _ Hq Hc S1) as Hr.
  pose proof (mkdirs_is_dir _ _ _ S1) as Hd.
  unfold try_except_TarError in H.
  destruct (tarfile_extractall tarfile_open tar (Source, q ++ [c]) w1)
    as [r w2] eqn:Ex.
  assert (Hne : r <> inl OSError).
  { intros ->. rewrite (bind_of_inl _ _ _ _ _ Ex) in H. discriminate. }
  destruct (node_at w1 tar) as [[data|es']|] eqn:En;
    try (unfold tarfile_extractall in Ex; rewrite En in Ex; inversion Ex;
         subst; now destruct Hne).
  destruct (tarfile_extractall_exact tarfile_open tar (Source, q ++ [c]) data
              w1 r w2 eq_refl En Ex Hne) as (S2 & _).
  unfold extract_tree in S2. rewrite Hesc in S2. cbn [fold_left snd] in S2.
  assert (Hw' : source w' = source w2).
  { destruct r as [[]|[]].
    - now destruct Hne.
    - rewrite (bind_of_inl _ _ _ _ _ Ex) in H. now inversion H.
    - rewrite (bind_of_inl _ _ _ _ _ Ex) in H. discriminate.
    - rewrite (bind_of_inr _ _ _ _ _ Ex) in H. now inversion H. }
  rewrite Hw'. clear Hw' H.
  destruct (nonempty (members (tarfile_open data))).
  - split.
    + rewrite <- Hr.
      eapply remove_alter; [now destruct q| |exact Hd|exact S2].
      intros cur y. apply merge_dir_is_dir.
    + apply lookup_alter in S2 as (x & Hx & Hlx). rewrite Hlx.
      eapply merge_dir_is_dir; exact Hx.
  - injection S2 as S2'. rewrite <- S2'. auto.
Qed.

Lemma identify_wp_artifact_source tarfile_open temp_uuid num_runs wp_src es
  items :
  (forall data, escaped (tarfile_open data) = []) ->
  fst wp_src = Source ->
  forall w a w',
    lookup (snd wp_src) (source w) = Some (Dir es) ->
    assoc ("extracted_wp_temp_" ++ temp_uuid)%string es = None ->
    identify_wp_artifact tarfile_open temp_uuid num_runs wp_src items w
    = (inr a, w') ->
    let temp := wp_src // ("extracted_wp_temp_" ++ temp_uuid)%string in
    (extracted_temp a = None /\ source w' = source w)
    \/ (extracted_temp a = Some temp
        /\ (source w' = source w
            \/ (remove (snd temp) (source w') = source w
                /\ is_dir (lookup (snd temp) (source w')) = true))).
Proof.
  intros Hesc Hs.
  induction items as [|item items IH]; intros w a w' Hq Hc H temp;
    cbn [identify_wp_artifact] in H.
  - inversion H; subst. left. auto.
  - apply bind_inr in H as (isf & w1 & Hf & H).
    inversion Hf; subst w1 isf. clear Hf.
    destruct (is_file (node_at w (wp_src // item))
              && Py.endswith_any (Py.lower item) [".json"; ".tar.gz"]);
      [|eauto].
    destruct (Py.endswith (Py.lower item) ".tar.gz").
    + apply bind_inr in H as ([] & w1 & He & H).
      apply bind_inr in H as ([] & w2 & Hp & H).
      inversion H; subst. inversion Hp; subst. cbn [extracted_temp source].
      right. split; [reflexivity|].
      eapply extract_tar_gz_source; [exact Hesc| | |exact Hq|exact Hc|exact He].
      * exact Hs.
      * reflexivity.
    + apply bind_inr in H as ([] & w1 & Hp & H).
      inversion H; subst. inversion Hp; subst. left. auto.
Qed.

Lemma prepare_wp_artifact_source tarfile_open temp_uuid num_runs wp_src w a w' :
  (forall data, escaped (tarfile_open data) = []) ->
  fst wp_src = Source ->
  lookup (snd (wp_src // ("extracted_wp_temp_" ++ temp_uuid)%string)) (source w)
  = None ->
  prepare_wp_artifact tarfile_open temp_uuid num_runs wp_src w = (inr a, w') ->
  let temp := wp_src // ("extracted_wp_temp_" ++ temp_uuid)%string in
  (extracted_temp a = None /\ source w' = source w)
  \/ (extracted_temp a = Some temp
      /\ (source w' = source w
          \/ (remove (snd temp) (source w') = source w
              /\ is_dir (lookup (snd temp) (source w')) = true))).
Proof.
  intros Hesc Hs Hfresh H temp. unfold prepare_wp_artifact in H.
  apply bind_inr in H as (ex & w1 & Hex & H).
  inversion Hex; subst w1 ex. clear Hex.
  destruct (is_some (node_at w wp_src)).
  - apply bind_inr in H as (items & w1 & Hl & H).
    unfold os_listdir, node_at in Hl. rewrite Hs in Hl. cbn [fs] in Hl.
    destruct (lookup (snd wp_src) (source w)) as [[d|es]|] eqn:E;
      try discriminate.
    inversion Hl; subst w1 items. clear Hl.
    eapply identify_wp_artifact_source; [exact Hesc|exact Hs|exact E| |exact H].
    rewrite <- (lookup_snoc _ _ _ _ E). exact Hfresh.
  - inversion H; subst. left. auto.
Qed.

(** Where nothing of the source is read-only, [shutil.rmtree] removes the
    whole directory. *)
Lemma source_writable_keep w q :
  source_writable w -> existsb (loc_eqb (Source, q)) (readonly w) = false.
Proof.
  intros Hw. destruct (existsb _ _) eqn:E; [|reflexivity].
  apply existsb_exists in E as (l & Hin & Hl).
  apply Hw in Hin. unfold loc_eqb in Hl. cbn [fst] in Hl. rewrite Hin in Hl.
  discriminate.
Qed.

Lemma cleanup_source a w w' :
  (forall t, extracted_temp a = Some t -> fst t = Source) ->
  source_writable w ->
  cleanup a w = (inr tt, w') ->
  source w' = match extracted_temp a with
              | Some t => if exists_in (source w) t
                          then remove (snd t) (source w) else source w
              | None => source w
              end.
Proof.
  intros Ha Hw. unfold cleanup. destruct (extracted_temp a) as [t|].
  - specialize (Ha t eq_refl). intros H.
    apply bind_inr in H as (ex & w1 & Hex & H).
    inversion Hex; subst w1 ex. clear Hex.
    unfold node_at in H. rewrite Ha in H. cbn [fs] in H.
    fold (exists_in (source w) t) in H.
    destruct (exists_in (source w) t); cbn [when] in H.
    + apply bind_inr in H as ([] & w2 & Hrm & Hpr). inversion Hpr; subst.
      unfold shutil_rmtree in Hrm. inversion Hrm; subst.
      rewrite Ha. cbn [set_fs log source fs].
      apply rmtree_remove. intros q. now apply source_writable_keep.
    + inversion H; subst. reflexivity.
  - intros H. inversion H; subst. reflexivity.
Qed.

(** No call changes which locations are read-only. *)
Lemma keeps_readonly_write e l f : respects keeps_readonly (write e l f).
Proof.
  intros w. unfold keeps_readonly.
  destruct (write_cases e l f w) as [H|(n & _ & H)]; rewrite H;
    [reflexivity|]. now destruct (fst l).
Qed.

Lemma keeps_readonly_copy from to :
  respects keeps_readonly (shutil_copy from to).
Proof.
  intros w. unfold shutil_copy.
  destruct (node_at w from) as [[d|es]|]; try reflexivity.
  apply keeps_readonly_write.
Qed.

Lemma keeps_readonly_copytree from to :
  respects keeps_readonly (shutil_copytree from to).
Proof.
  intros w. unfold shutil_copytree.
  destruct (node_at w from) as [[d|es]|]; try reflexivity.
  apply keeps_readonly_write.
Qed.

Lemma keeps_readonly_rmtree l : respects keeps_readonly (shutil_rmtree l).
Proof. intros w. unfold keeps_readonly, shutil_rmtree. now destruct (fst l). Qed.

Lemma keeps_readonly_extract tarfile_open tar to :
  respects keeps_readonly (extract_tar_gz tarfile_open tar to).
Proof.
  intros w. unfold keeps_readonly.
  destruct (extract_tar_gz_cases tarfile_open tar to w)
    as (w2 & (R2 & _) & _ & [H|[(m & _ & H)|[H|H]]]); rewrite H; exact R2.
Qed.

Ltac keeps_readonly_side :=
  first [ exact (fun w => eq_refl (readonly w)) | assumption
        | intros; unfold keeps_readonly in *; congruence
        | intros;
          first [ apply keeps_readonly_copy | apply keeps_readonly_copytree
                | unfold os_makedirs; apply keeps_readonly_write
                | apply keeps_readonly_extract | apply keeps_readonly_rmtree
                | intro; unfold keeps_readonly; reflexivity ] ].

Lemma readonly_inr {A : Type} (m : M A) w a w' :
  respects keeps_readonly m -> m w = (inr a, w') -> readonly w' = readonly w.
Proof. intros H E. exact (respects_unfold keeps_readonly m w _ w' H E). Qed.

(** X1. restructure.py leaves the source as it was, when the archive has no
    member that leads out of the extraction directory and nothing in the
    source is read-only: the extraction directory, named after a fresh
    uuid, is the only entry the run creates there and it is removed at the
    end of the run. *)
Theorem restructure_directory_keeps_source
  (tarfile_open : string -> archive)
  (uuid_folder temp_uuid : string) (source_dir target_dir : loc)
  (w w' : world) :
  fst source_dir = Source -> fst target_dir = Target ->
  lookup (snd (source_dir // "WorkloadProfiler"
                 // ("extracted_wp_temp_" ++ temp_uuid)%string)) (source w)
  = None ->
  (forall data, escaped (tarfile_open data) = []) ->
  source_writable w ->
  restructure_directory tarfile_open uuid_folder temp_uuid source_dir
    target_dir w = (inr tt, w') ->
  source w' = source w.
Proof.
  intros Hs Ht Hfresh Hesc Hwr Hrun. unfold restructure_directory in Hrun.
  apply bind_inr in Hrun as ([] & w1 & H1 & Hrun).
  apply bind_inr in Hrun as (suts & w2 & H2 & Hrun).
  apply bind_inr in Hrun as ([] & w5 & Hbody & Hlast).
  assert (Hu : fst (target_dir // uuid_folder) = Target) by loc_side.
  assert (S1 : source w1 = source w).
  { eapply (emits_source eq_refl H1). now apply emits_makedirs. }
  assert (R1 : readonly w1 = readonly w).
  { eapply readonly_inr; [|exact H1]. keeps_readonly_side. }
  assert (S2 : source w2 = source w).
  { eapply (emits_source S1 H2). now apply identify_suts_emits. }
  assert (R2 : readonly w2 = readonly w1).
  { eapply readonly_inr; [|exact H2].
    apply identify_suts_respects; keeps_readonly_side. }
  apply print_inr in Hlast as (_ & _ & S5). rewrite S5. clear S5 w'.
  destruct (nonempty suts);
    apply bind_inr in Hbody as ([] & w3 & H3 & H4);
    (assert (R3 : readonly w3 = readonly w2)
       by (eapply readonly_inr; [|exact H3]; keeps_readonly_side));
    apply print_inr in H3 as (_ & _ & S3);
    assert (S3' : source w3 = source w) by congruence;
    clear S3; rename S3' into S3.
  - eapply (emits_source S3 H4). now apply multi_system_emits.
  - unfold single_system in H4.
    apply bind_inr in H4 as ([] & wc & Hc & Hm).
    assert (Sc : source wc = source w).
    { eapply (emits_source S3 Hc). apply create_sut_dirs_emits. loc_side. }
    assert (Rc : readonly wc = readonly w3).
    { eapply readonly_inr; [|exact Hc].
      apply create_sut_dirs_respects; first [keeps_readonly_side|loc_side]. }
    unfold single_mappers in Hm.
    apply bind_inr in Hm as (logs & wl & Hl & Hm).
    assert (Sl : source wl = source w).
    { eapply (emits_source Sc Hl). apply list_log_subfolders_emits.
      loc_side. }
    assert (Rl : readonly wl = readonly wc).
    { eapply readonly_inr; [|exact Hl].
      apply list_log_subfolders_respects; keeps_readonly_side. }
    apply bind_inr in Hm as (a & wp & Hp & Hm).
    assert (Htemp : forall t, extracted_temp a = Some t -> fst t = Source).
    { eapply prepare_wp_artifact_temp; [|rewrite Hp; reflexivity]. loc_side. }
    assert (Rp : readonly wp = readonly wl).
    { eapply readonly_inr; [|exact Hp].
      apply prepare_wp_artifact_respects;
        first [keeps_readonly_side|loc_side]. }
    apply prepare_wp_artifact_source in Hp;
      [|exact Hesc|loc_side|now rewrite Sl].
    rewrite Sl in Hp.
    apply bind_inr in Hm as ([] & w6 & H6 & Hm).
    assert (S6 : source w6 = source wp).
    { destruct (copy_platform_profile_single_emits (source wp) source_dir Hs
                  (target_dir // uuid_folder // "SUT1" // "PlatformProfiler")
                  ltac:(loc_side)) as (epp & Hpp).
      exact (emits_source eq_refl H6 Hpp). }
    assert (R6 : readonly w6 = readonly wp).
    { eapply readonly_inr; [|exact H6].
      apply copy_platform_profile_single_respects;
        first [keeps_readonly_side|loc_side]. }
    apply bind_inr in Hm as ([] & w7 & H7 & Hm).
    assert (S7 : source w7 = source wp).
    { eapply (emits_source S6 H7).
      apply replicate_wp_artifact_emits; [exact Htemp|loc_side]. }
    assert (R7 : readonly w7 = readonly w6).
    { eapply readonly_inr; [|exact H7].
      apply replicate_wp_artifact_respects;
        first [keeps_readonly_side|loc_side]. }
    apply bind_inr in Hm as ([] & w8 & H8 & Hm).
    assert (S8 : source w8 = source wp).
    { eapply (emits_source S7 H8). apply copy_logs_emits; loc_side. }
    assert (R8 : readonly w8 = readonly w7).
    { eapply readonly_inr; [|exact H8].
      apply copy_logs_respects; first [keeps_readonly_side|loc_side]. }
    apply bind_inr in Hm as ([] & w9 & H9 & Hm).
    assert (S9 : source w9 = source wp).
    { eapply (emits_source S8 H9).
      apply copy_root_files_single_emits; loc_side. }
    assert (R9 : readonly w9 = readonly w8).
    { eapply readonly_inr; [|exact H9].
      apply copy_root_files_single_respects;
        first [keeps_readonly_side|loc_side]. }
    assert (Hw9 : source_writable w9).
    { unfold source_writable in *. intros l.
      rewrite R9, R8, R7, R6, Rp, Rl, Rc, R3, R2, R1. apply Hwr. }
    apply cleanup_source in Hm; [|exact Htemp|exact Hw9]. rewrite S9 in Hm.
    rewrite Hm. clear Hm.
    destruct Hp as [[-> Hsame]|[-> [Hsame|[Hrem Hdir]]]].
    + exact Hsame.
    + rewrite Hsame. unfold exists_in. rewrite Hfresh. reflexivity.
    + unfold exists_in.
      destruct (lookup _ (source wp)) as [[d|es]|]; try discriminate.
      exact Hrem.
Qed.

(** The same source under restructure.py, whose extraction directory is
    named after the uuid: the pre-existing extracted_wp_temp_1 is kept. *)
Example restructure_directory_keeps_source_archive :
  let w := initial (example_archive "TAR") (Dir []) [] in
  source (snd (restructure_directory example_confined "U" "T" source_root
                 target_root w))
  = source w.
Proof.
  intros w.
  apply (restructure_directory_keeps_source example_confined "U" "T"
           source_root target_root w
           (snd (restructure_directory example_confined "U" "T" source_root
                   target_root w)));
    [reflexivity|reflexivity|vm_compute; reflexivity| | |].
  - intros data. reflexivity.
  - intros l [].
  - vm_compute. reflexivity.
Defined.

(** Without these two conditions the source does change: a member named
    ../leak.json is written next to the extraction directory and stays, and
    a read-only member is left behind by [shutil.rmtree], which ignores the
    errors. *)
Example restructure_directory_leaves_entries :
  let run data ro :=
    restructure_directory example_tarfile "U" "T" source_root target_root
      (initial (example_archive data) (Dir []) ro) in
  (fst (run "LEAK" []) = inr tt
   /\ lookup ["WorkloadProfiler"; "leak.json"] (source (snd (run "LEAK" [])))
      = Some (File "L"))
  /\ (let ro := [(Source, ["WorkloadProfiler"; "extracted_wp_temp_T";
                           "a.json"])] in
      fst (run "TAR" ro) = inr tt
      /\ lookup ["WorkloadProfiler"; "extracted_wp_temp_T"]
           (source (snd (run "TAR" ro)))
         = Some (Dir [("a.json", File "A")])).
Proof. vm_compute. repeat split. Qed.

(** C1, on restructurev3.py.  The extraction directory of the first archive
    is WorkloadProfiler/extracted_wp_temp_1; when the source already has a
    directory of that name, its files are taken for members of the archive
    and the directory is gone after the run. *)
Theorem C1_v3_source_entry_removed :
  let w := initial (example_archive "TAR") (Dir []) [] in
  let run := restructure_directory_v3 example_tarfile "U" source_root
               target_root w in
  fst run = inr tt
  /\ lookup ["WorkloadProfiler"; "extracted_wp_temp_1"; "keep.txt"] (source w)
     = Some (File "k")
  /\ lookup ["WorkloadProfiler"; "extracted_wp_temp_1"] (source (snd run))
     = None
  /\ source (snd run) <> source w
  /\ In (Copy (Source, ["WorkloadProfiler"; "extracted_wp_temp_1"; "keep.txt"])
           (Target, ["U"; "SUT1"; "WorkloadProfiler"; "run1"; "iteration1"]))
       (trace (snd run)).
Proof.
  vm_compute. repeat split; try discriminate. tauto.
Qed.

(** ** Run indices *)

Lemma enumerate_In {A : Type} (l : list A) : forall a k x,
  In (k, x) (Py.enumerate a l)
  <-> exists i, nth_error l i = Some x /\ k = a + i.
Proof.
  induction l as [|y l IH]; intros a k x; cbn [Py.enumerate In].
  - split; [intros []|intros ([|i] & H & _); discriminate].
  - rewrite IH. split.
    + intros [H|(i & Hi & ->)].
      * inversion H; subst. exists 0. split; [reflexivity|lia].
      * exists (S i). split; [exact Hi|lia].
    + intros ([|i] & Hi & ->).
      * left. inversion Hi. f_equal. lia.
      * right. exists i. split; [exact Hi|lia].
Qed.

Lemma dense_enumerate {A : Type} (d : loc) (f : nat * A -> list event)
  (l : list A) :
  (forall k x, exists e, In e (f (k, x)) /\ in_slot d (run_name k) e) ->
  (forall k x e, In e (f (k, x)) -> in_slot d (run_name k) e) ->
  dense_runs d (length l) (flat_map f (Py.enumerate 1 l)).
Proof.
  intros Hex Hall. split.
  - intros k Hk.
    destruct (nth_error l (k - 1)) as [x|] eqn:E.
    + destruct (Hex k x) as (e & He & Hs). exists e. split; [|exact Hs].
      apply in_flat_map. exists (k, x). split; [|exact He].
      apply enumerate_In. exists (k - 1). split; [exact E|lia].
    + apply nth_error_None in E. lia.
  - intros e He. apply in_flat_map in He as ([k x] & Hin & He).
    apply enumerate_In in Hin as (i & Hi & ->). right. exists (1 + i).
    split; [|eapply Hall; exact He].
    assert (i < length l) by (apply nth_error_Some; congruence). lia.
Qed.

Lemma dense_seq (d : loc) (f : nat -> list event) (n : nat) :
  (forall k, exists e, In e (f k) /\ in_slot d (run_name k) e) ->
  (forall k e, In e (f k) -> in_slot d (run_name k) e) ->
  dense_runs d n (flat_map f (seq 1 n)).
Proof.
  intros Hex Hall. split.
  - intros k Hk. destruct (Hex k) as (e & He & Hs). exists e.
    split; [|exact Hs]. apply in_flat_map. exists k. split; [|exact He].
    apply in_seq. lia.
  - intros e He. apply in_flat_map in He as (k & Hin & He).
    apply in_seq in Hin. right. exists k. split; [lia|eauto].
Qed.

Lemma dense_flat (d : loc) (evs : list event) :
  Forall (fun e => dest e = d) evs -> dense_runs d 0 evs.
Proof.
  intros H. split; [intros k Hk; lia|].
  intros e He. left. rewrite Forall_forall in H. auto.
Qed.

Lemma dense_one (d : loc) (e : event) (evs : list event) :
  Forall (in_slot d (run_name 1)) (e :: evs) -> dense_runs d 1 (e :: evs).
Proof.
  intros H. rewrite Forall_forall in H. split.
  - intros k Hk. assert (k = 1) as -> by lia. exists e.
    split; [now left|]. apply H. now left.
  - intros e' He. right. exists 1. split; [lia|auto].
Qed.

Lemma dense_app (d : loc) n1 n2 e1 e2 :
  dense_runs d n1 e1 -> dense_runs d n2 e2 ->
  dense_runs d (Nat.max n1 n2) (e1 ++ e2).
Proof.
  intros [A1 B1] [A2 B2]. split.
  - intros k Hk. destruct (Nat.le_gt_cases k n1) as [H|H].
    + destruct (A1 k ltac:(lia)) as (e & He & Hs). exists e.
      split; [apply in_or_app; now left|exact Hs].
    + destruct (A2 k ltac:(lia)) as (e & He & Hs). exists e.
      split; [apply in_or_app; now right|exact Hs].
  - intros e He. apply in_app_or in He as [He|He].
    + destruct (B1 e He) as [H|(k & Hk & Hs)]; [now left|].
      right. exists k. split; [lia|exact Hs].
    + destruct (B2 e He) as [H|(k & Hk & Hs)]; [now left|].
      right. exists k. split; [lia|exact Hs].
Qed.

Ltac in_slot_leaf :=
  repeat match goal with
         | |- context [if ?b then _ else _] => destruct b
         end;
  unfold in_slot; eexists; cbn [dest]; unfold join, join_rel; cbn [fst snd];
  rewrite <- ?app_assoc; cbn [app]; reflexivity.

Ltac slot_events :=
  repeat first
    [ apply Forall_nil
    | apply Forall_cons; [in_slot_leaf|]
    | apply Forall_app; split
    | apply Forall_flat_map_all; intros ?
    | apply Forall_map_all; intros ?; in_slot_leaf
    | match goal with
      | |- Forall _ (if ?b then _ else _) => destruct b
      | |- Forall _ (match ?x with Some _ => _ | None => _ end) => destruct x
      end ].

Section Runs.

Variable s : node.

Lemma pp_folder_dense folder ppdir :
  dense_runs ppdir (length (subdirs_in s folder))
    (pp_folder_events s folder ppdir).
Proof.
  unfold pp_folder_events.
  destruct (subdirs_in s folder) as [|d ds] eqn:E; cbn [nonempty].
  - apply dense_flat. apply Forall_map_all. reflexivity.
  - rewrite <- (Permutation_length (sorted_perm (d :: ds))).
    apply dense_enumerate.
    + intros k x. eexists. split; [left; reflexivity|]. in_slot_leaf.
    + intros k x e He. revert e He. apply Forall_forall.
      unfold pp_run_events. slot_events.
Qed.

Lemma wp_iterations_nonempty wp_folder : wp_iterations s wp_folder <> [].
Proof.
  unfold wp_iterations.
  destruct (iteration_folders s wp_folder); cbn [nonempty]; discriminate.
Qed.

Lemma wp_events_dense wp_folder wpdir :
  dense_runs wpdir (length (json_files s wp_folder))
    (wp_events s wp_folder wpdir).
Proof.
  unfold wp_events. apply dense_enumerate.
  - intros k x. unfold wp_file_events.
    pose proof (wp_iterations_nonempty wp_folder) as Hn.
    destruct (wp_iterations s wp_folder) as [|it its]; [contradiction|].
    eexists. split; [left; reflexivity|]. in_slot_leaf.
  - intros k x e He. revert e He. apply Forall_forall.
    unfold wp_file_events. slot_events.
Qed.

Lemma run_events_in_slot strict run_path results_dir k :
  Forall (in_slot results_dir (run_name k))
    (run_events s strict run_path results_dir k).
Proof.
  unfold run_events, iteration_events, instance_events, no_iteration_events,
    log_file_events.
  slot_events.
Qed.

Lemma replication_dense files n wpdir :
  dense_runs wpdir n (replication_events files n wpdir).
Proof.
  unfold replication_events. apply dense_seq.
  - intros k. eexists. split; [left; reflexivity|]. in_slot_leaf.
  - intros k e He. revert e He. apply Forall_forall. slot_events.
Qed.

Lemma logs_events_dense logs_src results_dir log_subfolders :
  dense_runs results_dir
    (if exists_in s logs_src
     then if nonempty log_subfolders then length log_subfolders else 1
     else 0)
    (logs_events s logs_src results_dir log_subfolders).
Proof.
  unfold logs_events. destruct (exists_in s logs_src).
  - destruct (nonempty log_subfolders).
    + apply dense_enumerate.
      * intros k x. eexists. split; [left; reflexivity|]. in_slot_leaf.
      * intros k x e He. revert e He. apply Forall_forall.
        unfold walk_tree_events. slot_events.
    + apply dense_one. slot_events.
  - apply dense_flat. constructor.
Qed.

(** Something is written for a run exactly when [run_written] says so. *)
Lemma flat_map_eq_nil {A B : Type} (f : A -> list B) (l : list A) :
  flat_map f l = [] <-> forall x, In x l -> f x = [].
Proof.
  induction l as [|y l IH]; cbn [flat_map In].
  - split; [intros _ x []|reflexivity].
  - split.
    + intros H x [->|Hx]; apply app_eq_nil in H as [H1 H2];
        [exact H1|now apply IH].
    + intros H. rewrite (H y (or_introl eq_refl)). cbn [app].
      apply IH. intros x Hx. apply H. now right.
Qed.

Lemma existsb_false {A : Type} (g : A -> bool) (l : list A) :
  existsb g l = false <-> forall x, In x l -> g x = false.
Proof.
  induction l as [|y l IH]; cbn [existsb In].
  - split; [intros _ x []|reflexivity].
  - rewrite orb_false_iff, IH. split.
    + intros [H1 H2] x [->|Hx]; auto.
    + intros H. split; [apply H; now left|intros x Hx; apply H; now right].
Qed.

Lemma filter_nil {A : Type} (g : A -> bool) (l : list A) :
  filter g l = [] <-> forall x, In x l -> g x = false.
Proof.
  induction l as [|y l IH]; cbn [filter In].
  - split; [intros _ x []|reflexivity].
  - destruct (g y) eqn:E; split.
    + discriminate.
    + intros H. rewrite (H y (or_introl eq_refl)) in E. discriminate.
    + intros H x [->|Hx]; [exact E|]. now apply IH.
    + intros H. apply IH. intros x Hx. apply H. now right.
Qed.

Lemma nonempty_nil {A : Type} (l : list A) : nonempty l = false <-> l = [].
Proof. destruct l; cbn; split; congruence. Qed.

Lemma iteration_events_nil strict run_path results_dir k iteration :
  iteration_events s strict run_path results_dir k iteration = []
  <-> nonempty (subdirs_in s (run_path // iteration))
      || nonempty (files_in s (run_path // iteration)) = false.
Proof.
  unfold iteration_events.
  destruct (nonempty (subdirs_in s (run_path // iteration))) eqn:E;
    cbn [orb].
  - split; [|discriminate]. intros H.
    destruct (subdirs_in s (run_path // iteration)) as [|d ds];
      [discriminate|]. cbn [flat_map instance_events app] in H. discriminate.
  - apply nonempty_nil in E. unfold subdirs_in in E.
    rewrite filter_nil in E. rewrite nonempty_nil. unfold files_in.
    rewrite filter_nil, flat_map_eq_nil. split; intros H x Hx.
    + specialize (H x Hx).
      destruct (isfile_in s (run_path // iteration // x));
        [discriminate|reflexivity].
    + rewrite (H x Hx), (E x Hx). reflexivity.
Qed.

Lemma run_events_nil strict run_path results_dir k :
  run_events s strict run_path results_dir k = []
  <-> run_written s run_path = false.
Proof.
  unfold run_events, run_written.
  destruct (nonempty (iteration_folders s run_path)).
  - rewrite flat_map_eq_nil, existsb_false. split; intros H x Hx.
    + apply (iteration_events_nil strict run_path results_dir k). auto.
    + apply iteration_events_nil. auto.
  - unfold no_iteration_events. rewrite nonempty_nil, flat_map_eq_nil. split.
    + intros H. destruct (files_in s (benchmark_base s run_path)) as [|f fs];
        [reflexivity|]. specialize (H f (or_introl eq_refl)). discriminate.
    + intros -> x [].
Qed.

Lemma pp_single_own_name source_dir ppdir :
  Forall (own_name s (source_dir // "PlatformProfile") ppdir)
    (pp_single_events s source_dir ppdir).
Proof.
  unfold pp_single_events. apply Forall_forall. intros e He.
  apply in_flat_map in He as (item & Hin & He). exists item.
  split; [exact Hin|].
  destruct (isfile_in s (source_dir // "PlatformProfile" // item)).
  - destruct He as [<-|[]]. now left.
  - destruct (isdir_in s (source_dir // "PlatformProfile" // item));
      [|destruct He]. destruct He as [<-|[]]. now right.
Qed.

Lemma root_single_run1 source_dir sut_dir results_dir :
  Forall (fun e => dest e = sut_dir \/ in_slot results_dir (run_name 1) e)
    (root_single_events s source_dir sut_dir results_dir).
Proof.
  unfold root_single_events. apply Forall_flat_map_all. intros item.
  destruct (String.eqb (Py.lower item) "epyc_manual_result.json").
  - constructor; [now left|constructor].
  - destruct (Py.endswith_any (Py.lower item) [".json"; ".txt"]);
      [|constructor].
    constructor; [right; in_slot_leaf|].
    constructor; [right; in_slot_leaf|constructor].
Qed.

End Runs.

Lemma run_name_inj j k : run_name j = run_name k -> j = k.
Proof.
  unfold run_name, Py.str. intros H. cbn [String.append] in H.
  injection H as H.
  assert (E : Some (Nat.to_uint j) = Some (Nat.to_uint k)).
  { rewrite <- !NilEmpty.usu. now rewrite H. }
  injection E as E.
  rewrite <- (DecimalNat.Unsigned.of_to j), <- (DecimalNat.Unsigned.of_to k).
  now rewrite E.
Qed.

Lemma in_slot_inj d a b e : in_slot d a e -> in_slot d b e -> a = b.
Proof.
  intros [r1 H1] [r2 H2]. rewrite H1 in H2. injection H2 as H2.
  apply app_inv_head in H2. now injection H2.
Qed.

(** The indices written by the Results mapper of the multi-system case. *)
Lemma runs_written s strict vm_dir results_dir dirs k :
  (exists e,
      In e (runs_events s strict vm_dir results_dir 1 dirs)
      /\ in_slot results_dir (run_name k) e)
  <-> 1 <= k
      /\ exists d, nth_error dirs (k - 1) = Some d
                   /\ run_written s (vm_dir // d) = true.
Proof.
  unfold runs_events. split.
  - intros (e & He & Hs). apply in_flat_map in He as ([j d] & Hin & He).
    cbn [fst snd] in He.
    apply enumerate_In in Hin as (i & Hi & ->).
    assert (Hj : in_slot results_dir (run_name (1 + i)) e).
    { pose proof (run_events_in_slot s strict (vm_dir // d) results_dir
                    (1 + i)) as Hall.
      rewrite Forall_forall in Hall. auto. }
    pose proof (in_slot_inj _ _ _ _ Hs Hj) as Hn.
    apply run_name_inj in Hn. subst k.
    split; [lia|]. exists d. split; [now replace (1 + i - 1) with i by lia|].
    destruct (run_written s (vm_dir // d)) eqn:E; [reflexivity|].
    apply (run_events_nil s strict (vm_dir // d) results_dir (1 + i)) in E.
    rewrite E in He. destruct He.
  - intros (Hk & d & Hd & Hw).
    destruct (run_events s strict (vm_dir // d) results_dir k) as [|e evs]
      eqn:E.
    + apply run_events_nil in E. congruence.
    + exists e. split.
      * apply in_flat_map. exists (k, d). split.
        -- apply enumerate_In. exists (k - 1). split; [exact Hd|lia].
        -- cbn [fst snd]. rewrite E. now left.
      * pose proof (run_events_in_slot s strict (vm_dir // d) results_dir k)
          as Hall.
        rewrite E in Hall. now inversion Hall.
Qed.

(** C3, as the code has it.  Indices are given in sorted order, from 1.
    Multi-system, PlatformProfiler and WorkloadProfiler: the runs written
    are exactly run1 ... runN, one per sorted sub-folder or JSON file.
    Multi-system, Results: the sub-directories of the SUT folder, sorted,
    take the indices 1, 2, ... (an entry that is no directory takes none);
    everything written for the k-th goes under run{k}; run{k} is written
    exactly when the k-th directory has an iteration folder that holds a
    sub-directory or a regular file or, without iteration folder, a regular
    file in its BenchmarkLog folder (at its top level when it has none): the
    indices written need not be dense.  Single-system: the WorkloadProfiler
    and Results runs written are exactly run1 ... runN, the root files go to
    the SUT directory or to Results/run1, and PlatformProfiler has no run
    index: the entries of PlatformProfile are copied under their own
    names. *)
Theorem C3_run_indices (s : node) (source_dir : loc) :
  fst source_dir = Source ->
  (forall ppdir w w',
      fst ppdir = Target -> source w = s ->
      copy_platform_profiler source_dir ppdir w = (inr tt, w') ->
      exists evs,
        trace w' = trace w ++ evs
        /\ dense_runs ppdir
             (Nat.max
                (length (subdirs_in s (source_dir // "PlatformProfile")))
                (length (subdirs_in s (source_dir // "Host-pp"))))
             evs)
  /\ (forall wp_folder wpdir w w',
      fst wp_folder = Source -> fst wpdir = Target -> source w = s ->
      copy_workload_profiler (Some wp_folder) wpdir w = (inr tt, w') ->
      exists evs,
        trace w' = trace w ++ evs
        /\ dense_runs wpdir (length (json_files s wp_folder)) evs)
  /\ (forall strict sut results_dir w w',
      fst results_dir = Target -> source w = s ->
      copy_results strict source_dir sut results_dir w = (inr tt, w') ->
      let vm_dir := source_dir // sut in
      let dirs :=
        filter (fun d => isdir_in s (vm_dir // d))
          (Py.sorted (listing s vm_dir)) in
      let evs :=
        flat_map (fun idx_dir =>
           run_events s strict (vm_dir // snd idx_dir) results_dir
             (fst idx_dir))
           (Py.enumerate 1 dirs) in
      trace w' = trace w ++ evs
      /\ (forall k d,
            Forall (in_slot results_dir (run_name k))
              (run_events s strict (vm_dir // d) results_dir k))
      /\ (forall k d,
            run_events s strict (vm_dir // d) results_dir k = []
            <-> run_written s (vm_dir // d) = false)
      /\ (forall k,
            (exists e, In e evs /\ in_slot results_dir (run_name k) e)
            <-> 1 <= k
                /\ exists d, nth_error dirs (k - 1) = Some d
                             /\ run_written s (vm_dir // d) = true))
  /\ (forall a num_runs wpdir w w',
      (forall t, extracted_temp a = Some t -> fst t = Source) ->
      fst wpdir = Target -> source w = s ->
      wp_artifact_path a <> None ->
      replicate_wp_artifact a num_runs wpdir w = (inr tt, w') ->
      exists evs,
        trace w' = trace w ++ evs /\ dense_runs wpdir num_runs evs)
  /\ (forall logs_src results_dir log_subfolders w w',
      fst logs_src = Source -> fst results_dir = Target -> source w = s ->
      copy_logs logs_src results_dir log_subfolders w = (inr tt, w') ->
      exists evs,
        trace w' = trace w ++ evs
        /\ dense_runs results_dir
             (if exists_in s logs_src
              then if nonempty log_subfolders
                   then length log_subfolders else 1
              else 0)
             evs)
  /\ (forall sut_dir results_dir w w',
      fst sut_dir = Target -> fst results_dir = Target -> source w = s ->
      copy_root_files_single source_dir sut_dir results_dir w = (inr tt, w') ->
      exists evs,
        trace w' = trace w ++ evs
        /\ Forall (fun e => dest e = sut_dir
                            \/ in_slot results_dir (run_name 1) e) evs)
  /\ (forall ppdir w w',
      fst ppdir = Target -> source w = s ->
      copy_platform_profile_single source_dir ppdir w = (inr tt, w') ->
      exists evs,
        trace w' = trace w ++ evs
        /\ Forall (own_name s (source_dir // "PlatformProfile") ppdir) evs).
Proof.
  intros Hs. split; [|split; [|split; [|split; [|split; [|split]]]]].
  - intros ppdir w w' Ht Hw H.
    destruct (copy_platform_profiler_emits s source_dir Hs ppdir Ht
                w tt w' Hw H) as (_ & T & _).
    eexists. split; [exact T|]. unfold pp_events.
    apply dense_app; apply pp_folder_dense.
  - intros wp_folder wpdir w w' Hf Ht Hw H.
    destruct (copy_workload_profiler_emits s wp_folder wpdir Hf Ht
                w tt w' Hw H) as (_ & T & _).
    eexists. split; [exact T|]. apply wp_events_dense.
  - intros strict sut results_dir w w' Ht Hw H vm_dir dirs evs.
    destruct (copy_results_emits s source_dir Hs strict sut results_dir Ht
                w tt w' Hw H) as (_ & T & _).
    split; [exact T|]. split; [intros k d; apply run_events_in_slot|].
    split; [intros k d; apply run_events_nil|].
    intros k. apply runs_written.
  - intros a num_runs wpdir w w' Ha Ht Hw Hp H.
    destruct (replicate_wp_artifact_emits s a num_runs wpdir Ha Ht
                w tt w' Hw H) as (_ & T & _).
    eexists. split; [exact T|]. unfold replicate_events.
    destruct (wp_artifact_path a); [|contradiction].
    apply replication_dense.
  - intros logs_src results_dir log_subfolders w w' Hl Ht Hw H.
    destruct (copy_logs_emits s logs_src results_dir log_subfolders Hl Ht
                w tt w' Hw H) as (_ & T & _).
    eexists. split; [exact T|]. apply logs_events_dense.
  - intros sut_dir results_dir w w' Hd Ht Hw H.
    destruct (copy_root_files_single_emits s source_dir Hs sut_dir results_dir
                Hd Ht w tt w' Hw H) as (_ & T & _).
    eexists. split; [exact T|]. apply root_single_run1.
  - intros ppdir w w' Ht Hw H.
    destruct (copy_platform_profile_single_writes s source_dir Hs ppdir Ht
                w tt w' Hw H) as (_ & T & _).
    eexists. split; [exact T|]. apply pp_single_own_name.
Qed.

(** On [example_multi]: vm1 has the run directories a, empty, and b; what
    is written for b goes under run2 and nothing is written under run1. *)
Lemma C3_run_indices_witness :
  let w := initial example_multi (Dir []) [] in
  let results_dir := (Target, ["U"; "SUT1"; "Results"]) in
  let w' := snd (copy_results false source_root "vm1" results_dir w) in
  trace w'
  = [Makedirs (Target, ["U"; "SUT1"; "Results"; "run2"; "iteration1"; "instance2"]);
     Copy (Source, ["vm1"; "b"; "BenchmarkLog"; "log-run2-x.txt"])
       (Target, ["U"; "SUT1"; "Results"; "run2"; "iteration1"; "instance2"]);
     Makedirs (Target, ["U"; "SUT1"; "Results"; "run2"; "iteration1"; "instance1"]);
     Copy (Source, ["vm1"; "b"; "BenchmarkLog"; "notes.txt"])
       (Target, ["U"; "SUT1"; "Results"; "run2"; "iteration1"; "instance1"])]
  /\ ~ (exists e, In e (trace w') /\ in_slot results_dir (run_name 1) e).
Proof.
  intros w results_dir w'.
  destruct (C3_run_indices example_multi source_root eq_refl)
    as (_ & _ & H & _).
  destruct (H false "vm1" results_dir w w' eq_refl eq_refl
              ltac:(vm_compute; reflexivity)) as (T & _ & _ & Hk).
  split; [rewrite T; vm_compute; reflexivity|].
  rewrite T. cbn [trace w initial app]. intros He.
  apply Hk in He as (_ & d & Hd & Hw).
  vm_compute in Hd. injection Hd as <-. vm_compute in Hw. discriminate.
Defined.

(** The claim as it is worded fails when a run directory is empty: the
    Results of SUT1 hold run2 and no run1. *)
Lemma C3_counterexample :
  ~ dense_names
      (listing
         (target (snd (restructure_directory example_tarfile "U" "T"
                         source_root target_root
                         (initial example_multi (Dir []) []))))
         (Target, ["U"; "SUT1"; "Results"])).
Proof.
  assert (E : listing
                (target (snd (restructure_directory example_tarfile "U" "T"
                                source_root target_root
                                (initial example_multi (Dir []) []))))
                (Target, ["U"; "SUT1"; "Results"]) = ["run2"])
    by (vm_compute; reflexivity).
  rewrite E. intros [n Hn].
  destruct (proj1 (Hn "run2") (or_introl eq_refl)) as (k & Hk & _).
  assert (H1 : In (run_name 1) ["run2"]).
  { apply Hn. exists 1. split; [lia|reflexivity]. }
  destruct H1 as [H1|[]]. vm_compute in H1. discriminate.
Qed.

(** ** Further properties: what no run does *)

Lemma keeps_source_write e l f :
  fst l = Target -> respects keeps_source (write e l f).
Proof.
  intros Hl w. unfold keeps_source.
  destruct (write_cases e l f w) as [H|(n & _ & H)]; rewrite H;
    [reflexivity|]. rewrite Hl. reflexivity.
Qed.

Lemma keeps_source_copy from to :
  fst to = Target -> respects keeps_source (shutil_copy from to).
Proof.
  intros Ht w. unfold shutil_copy.
  destruct (node_at w from) as [[d|es]|]; try reflexivity.
  apply keeps_source_write. now destruct (is_dir (node_at w to)).
Qed.

Lemma keeps_source_copytree from to :
  fst to = Target -> respects keeps_source (shutil_copytree from to).
Proof.
  intros Ht w. unfold shutil_copytree.
  destruct (node_at w from) as [[d|es]|]; try reflexivity.
  now apply keeps_source_write.
Qed.

Ltac keeps_source_side :=
  first [ exact (fun w => eq_refl (source w)) | assumption
        | intros; unfold keeps_source in *; congruence
        | intros;
          first [ apply keeps_source_copy; assumption
                | apply keeps_source_copytree; assumption
                | unfold os_makedirs; apply keeps_source_write; assumption
                | intro; unfold keeps_source; reflexivity ] ].

(** X2. v2restructure.py never writes to the source tree, and neither does
    the multi-system case of the other two scripts: after a run, completed
    or failed, the source tree is the one the run started with. *)
Theorem multi_system_keeps_source
  (uuid_folder : string) (source_dir target_dir : loc)
  (strict : bool) (suts : list string) (w : world) :
  fst target_dir = Target ->
  source (snd (restructure_directory_v2 uuid_folder source_dir target_dir w))
  = source w
  /\ source (snd (multi_system strict source_dir (target_dir // uuid_folder)
                    suts w))
     = source w.
Proof.
  intros Ht. split.
  - apply (restructure_directory_v2_respects keeps_source);
      keeps_source_side.
  - apply (multi_system_respects keeps_source);
      first [keeps_source_side|loc_side].
Qed.

Lemma multi_system_keeps_source_witness :
  source (snd (restructure_directory_v2 "U" source_root target_root
                 (initial example_multi (Dir []) [(Target, ["U"; "SUT2"])])))
  = example_multi
  /\ fst (restructure_directory_v2 "U" source_root target_root
            (initial example_multi (Dir []) [(Target, ["U"; "SUT2"])]))
     = inl OSError.
Proof.
  split; [|vm_compute; reflexivity].
  exact (proj1 (multi_system_keeps_source "U" source_root target_root true []
                  (initial example_multi (Dir []) [(Target, ["U"; "SUT2"])])
                  eq_refl)).
Defined.

(** X3. No script removes a directory from the target tree: every
    directory the target had before the run is a directory after it,
    whether the run completes or fails; and the trace is only extended. *)
Theorem target_directories_kept
  (tarfile_open : string -> archive)
  (uuid_folder temp_uuid : string) (source_dir target_dir : loc) (w : world) :
  fst source_dir = Source -> fst target_dir = Target ->
  let kept (r : (exn + unit) * world) :=
    dirs_le (Some (target w)) (Some (target (snd r)))
    /\ exists evs, trace (snd r) = trace w ++ evs in
  kept (restructure_directory tarfile_open uuid_folder temp_uuid source_dir
          target_dir w)
  /\ kept (restructure_directory_v3 tarfile_open uuid_folder source_dir
             target_dir w)
  /\ kept (restructure_directory_v2 uuid_folder source_dir target_dir w).
Proof.
  intros Hs Ht kept. unfold kept.
  assert (G : forall m : M unit, respects grows m ->
                dirs_le (Some (target w)) (Some (target (snd (m w))))
                /\ exists evs, trace (snd (m w)) = trace w ++ evs).
  { intros m Hm. destruct (Hm w) as [He Hd]. split; [exact Hd|exact He]. }
  repeat split; try apply G.
  - apply restructure_directory_respects; grows_side.
  - apply restructure_directory_respects; grows_side.
  - apply restructure_directory_v3_respects; grows_side.
  - apply restructure_directory_v3_respects; grows_side.
  - apply restructure_directory_v2_respects; grows_side.
  - apply restructure_directory_v2_respects; grows_side.
Qed.

Lemma target_directories_kept_witness :
  is_dir (lookup ["old"; "data"]
            (target (snd (restructure_directory_v3 example_tarfile "old"
                            source_root target_root
                            (initial (example_archive "TAR")
                               (Dir [("old", Dir [("data", Dir [])])]) [])))))
  = true.
Proof.
  apply (proj1 (proj1 (proj2
           (target_directories_kept example_tarfile "old" "T" source_root
              target_root
              (initial (example_archive "TAR")
                 (Dir [("old", Dir [("data", Dir [])])]) [])
              eq_refl eq_refl))) ["old"; "data"]).
  reflexivity.
Defined.

(** X4. restructurev3.py and v2restructure.py handle errors as
    restructure.py does: no [TarError] leaves [restructure_directory]; a run
    that raises, whatever the exception, stops at the call that raised it,
    no write follows it; and a run returns exactly when no exception other
    than a [TarError], which [extract_tar_gz] catches, was raised. *)
Theorem v3_v2_errors_abort
  (tarfile_open : string -> archive)
  (uuid_folder : string) (source_dir target_dir : loc) (w : world) :
  fst source_dir = Source -> fst target_dir = Target ->
  failed_at w = None ->
  let aborts (r : (exn + unit) * world) :=
    fst r <> inl TarError
    /\ (fst r = inr tt <-> failed_at (snd r) = None)
    /\ (forall e, fst r = inl e ->
          failed_at (snd r) = Some (length (trace (snd r)))) in
  aborts (restructure_directory_v3 tarfile_open uuid_folder source_dir
            target_dir w)
  /\ aborts (restructure_directory_v2 uuid_folder source_dir target_dir w).
Proof.
  intros Hs Ht Hw aborts.
  assert (G : forall m : M unit, respects fatal_errors m -> aborts (m w)).
  { intros m Hm. destruct (Hm w) as [Hn Hf]. specialize (Hf Hw).
    unfold aborts. destruct (m w) as [[e|[]] w']; cbn [fst snd outcome] in *.
    - split; [congruence|]. split; [split; intros; congruence|].
      intros e' He. exact Hf.
    - split; [discriminate|]. split; [tauto|discriminate]. }
  split; apply G.
  - apply restructure_directory_v3_respects;
      first [ exact fatal_ret | exact fatal_seq | assumption
            | exact (@fatal_os_error unit)
            | intros; first [ apply fatal_print | apply fatal_copy
                            | apply fatal_copytree | apply fatal_rmtree
                            | apply fatal_extract
                            | unfold os_makedirs; apply fatal_write ] ].
  - apply restructure_directory_v2_respects;
      first [ exact fatal_ret | exact fatal_seq | assumption
            | exact (@fatal_os_error unit)
            | intros; first [ apply fatal_print | apply fatal_copy
                            | apply fatal_copytree
                            | unfold os_makedirs; apply fatal_write ] ].
Qed.

(** restructurev3.py on a truncated archive, which ends the run with
    [EOFError] after the first member is written; v2restructure.py on a
    read-only SUT directory; restructurev3.py on an archive whose reader
    fails with [TarError], which completes. *)
Lemma v3_v2_errors_abort_witness :
  let r3 := restructure_directory_v3 example_tarfile "U" source_root
              target_root (initial (example_archive "CUT") (Dir []) []) in
  let r2 := restructure_directory_v2 "U" source_root target_root
              (initial example_multi (Dir []) [(Target, ["U"; "SUT2"])]) in
  let r3' := restructure_directory_v3 example_tarfile "U" source_root
               target_root (initial (example_archive "PART") (Dir []) []) in
  (fst r3 = inl EOFError
   /\ failed_at (snd r3) = Some (length (trace (snd r3))))
  /\ (fst r2 = inl OSError
      /\ failed_at (snd r2) = Some (length (trace (snd r2))))
  /\ (fst r3' = inr tt /\ failed_at (snd r3') = None
      /\ In (ErrorExtracting "cap.tar.gz") (stdout (snd r3'))).
Proof.
  intros r3 r2 r3'.
  destruct (v3_v2_errors_abort example_tarfile "U" source_root target_root
              (initial (example_archive "CUT") (Dir []) [])
              eq_refl eq_refl eq_refl) as [(_ & _ & H3) _].
  destruct (v3_v2_errors_abort example_tarfile "U" source_root target_root
              (initial example_multi (Dir []) [(Target, ["U"; "SUT2"])])
              eq_refl eq_refl eq_refl) as [_ (_ & _ & H2)].
  destruct (v3_v2_errors_abort example_tarfile "U" source_root target_root
              (initial (example_archive "PART") (Dir []) [])
              eq_refl eq_refl eq_refl) as [(_ & H3' & _) _].
  assert (E3 : fst r3 = inl EOFError) by (vm_compute; reflexivity).
  assert (E2 : fst r2 = inl OSError) by (vm_compute; reflexivity).
  assert (E3' : fst r3' = inr tt) by (vm_compute; reflexivity).
  split; [split; [exact E3|exact (H3 _ E3)]|].
  split; [split; [exact E2|exact (H2 _ E2)]|].
  split; [exact E3'|]. split; [apply H3'; exact E3'|].
  vm_compute. tauto.
Defined.

(** ** Further properties: whole runs *)

Lemma stdout_keeps_write e l f w : stdout (snd (write e l f w)) = stdout w.
Proof.
  destruct (write_cases e l f w) as [H|(n & _ & H)]; rewrite H;
    [reflexivity|]. apply stdout_log.
Qed.

Lemma keeps_stdout_write e l f : respects keeps_stdout (write e l f).
Proof. intros w. apply stdout_keeps_write. Qed.

Lemma keeps_stdout_copy from to : respects keeps_stdout (shutil_copy from to).
Proof.
  intros w. unfold shutil_copy.
  destruct (node_at w from) as [[d|es]|]; try reflexivity.
  apply keeps_stdout_write.
Qed.

Lemma keeps_stdout_copytree from to :
  respects keeps_stdout (shutil_copytree from to).
Proof.
  intros w. unfold shutil_copytree.
  destruct (node_at w from) as [[d|es]|]; try reflexivity.
  apply keeps_stdout_write.
Qed.

(** The multi-system case prints nothing. *)
Lemma multi_system_stdout strict source_dir uuid_dir suts w :
  fst uuid_dir = Target ->
  stdout (snd (multi_system strict source_dir uuid_dir suts w)) = stdout w.
Proof.
  intros Hu.
  apply (multi_system_respects keeps_stdout);
    first [ exact (fun w => eq_refl (stdout w)) | assumption
          | intros; unfold keeps_stdout in *; congruence
          | intros;
            first [ apply keeps_stdout_copy | apply keeps_stdout_copytree
                  | unfold os_makedirs; apply keeps_stdout_write
                  | intro; unfold keeps_stdout; reflexivity ] ].
Qed.

Lemma os_makedirs_stdout l w r w1 :
  os_makedirs l w = (r, w1) -> stdout w1 = stdout w.
Proof.
  intros H. pose proof (stdout_keeps_write (Makedirs l) l (mkdirs (snd l)) w)
    as O. unfold os_makedirs in H. rewrite H in O. exact O.
Qed.

Lemma identify_suts_stdout source_dir w suts w2 :
  identify_suts source_dir w = (inr suts, w2) -> stdout w2 = stdout w.
Proof.
  unfold identify_suts. intros H2.
  apply bind_inr in H2 as (ds & wa & Ha & Hb).
  unfold os_listdir in Ha.
  destruct (node_at w source_dir) as [[d|es]|]; try discriminate.
  inversion Ha; subst wa ds. clear Ha.
  revert suts w2 Hb. induction (map fst es) as [|x xs IH]; intros suts w2 Hb.
  - inversion Hb; reflexivity.
  - cbn [filterM] in Hb. apply bind_inr in Hb as (b & wb & Hb1 & Hb).
    apply bind_inr in Hb1 as (isd & wc & Hc1 & Hc2).
    inversion Hc1; subst wc isd. inversion Hc2; subst wb b.
    apply bind_inr in Hb as (rest & wd & Hd & He).
    inversion He; subst w2. eapply IH. exact Hd.
Qed.

Lemma flat_map_nil {A B : Type} (xs : list A) :
  flat_map (fun _ : A => @nil B) xs = [].
Proof. induction xs; auto. Qed.

(** X5. When the source has VM or SUT directories, a completed run of
    restructure.py or of restructurev3.py is: the output root, then for
    each of those directories in listing order its canonical directories
    and its three mappers, then the root files; it prints the mode and the
    completion line, and the source tree is as before. *)
Theorem multi_system_run
  (tarfile_open : string -> archive)
  (uuid_folder temp_uuid : string) (source_dir target_dir : loc)
  (w w' : world) :
  fst source_dir = Source -> fst target_dir = Target ->
  nonempty (suts_of (source w) source_dir) = true ->
  restructure_directory tarfile_open uuid_folder temp_uuid source_dir
    target_dir w = (inr tt, w')
  \/ restructure_directory_v3 tarfile_open uuid_folder source_dir target_dir w
     = (inr tt, w') ->
  trace w' =
    trace w
    ++ Makedirs (target_dir // uuid_folder)
       :: multi_events (source w) false source_dir (target_dir // uuid_folder)
            (suts_of (source w) source_dir)
  /\ stdout w' =
       stdout w ++ [DetectedMultiSystem; RestructuringComplete uuid_folder]
  /\ source w' = source w.
Proof.
  intros Hs Ht Hn Hrun.
  assert (Hu : fst (target_dir // uuid_folder) = Target) by loc_side.
  assert (Hrun' :
    (os_makedirs (target_dir // uuid_folder) ;;
     suts <- identify_suts source_dir ;;
     (if nonempty suts then
        print DetectedMultiSystem ;;
        multi_system false source_dir (target_dir // uuid_folder) suts
      else ret tt) ;;
     print (RestructuringComplete uuid_folder)) w = (inr tt, w')).
  { destruct Hrun as [Hrun|Hrun]; rewrite <- Hrun;
      unfold restructure_directory, restructure_directory_v3, bind;
      destruct (os_makedirs _ w) as [[e|[]] w1] eqn:E1; try reflexivity;
      destruct (identify_suts source_dir w1) as [[e|suts] w2] eqn:E2;
      try reflexivity;
      assert (S1 : source w1 = source w)
        by (eapply (emits_source eq_refl E1); now apply emits_makedirs);
      destruct (identify_suts_emits (source w) source_dir Hs w1 suts w2 S1 E2)
        as (-> & _ & _); rewrite Hn; reflexivity. }
  clear Hrun. rename Hrun' into H.
  apply bind_inr in H as ([] & w1 & H1 & H).
  apply bind_inr in H as (suts & w2 & H2 & H).
  apply bind_inr in H as ([] & w4 & Hbody & Hlast).
  destruct (emits_makedirs (source w) _ Hu w tt w1 eq_refl H1)
    as (_ & T1 & S1).
  destruct (identify_suts_emits (source w) source_dir Hs w1 suts w2 S1 H2)
    as (-> & T2 & S2).
  rewrite Hn in Hbody. apply bind_inr in Hbody as ([] & w3 & H3 & H4).
  assert (O3 : stdout w3 = stdout w2 ++ [DetectedMultiSystem])
    by (inversion H3; reflexivity).
  apply print_inr in H3 as (T3 & _ & S3).
  pose proof (multi_system_stdout false source_dir (target_dir // uuid_folder)
                (suts_of (source w) source_dir) w3 Hu) as O4.
  rewrite H4 in O4. cbn [snd] in O4.
  destruct (multi_system_emits (source w) source_dir Hs false _
              (suts_of (source w) source_dir) Hu w3 tt w4
              ltac:(congruence) H4)
    as (_ & T4 & S4).
  apply os_makedirs_stdout in H1. apply identify_suts_stdout in H2.
  inversion Hlast; subst w'. cbn [trace stdout source].
  rewrite T4, T3, T2, T1, O4, O3, H2, H1, app_nil_r, <- !app_assoc. auto.
Qed.

Lemma multi_system_run_witness :
  source (snd (restructure_directory example_tarfile "U" "T" source_root
                 target_root (initial example_multi (Dir []) [])))
  = example_multi.
Proof.
  refine (proj2 (proj2
            (multi_system_run example_tarfile "U" "T" source_root target_root
               (initial example_multi (Dir []) [])
               (snd (restructure_directory example_tarfile "U" "T" source_root
                       target_root (initial example_multi (Dir []) [])))
               eq_refl eq_refl _ _))).
  - vm_compute. reflexivity.
  - left. vm_compute. reflexivity.
Defined.

(** X6. v2restructure.py has the multi-system case only: a completed run
    is the output root, the VM or SUT directories in listing order and the
    root files; when the source has no such directory, the run completes
    and the empty output root is all it creates. *)
Theorem v2_run (uuid_folder : string) (source_dir target_dir : loc)
  (w w' : world) :
  fst source_dir = Source -> fst target_dir = Target ->
  restructure_directory_v2 uuid_folder source_dir target_dir w = (inr tt, w') ->
  trace w' =
    trace w
    ++ Makedirs (target_dir // uuid_folder)
       :: multi_events (source w) true source_dir (target_dir // uuid_folder)
            (suts_of (source w) source_dir)
  /\ (suts_of (source w) source_dir = [] ->
      trace w' = trace w ++ [Makedirs (target_dir // uuid_folder)])
  /\ stdout w' = stdout w ++ [RestructuringComplete uuid_folder].
Proof.
  intros Hs Ht H. unfold restructure_directory_v2 in H.
  assert (Hu : fst (target_dir // uuid_folder) = Target) by loc_side.
  apply bind_inr in H as ([] & w1 & H1 & H).
  apply bind_inr in H as (suts & w2 & H2 & H).
  apply bind_inr in H as ([] & w3 & H3 & Hlast).
  destruct (emits_makedirs (source w) _ Hu w tt w1 eq_refl H1)
    as (_ & T1 & S1).
  destruct (identify_suts_emits (source w) source_dir Hs w1 suts w2 S1 H2)
    as (-> & T2 & S2).
  pose proof (multi_system_stdout true source_dir (target_dir // uuid_folder)
                (suts_of (source w) source_dir) w2 Hu) as O3.
  rewrite H3 in O3. cbn [snd] in O3.
  destruct (multi_system_emits (source w) source_dir Hs true _
              (suts_of (source w) source_dir) Hu _ tt w3 S2 H3)
    as (_ & T3 & S3).
  inversion Hlast; subst w'. cbn [trace stdout source].
  apply os_makedirs_stdout in H1. apply identify_suts_stdout in H2.
  repeat split.
  - rewrite T3, T2, T1, app_nil_r, <- !app_assoc. reflexivity.
  - intros E. rewrite T3, T2, T1, app_nil_r, <- !app_assoc, E.
    unfold multi_events, root_events. cbn [flat_map map app].
    now rewrite flat_map_nil.
  - congruence.
Qed.

Lemma v2_run_witness :
  trace (snd (restructure_directory_v2 "U" source_root target_root
                (initial example_single (Dir []) [])))
  = [Makedirs (Target, ["U"])].
Proof.
  refine (proj1 (proj2
            (v2_run "U" source_root target_root
               (initial example_single (Dir []) [])
               (snd (restructure_directory_v2 "U" source_root target_root
                       (initial example_single (Dir []) [])))
               eq_refl eq_refl _)) _).
  - vm_compute. reflexivity.
  - vm_compute. reflexivity.
Defined.

(** ** Further properties: the single-system case *)

Section SingleWrites.

Variable tarfile_open : string -> archive.
Variable s : node.
Variable source_dir : loc.
Hypothesis Hsource : fst source_dir = Source.

Lemma copy_wp_items_v3_emits wp_src wpdir items : forall n,
  fst wp_src = Source -> fst wpdir = Target ->
  (forall item, In item items -> Py.endswith item ".tar.gz" = false) ->
  emits s (copy_wp_items_v3 tarfile_open wp_src wpdir n items) tt
    (wp_v3_events s wp_src wpdir n items).
Proof.
  unfold wp_v3_events.
  induction items as [|item items IH]; intros n Hs Ht Hno;
    cbn [copy_wp_items_v3 filter].
  - apply emits_ret.
  - rewrite (Hno item (or_introl eq_refl)).
    assert (Hno' : forall i, In i items -> Py.endswith i ".tar.gz" = false)
      by (intros i Hi; apply Hno; now right).
    eapply emits_conv;
      [ eapply emits_bind; [apply emits_isfile; loc_side|];
        eapply emits_if_unit;
        [ eapply emits_bind; [apply emits_makedirs; loc_side|];
          eapply emits_bind; [apply emits_copy; loc_side|];
          apply (IH (S n) Hs Ht Hno')
        | apply (IH n Hs Ht Hno') ]
      | reflexivity | ].
    cbn [app]. now destruct (isfile_in s (wp_src // item)).
Qed.

Lemma copy_workload_profiler_v3_emits wpdir :
  fst wpdir = Target ->
  (forall item, In item (listing s (source_dir // "WorkloadProfiler")) ->
                Py.endswith item ".tar.gz" = false) ->
  emits s (copy_workload_profiler_v3 tarfile_open source_dir wpdir) tt
    (wp_v3_events s (source_dir // "WorkloadProfiler") wpdir 1
       (Py.sorted (listing s (source_dir // "WorkloadProfiler")))).
Proof.
  intros Ht Hno. unfold copy_workload_profiler_v3.
  eapply emits_conv;
    [ eapply emits_bind; [apply emits_exists; loc_side|];
      apply emits_when;
      eapply emits_bind; [apply emits_listdir; loc_side|];
      apply copy_wp_items_v3_emits; [loc_side|exact Ht|]
    | reflexivity | ].
  - intros item Hi. apply Hno.
    eapply Permutation_in; [apply sorted_perm|exact Hi].
  - cbn [app].
    destruct (exists_in s (source_dir // "WorkloadProfiler")) eqn:E;
      [reflexivity|].
    apply exists_not_dir, listing_not_dir in E. now rewrite E.
Qed.

Lemma copy_logs_v3_emits results_dir :
  fst results_dir = Target ->
  emits s (copy_logs_v3 source_dir results_dir) tt
    (logs_v3_events s (source_dir // "Logs") results_dir).
Proof.
  intros Ht. unfold copy_logs_v3.
  eapply emits_conv;
    [ eapply emits_bind; [apply emits_exists; loc_side|];
      apply emits_when;
      eapply emits_bind; [apply emits_listdir; loc_side|];
      eapply emits_bind;
        [apply emits_filterM; intros; apply emits_isdir; loc_side|];
      eapply emits_if_unit;
        [ repeat emits_step
        | apply emits_for; intros idx_sub;
          eapply emits_bind; [apply emits_makedirs; loc_side|];
          apply copy_walk_flat_emits; loc_side ]
    | reflexivity | ].
  unfold logs_v3_events. cbn [app].
  destruct (exists_in s (source_dir // "Logs")); [|reflexivity].
  destruct (nonempty _); cbn [negb]; [reflexivity|].
  unfold files_in. f_equal.
  rewrite <- flat_map_single.
  rewrite <- (flat_map_if (fun x => isfile_in s (source_dir // "Logs" // x))).
  reflexivity.
Qed.

Lemma copy_root_files_v3_emits results_dir :
  fst results_dir = Target ->
  emits s (copy_root_files_v3 source_dir results_dir) tt
    (root_v3_events s source_dir results_dir).
Proof.
  intros Ht. unfold copy_root_files_v3. emits_auto.
  unfold root_v3_events. cbn [app].
  rewrite <- (flat_map_if
                (fun x => isfile_in s (source_dir // x)
                          && Py.endswith_any (Py.lower x) [".json"; ".txt"])).
  reflexivity.
Qed.

(** Without archives the choice of the artifact writes nothing. *)
Lemma identify_wp_artifact_plain temp_uuid num_runs wp_src items :
  fst wp_src = Source ->
  (forall item, In item items ->
                Py.endswith (Py.lower item) ".tar.gz" = false) ->
  emits s (identify_wp_artifact tarfile_open temp_uuid num_runs wp_src items)
    (mkArtifact (option_map (join wp_src) (find (is_artifact s wp_src) items))
       false None) [].
Proof.
  intros Hs. induction items as [|item items IH]; intros Hno;
    cbn [identify_wp_artifact find].
  - apply emits_ret.
  - rewrite (Hno item (or_introl eq_refl)).
    eapply emits_conv;
      [ eapply emits_bind; [apply emits_isfile; loc_side|];
        eapply emits_if;
        [ eapply emits_bind_nil; [apply emits_print|apply emits_ret]
        | apply IH; intros i Hi; apply Hno; now right ]
      | | ].
    + unfold is_artifact at 2.
      now destruct (isfile_in s (wp_src // item)
                    && Py.endswith_any (Py.lower item) [".json"; ".tar.gz"]).
    + now destruct (isfile_in s (wp_src // item)
                    && Py.endswith_any (Py.lower item) [".json"; ".tar.gz"]).
Qed.

Lemma prepare_wp_artifact_plain temp_uuid num_runs wp_src :
  fst wp_src = Source ->
  (forall item, In item (listing s wp_src) ->
                Py.endswith (Py.lower item) ".tar.gz" = false) ->
  emits s (prepare_wp_artifact tarfile_open temp_uuid num_runs wp_src)
    (mkArtifact (option_map (join wp_src) (selected_artifact s wp_src))
       false None) [].
Proof.
  intros Hs Hno. unfold prepare_wp_artifact.
  eapply emits_conv;
    [ eapply emits_bind; [apply emits_exists; exact Hs|];
      eapply emits_if;
      [ eapply emits_bind_nil; [apply emits_listdir; exact Hs|];
        apply identify_wp_artifact_plain; [exact Hs|]
      | apply emits_ret ]
    | | ].
  - intros item Hi. apply Hno.
    eapply Permutation_in; [apply sorted_perm|exact Hi].
  - unfold selected_artifact.
    destruct (exists_in s wp_src) eqn:E; [reflexivity|].
    apply exists_not_dir, listing_not_dir in E. now rewrite E.
  - now destruct (exists_in s wp_src).
Qed.

Lemma single_system_plain_emits temp_uuid uuid_dir :
  fst uuid_dir = Target ->
  (forall item, In item (listing s (source_dir // "WorkloadProfiler")) ->
                Py.endswith (Py.lower item) ".tar.gz" = false) ->
  emits s (single_system tarfile_open temp_uuid source_dir uuid_dir) tt
    (single_plain_writes s source_dir (uuid_dir // "SUT1")).
Proof.
  intros Ht Hno. unfold single_system, single_mappers, single_plain_writes.
  eapply emits_bind; [apply create_sut_dirs_emits; loc_side|].
  eapply emits_conv;
    [ eapply emits_bind; [apply list_log_subfolders_emits; loc_side|];
      eapply emits_bind;
        [apply prepare_wp_artifact_plain; [loc_side|exact Hno]|];
      eapply emits_bind;
        [apply copy_platform_profile_single_writes; loc_side|];
      eapply emits_bind;
        [apply replicate_wp_artifact_emits; [discriminate|loc_side]|];
      eapply emits_bind; [apply copy_logs_emits; loc_side|];
      eapply emits_bind;
        [apply copy_root_files_single_emits; [exact Hsource|loc_side..]|];
      apply emits_ret
    | reflexivity | ].
  cbn [app]. rewrite app_nil_r. f_equal. f_equal.
  unfold replicate_events, artifact_files. cbn [wp_artifact_path].
  now destruct (selected_artifact s (source_dir // "WorkloadProfiler")).
Qed.

Lemma single_system_v3_emits uuid_dir :
  fst uuid_dir = Target ->
  (forall item, In item (listing s (source_dir // "WorkloadProfiler")) ->
                Py.endswith item ".tar.gz" = false) ->
  emits s (single_system_v3 tarfile_open source_dir uuid_dir) tt
    (single_v3_writes s source_dir (uuid_dir // "SUT1")).
Proof.
  intros Ht Hno. unfold single_system_v3, single_v3_writes.
  eapply emits_bind; [apply create_sut_dirs_emits; loc_side|].
  eapply emits_bind;
    [apply copy_platform_profile_single_writes; loc_side|].
  eapply emits_bind;
    [apply copy_workload_profiler_v3_emits; [loc_side|exact Hno]|].
  eapply emits_bind; [apply copy_logs_v3_emits; loc_side|].
  apply copy_root_files_v3_emits; loc_side.
Qed.

End SingleWrites.

Lemma restructure_directory_single_emits tarfile_open s uuid_folder temp_uuid
  source_dir target_dir :
  fst source_dir = Source -> fst target_dir = Target ->
  suts_of s source_dir = [] ->
  (forall item, In item (listing s (source_dir // "WorkloadProfiler")) ->
                Py.endswith (Py.lower item) ".tar.gz" = false) ->
  emits s (restructure_directory tarfile_open uuid_folder temp_uuid source_dir
             target_dir) tt
    (Makedirs (target_dir // uuid_folder)
     :: single_plain_writes s source_dir (target_dir // uuid_folder // "SUT1")).
Proof.
  intros Hs Ht Hsuts Hno. unfold restructure_directory.
  eapply emits_conv;
    [ eapply emits_bind; [apply emits_makedirs; loc_side|];
      eapply emits_bind; [apply identify_suts_emits; exact Hs|];
      rewrite Hsuts; cbn [nonempty];
      eapply emits_bind;
        [ eapply emits_bind; [apply emits_print|];
          apply single_system_plain_emits; [exact Hs|loc_side|exact Hno]
        | apply emits_print ]
    | reflexivity | ].
  cbn [app]. now rewrite app_nil_r.
Qed.

Lemma restructure_directory_v3_single_emits tarfile_open s uuid_folder
  source_dir target_dir :
  fst source_dir = Source -> fst target_dir = Target ->
  suts_of s source_dir = [] ->
  (forall item, In item (listing s (source_dir // "WorkloadProfiler")) ->
                Py.endswith item ".tar.gz" = false) ->
  emits s (restructure_directory_v3 tarfile_open uuid_folder source_dir
             target_dir) tt
    (Makedirs (target_dir // uuid_folder)
     :: single_v3_writes s source_dir (target_dir // uuid_folder // "SUT1")).
Proof.
  intros Hs Ht Hsuts Hno. unfold restructure_directory_v3.
  eapply emits_conv;
    [ eapply emits_bind; [apply emits_makedirs; loc_side|];
      eapply emits_bind; [apply identify_suts_emits; exact Hs|];
      rewrite Hsuts; cbn [nonempty];
      eapply emits_bind;
        [ eapply emits_bind; [apply emits_print|];
          apply single_system_v3_emits; [exact Hs|loc_side|exact Hno]
        | apply emits_print ]
    | reflexivity | ].
  cbn [app]. now rewrite app_nil_r.
Qed.

(** X7. restructure.py, single-system case without an archive: a
    completed run creates the output root and the three directories of SUT1,
    copies PlatformProfile (files flat, sub-folders as trees), replicates the
    first JSON file of WorkloadProfiler into iteration1 of every run, copies
    the run folders of Logs with their sub-structure and routes the root
    files; the source tree is as before. *)
Theorem single_system_run
  (tarfile_open : string -> archive)
  (uuid_folder temp_uuid : string) (source_dir target_dir : loc)
  (w w' : world) :
  fst source_dir = Source -> fst target_dir = Target ->
  suts_of (source w) source_dir = [] ->
  (forall item,
      In item (listing (source w) (source_dir // "WorkloadProfiler")) ->
      Py.endswith (Py.lower item) ".tar.gz" = false) ->
  restructure_directory tarfile_open uuid_folder temp_uuid source_dir
    target_dir w = (inr tt, w') ->
  trace w' =
    trace w
    ++ Makedirs (target_dir // uuid_folder)
       :: single_plain_writes (source w) source_dir
            (target_dir // uuid_folder // "SUT1")
  /\ source w' = source w.
Proof.
  intros Hs Ht Hsuts Hno Hrun.
  destruct (restructure_directory_single_emits tarfile_open (source w)
              uuid_folder temp_uuid source_dir target_dir Hs Ht Hsuts Hno
              w tt w' eq_refl Hrun) as (_ & T & S).
  auto.
Qed.

Lemma single_system_run_witness :
  map dest
    (trace (snd (restructure_directory example_tarfile "U" "T" source_root
                   target_root (initial example_single (Dir []) []))))
  = (Target, ["U"])
    :: map (fun p => (Target, "U" :: "SUT1" :: p))
      [[]; ["PlatformProfiler"]; ["WorkloadProfiler"]; ["Results"];
       ["WorkloadProfiler"; "run1"; "iteration1"];
       ["WorkloadProfiler"; "run1"; "iteration1"];
       ["WorkloadProfiler"; "run2"; "iteration1"];
       ["WorkloadProfiler"; "run2"; "iteration1"];
       ["WorkloadProfiler"; "run3"; "iteration1"];
       ["WorkloadProfiler"; "run3"; "iteration1"];
       ["Results"; "run1"; "iteration1"; "instance1"];
       ["Results"; "run1"; "iteration1"; "instance1"];
       ["Results"; "run1"; "iteration1"; "instance1"];
       ["Results"; "run2"; "iteration1"; "instance1"];
       ["Results"; "run2"; "iteration1"; "instance1"];
       ["Results"; "run3"; "iteration1"; "instance1"];
       ["Results"; "run3"; "iteration1"; "instance1"];
       ["Results"; "run3"; "iteration1"; "instance1"];
       [];
       ["Results"; "run1"; "iteration1"; "instance1"];
       ["Results"; "run1"; "iteration1"; "instance1"]].
Proof.
  rewrite (proj1 (single_system_run example_tarfile "U" "T" source_root
                    target_root (initial example_single (Dir []) [])
                    (snd (restructure_directory example_tarfile "U" "T"
                            source_root target_root
                            (initial example_single (Dir []) [])))
                    eq_refl eq_refl eq_refl
                    ltac:(vm_compute; intuition (subst; reflexivity))
                    ltac:(vm_compute; reflexivity))).
  vm_compute. reflexivity.
Defined.

(** X8. restructurev3.py, single-system case without an archive: every
    regular file of WorkloadProfiler, whatever its extension, takes the next
    run index in sorted order and a sub-directory takes none; the files
    below a run folder of Logs all land in the one instance directory of
    that run, without their sub-structure; every root file ending in .json
    or .txt, the manual-result file included, goes to
    Results/run1/iteration1/instance1. *)
Theorem single_system_v3_run
  (tarfile_open : string -> archive)
  (uuid_folder : string) (source_dir target_dir : loc) (w w' : world) :
  fst source_dir = Source -> fst target_dir = Target ->
  suts_of (source w) source_dir = [] ->
  (forall item,
      In item (listing (source w) (source_dir // "WorkloadProfiler")) ->
      Py.endswith item ".tar.gz" = false) ->
  restructure_directory_v3 tarfile_open uuid_folder source_dir target_dir w
  = (inr tt, w') ->
  trace w' =
    trace w
    ++ Makedirs (target_dir // uuid_folder)
       :: single_v3_writes (source w) source_dir
            (target_dir // uuid_folder // "SUT1")
  /\ source w' = source w.
Proof.
  intros Hs Ht Hsuts Hno Hrun.
  destruct (restructure_directory_v3_single_emits tarfile_open (source w)
              uuid_folder source_dir target_dir Hs Ht Hsuts Hno
              w tt w' eq_refl Hrun) as (_ & T & S).
  auto.
Qed.

Lemma single_system_v3_run_witness :
  map dest
    (trace (snd (restructure_directory_v3 example_tarfile "U" source_root
                   target_root (initial example_single (Dir []) []))))
  = (Target, ["U"])
    :: map (fun p => (Target, "U" :: "SUT1" :: p))
      [[]; ["PlatformProfiler"]; ["WorkloadProfiler"]; ["Results"];
       ["WorkloadProfiler"; "run1"; "iteration1"];
       ["WorkloadProfiler"; "run1"; "iteration1"];
       ["WorkloadProfiler"; "run2"; "iteration1"];
       ["WorkloadProfiler"; "run2"; "iteration1"];
       ["Results"; "run1"; "iteration1"; "instance1"];
       ["Results"; "run1"; "iteration1"; "instance1"];
       ["Results"; "run2"; "iteration1"; "instance1"];
       ["Results"; "run3"; "iteration1"; "instance1"];
       ["Results"; "run3"; "iteration1"; "instance1"];
       ["Results"; "run1"; "iteration1"; "instance1"];
       ["Results"; "run1"; "iteration1"; "instance1"];
       ["Results"; "run1"; "iteration1"; "instance1"];
       ["Results"; "run1"; "iteration1"; "instance1"]].
Proof.
  rewrite (proj1 (single_system_v3_run example_tarfile "U" source_root
                    target_root (initial example_single (Dir []) [])
                    (snd (restructure_directory_v3 example_tarfile "U"
                            source_root target_root
                            (initial example_single (Dir []) [])))
                    eq_refl eq_refl eq_refl
                    ltac:(vm_compute; intuition (subst; reflexivity))
                    ltac:(vm_compute; reflexivity))).
  vm_compute. reflexivity.
Defined.

(** ** Further properties: empty and missing sources *)

Lemma listing_empty_child s l c :
  lookup (snd l) s = Some (Dir []) ->
  lookup (snd (l // c)) s = None.
Proof.
  intros H. unfold join. cbn [snd]. now rewrite (lookup_snoc _ c _ _ H).
Qed.

Lemma empty_single_plain_writes s source_dir sut_dir :
  lookup (snd source_dir) s = Some (Dir []) ->
  single_plain_writes s source_dir sut_dir = skeleton_events sut_dir.
Proof.
  intros H. unfold single_plain_writes, pp_single_events, selected_artifact,
    logs_events, root_single_events, files_in, subdirs_in, exists_in, listing.
  rewrite !(listing_empty_child _ _ _ H), H.
  cbn. reflexivity.
Qed.

Lemma empty_single_v3_writes s source_dir sut_dir :
  lookup (snd source_dir) s = Some (Dir []) ->
  single_v3_writes s source_dir sut_dir = skeleton_events sut_dir.
Proof.
  intros H. unfold single_v3_writes, pp_single_events, wp_v3_events,
    logs_v3_events, root_v3_events, files_in, exists_in, listing.
  rewrite !(listing_empty_child _ _ _ H), H.
  cbn. reflexivity.
Qed.

(** X9. An empty source directory is taken for a single system: a
    completed run of restructure.py or restructurev3.py creates the output
    root and the directory SUT1 with its three empty category directories,
    and nothing else. *)
Theorem empty_source_run
  (tarfile_open : string -> archive)
  (uuid_folder temp_uuid : string) (source_dir target_dir : loc)
  (w w' : world) :
  fst source_dir = Source -> fst target_dir = Target ->
  lookup (snd source_dir) (source w) = Some (Dir []) ->
  restructure_directory tarfile_open uuid_folder temp_uuid source_dir
    target_dir w = (inr tt, w')
  \/ restructure_directory_v3 tarfile_open uuid_folder source_dir target_dir w
     = (inr tt, w') ->
  trace w' =
    trace w
    ++ [Makedirs (target_dir // uuid_folder);
        Makedirs (target_dir // uuid_folder // "SUT1");
        Makedirs (target_dir // uuid_folder // "SUT1" // "PlatformProfiler");
        Makedirs (target_dir // uuid_folder // "SUT1" // "WorkloadProfiler");
        Makedirs (target_dir // uuid_folder // "SUT1" // "Results")].
Proof.
  intros Hs Ht He Hrun.
  assert (Hsuts : suts_of (source w) source_dir = [])
    by (unfold suts_of, listing; now rewrite He).
  assert (Hl : listing (source w) (source_dir // "WorkloadProfiler") = [])
    by (unfold listing; now rewrite (listing_empty_child _ _ _ He)).
  destruct Hrun as [Hrun|Hrun].
  - destruct (restructure_directory_single_emits tarfile_open (source w)
                uuid_folder temp_uuid source_dir target_dir Hs Ht Hsuts
                ltac:(rewrite Hl; intros ? [])
                w tt w' eq_refl Hrun) as (_ & T & _).
    now rewrite T, (empty_single_plain_writes _ _ _ He).
  - destruct (restructure_directory_v3_single_emits tarfile_open (source w)
                uuid_folder source_dir target_dir Hs Ht Hsuts
                ltac:(rewrite Hl; intros ? [])
                w tt w' eq_refl Hrun) as (_ & T & _).
    now rewrite T, (empty_single_v3_writes _ _ _ He).
Qed.

Lemma empty_source_run_witness :
  trace (snd (restructure_directory_v3 example_tarfile "U" source_root
                target_root (initial (Dir []) (Dir []) [])))
  = map Makedirs
      [(Target, ["U"]); (Target, ["U"; "SUT1"]);
       (Target, ["U"; "SUT1"; "PlatformProfiler"]);
       (Target, ["U"; "SUT1"; "WorkloadProfiler"]);
       (Target, ["U"; "SUT1"; "Results"])].
Proof.
  apply (empty_source_run example_tarfile "U" "T" source_root target_root
           (initial (Dir []) (Dir []) [])
           (snd (restructure_directory_v3 example_tarfile "U" source_root
                   target_root (initial (Dir []) (Dir []) [])))
           eq_refl eq_refl eq_refl).
  right. vm_compute. reflexivity.
Defined.

(** X10. When the source directory is missing, or is a file, each of the
    three scripts has already created the output root when [os.listdir]
    raises: the run ends with [OSError], the empty output root stays behind
    and nothing is printed. *)
Theorem missing_source_fails
  (tarfile_open : string -> archive)
  (uuid_folder temp_uuid : string) (source_dir target_dir : loc)
  (w w1 : world) :
  fst source_dir = Source -> fst target_dir = Target ->
  isdir_in (source w) source_dir = false ->
  os_makedirs (target_dir // uuid_folder) w = (inr tt, w1) ->
  restructure_directory tarfile_open uuid_folder temp_uuid source_dir
    target_dir w = os_error w1
  /\ restructure_directory_v3 tarfile_open uuid_folder source_dir target_dir w
     = os_error w1
  /\ restructure_directory_v2 uuid_folder source_dir target_dir w
     = os_error w1
  /\ trace w1 = trace w ++ [Makedirs (target_dir // uuid_folder)]
  /\ stdout w1 = stdout w
  /\ is_dir (node_at w1 (target_dir // uuid_folder)) = true.
Proof.
  intros Hs Ht Hd H1.
  assert (Hu : fst (target_dir // uuid_folder) = Target) by loc_side.
  destruct (emits_makedirs (source w) _ Hu w tt w1 eq_refl H1)
    as (_ & T1 & S1).
  assert (Hl : identify_suts source_dir w1 = os_error w1).
  { unfold identify_suts, bind, os_listdir, node_at. rewrite Hs. cbn [fs].
    rewrite S1. unfold isdir_in in Hd.
    now destruct (lookup (snd source_dir) (source w)) as [[d|es]|]. }
  unfold restructure_directory, restructure_directory_v3,
    restructure_directory_v2, bind.
  rewrite H1, Hl. cbn [os_error].
  repeat split; try exact T1.
  - eapply os_makedirs_stdout; exact H1.
  - eapply makedirs_inr; [exact Hu|exact H1].
Qed.

Lemma missing_source_fails_witness :
  restructure_directory example_tarfile "U" "T" (Source, ["absent"])
    target_root (initial example_single (Dir []) [])
  = os_error (log (Makedirs (Target, ["U"]))
                (set_fs Target (Dir [("U", Dir [])])
                   (initial example_single (Dir []) []))).
Proof.
  apply (missing_source_fails example_tarfile "U" "T" (Source, ["absent"])
           target_root (initial example_single (Dir []) [])
           (log (Makedirs (Target, ["U"]))
              (set_fs Target (Dir [("U", Dir [])])
                 (initial example_single (Dir []) [])))
           eq_refl eq_refl);
    vm_compute; reflexivity.
Defined.

(** ** Further properties: the mappers of the multi-system case *)

Lemma pp_folder_events_absent s folder ppdir :
  exists_in s folder = false -> pp_folder_events s folder ppdir = [].
Proof.
  intros E. apply exists_not_dir, listing_not_dir in E.
  unfold pp_folder_events, subdirs_in, files_in. now rewrite E.
Qed.

(** X11. PlatformProfiler, multi-system: for PlatformProfile and then for
    Host-pp, a folder with sub-folders gives one run per sub-folder, in
    sorted order from run1, holding the regular files of that sub-folder
    (files lying next to the sub-folders are not copied); a folder without
    sub-folders has its files copied flat; both folders share the run
    slots, and nothing is written when neither exists. *)
Theorem platform_profiler_layout (source_dir platform_profiler_dir : loc)
  (w w' : world) :
  fst source_dir = Source -> fst platform_profiler_dir = Target ->
  copy_platform_profiler source_dir platform_profiler_dir w = (inr tt, w') ->
  let s := source w in
  trace w' =
    trace w
    ++ pp_folder_events s (source_dir // "PlatformProfile")
         platform_profiler_dir
    ++ pp_folder_events s (source_dir // "Host-pp") platform_profiler_dir
  /\ (exists_in s (source_dir // "PlatformProfile") = false ->
      exists_in s (source_dir // "Host-pp") = false ->
      trace w' = trace w).
Proof.
  intros Hs Ht Hrun s.
  destruct (copy_platform_profiler_emits s source_dir Hs platform_profiler_dir
              Ht w tt w' eq_refl Hrun) as (_ & T & _).
  split; [exact T|].
  intros E1 E2. rewrite T. unfold pp_events.
  now rewrite (pp_folder_events_absent _ _ _ E1),
    (pp_folder_events_absent _ _ _ E2), app_nil_r.
Qed.

Lemma platform_profiler_layout_witness :
  trace (snd (copy_platform_profiler source_root (Target, ["P"])
                (initial example_multi (Dir [("P", Dir [])]) [])))
  = [Makedirs (Target, ["P"; "run1"]);
     Copy (Source, ["PlatformProfile"; "pp1"; "f1"]) (Target, ["P"; "run1"]);
     Makedirs (Target, ["P"; "run2"]);
     Copy (Source, ["PlatformProfile"; "pp2"; "f2"]) (Target, ["P"; "run2"])].
Proof.
  rewrite (proj1 (platform_profiler_layout source_root (Target, ["P"])
                    (initial example_multi (Dir [("P", Dir [])]) [])
                    (snd (copy_platform_profiler source_root (Target, ["P"])
                            (initial example_multi (Dir [("P", Dir [])]) [])))
                    eq_refl eq_refl ltac:(vm_compute; reflexivity))).
  vm_compute. reflexivity.
Defined.

(** X12. Results, a raw run directory with iteration folders: each
    iteration folder keeps its name under run{n}.  When it has
    sub-directories they are its instance folders: each is created and
    receives its files, its sub-directories as trees, and the files lying
    next to the instance folders are not copied.  When it has none, each
    file goes to the instance its name gives.  BenchmarkLog plays no part,
    and every write is below run{n}. *)
Theorem iteration_folders_run (strict : bool) (run_path results_dir : loc)
  (run_number : nat) (w w' : world) :
  fst run_path = Source -> fst results_dir = Target ->
  nonempty (iteration_folders (source w) run_path) = true ->
  copy_run strict run_path results_dir run_number w = (inr tt, w') ->
  let s := source w in
  let evs :=
    flat_map (iteration_events s strict run_path results_dir run_number)
      (iteration_folders s run_path) in
  trace w' = trace w ++ evs
  /\ Forall (in_slot results_dir (run_name run_number)) evs.
Proof.
  intros Hs Ht Hn Hrun s evs.
  destruct (copy_run_emits s strict run_path results_dir run_number Hs Ht
              w tt w' eq_refl Hrun) as (_ & T & _).
  pose proof (run_events_in_slot s strict run_path results_dir run_number)
    as F.
  unfold run_events in T, F. fold s in Hn. rewrite Hn in T, F. auto.
Qed.

Lemma iteration_folders_run_witness :
  trace (snd (copy_run true (Source, ["VM2"; "r1"]) (Target, ["R"]) 4
                (initial example_multi (Dir [("R", Dir [])]) [])))
  = [Makedirs (Target, ["R"; "run4"; "iteration1"; "instance3"]);
     Copy (Source, ["VM2"; "r1"; "iteration1"; "log-run3-y"])
       (Target, ["R"; "run4"; "iteration1"; "instance3"])].
Proof.
  rewrite (proj1 (iteration_folders_run true (Source, ["VM2"; "r1"])
                    (Target, ["R"]) 4
                    (initial example_multi (Dir [("R", Dir [])]) [])
                    (snd (copy_run true (Source, ["VM2"; "r1"]) (Target, ["R"])
                            4 (initial example_multi (Dir [("R", Dir [])]) [])))
                    eq_refl eq_refl ltac:(vm_compute; reflexivity)
                    ltac:(vm_compute; reflexivity))).
  vm_compute. reflexivity.
Defined.

(** ** Further properties: names and extensions *)

Lemma cleanup_absent s a t :
  extracted_temp a = Some t -> fst t = Source -> exists_in s t = false ->
  emits s (cleanup a) tt [].
Proof.
  intros Ha Ht E w r w' Hw H. unfold cleanup in H. rewrite Ha in H.
  unfold bind, os_path_exists, node_at in H. rewrite Ht in H. cbn [fs] in H.
  rewrite Hw in H. unfold exists_in in E. rewrite E in H. cbn [when ret] in H.
  inversion H; subst. rewrite app_nil_r. auto.
Qed.

Section Unextracted.

Variable tarfile_open : string -> archive.
Variable s : node.
Variable temp_uuid : string.

Lemma identify_wp_artifact_unextracted num_runs wp_src item : forall items,
  fst wp_src = Source ->
  find (is_artifact s wp_src) items = Some item ->
  Py.endswith item ".tar.gz" = false ->
  Py.endswith (Py.lower item) ".tar.gz" = true ->
  emits s (identify_wp_artifact tarfile_open temp_uuid num_runs wp_src items)
    (mkArtifact (Some (wp_src // item)) true
       (Some (wp_src // ("extracted_wp_temp_" ++ temp_uuid)%string))) [].
Proof.
  intros items Hs. induction items as [|x items IH]; intros Hf Hcase Hlow;
    cbn [identify_wp_artifact find] in *; [discriminate|].
  unfold is_artifact at 1 in Hf.
  eapply emits_conv;
    [ eapply emits_bind; [apply emits_isfile; loc_side|] | reflexivity | ].
  - destruct (isfile_in s (wp_src // x)
              && Py.endswith_any (Py.lower x) [".json"; ".tar.gz"]).
    + inversion Hf; subst x. rewrite Hlow.
      unfold extract_tar_gz. rewrite basename_join, Hcase. cbn [when].
      eapply emits_bind_nil; [apply emits_ret|].
      eapply emits_bind_nil; [apply emits_print|apply emits_ret].
    + apply IH; assumption.
  - reflexivity.
Qed.

Lemma prepare_wp_artifact_unextracted num_runs wp_src item :
  fst wp_src = Source ->
  selected_artifact s wp_src = Some item ->
  Py.endswith item ".tar.gz" = false ->
  Py.endswith (Py.lower item) ".tar.gz" = true ->
  emits s (prepare_wp_artifact tarfile_open temp_uuid num_runs wp_src)
    (mkArtifact (Some (wp_src // item)) true
       (Some (wp_src // ("extracted_wp_temp_" ++ temp_uuid)%string))) [].
Proof.
  intros Hs Hsel Hcase Hlow. unfold prepare_wp_artifact.
  assert (E : exists_in s wp_src = true).
  { destruct (exists_in s wp_src) eqn:E; [reflexivity|].
    apply exists_not_dir, listing_not_dir in E.
    unfold selected_artifact in Hsel. rewrite E in Hsel. discriminate. }
  eapply emits_conv;
    [ eapply emits_bind; [apply emits_exists; exact Hs|];
      rewrite E;
      eapply emits_bind; [apply emits_listdir; exact Hs|];
      apply identify_wp_artifact_unextracted; eassumption
    | reflexivity | reflexivity ].
Qed.

End Unextracted.

(** X13. restructure.py selects an archive by its lower-cased name but
    [extract_tar_gz] tests the name as it is: an archive whose extension is
    not in lower case (CAP.TAR.GZ) is selected and never extracted.  A
    completed single-system run then creates iteration1 of every run of
    WorkloadProfiler and copies nothing into it; nothing is extracted or
    removed in the source. *)
Theorem unextracted_archive
  (tarfile_open : string -> archive)
  (temp_uuid : string) (source_dir uuid_dir : loc) (item : string)
  (w w' : world) :
  fst source_dir = Source -> fst uuid_dir = Target ->
  let s := source w in
  let wp_src := source_dir // "WorkloadProfiler" in
  let sut_dir := uuid_dir // "SUT1" in
  let log_subfolders := Py.sorted (subdirs_in s (source_dir // "Logs")) in
  selected_artifact s wp_src = Some item ->
  Py.endswith (Py.lower item) ".tar.gz" = true ->
  Py.endswith item ".tar.gz" = false ->
  exists_in s (wp_src // ("extracted_wp_temp_" ++ temp_uuid)%string) = false ->
  single_system tarfile_open temp_uuid source_dir uuid_dir w = (inr tt, w') ->
  trace w' =
    trace w
    ++ skeleton_events sut_dir
    ++ pp_single_events s source_dir (sut_dir // "PlatformProfiler")
    ++ map (fun k => Makedirs (sut_dir // "WorkloadProfiler" // run_name k
                                 // "iteration1"))
         (seq 1 (count_runs log_subfolders))
    ++ logs_events s (source_dir // "Logs") (sut_dir // "Results")
         log_subfolders
    ++ root_single_events s source_dir sut_dir (sut_dir // "Results")
  /\ source w' = source w.
Proof.
  intros Hs Ht s wp_src sut_dir log_subfolders Hsel Hlow Hcase Habs Hrun.
  assert (He : emits s
                 (single_system tarfile_open temp_uuid source_dir uuid_dir) tt
                 (skeleton_events sut_dir
                  ++ [] ++ []
                  ++ pp_single_events s source_dir
                       (sut_dir // "PlatformProfiler")
                  ++ replicate_events s
                       (mkArtifact (Some (wp_src // item)) true
                          (Some (wp_src
                                 // ("extracted_wp_temp_" ++ temp_uuid)%string)))
                       (count_runs log_subfolders)
                       (sut_dir // "WorkloadProfiler")
                  ++ logs_events s (source_dir // "Logs")
                       (sut_dir // "Results") log_subfolders
                  ++ root_single_events s source_dir sut_dir
                       (sut_dir // "Results")
                  ++ [])).
  { unfold single_system, single_mappers.
    eapply emits_bind; [apply create_sut_dirs_emits; loc_side|].
    eapply emits_bind; [apply list_log_subfolders_emits; loc_side|].
    eapply emits_bind;
      [apply prepare_wp_artifact_unextracted; [loc_side|eassumption..]|].
    eapply emits_bind;
      [apply copy_platform_profile_single_writes; [exact Hs|loc_side]|].
    eapply emits_bind;
      [ apply replicate_wp_artifact_emits;
        [intros t Et; inversion Et; loc_side|loc_side] |].
    eapply emits_bind; [apply copy_logs_emits; loc_side|].
    eapply emits_bind;
      [apply copy_root_files_single_emits; [exact Hs|loc_side..]|].
    eapply cleanup_absent; [reflexivity|loc_side|exact Habs]. }
  destruct (He w tt w' eq_refl Hrun) as (_ & T & S).
  split; [|exact S]. rewrite T. cbn [app]. rewrite app_nil_r.
  do 3 f_equal.
  unfold replicate_events, replication_events, artifact_files.
  cbn [wp_artifact_path wp_artifact_is_tar extracted_temp].
  rewrite (walk_in_absent _ _ Habs). cbn [map].
  now rewrite flat_map_single.
Qed.

Lemma unextracted_archive_witness :
  trace (snd (single_system example_tarfile "T" source_root (Target, ["U"])
                (initial example_upper (Dir [("U", Dir [])]) [])))
  = map Makedirs
      [(Target, ["U"; "SUT1"]);
       (Target, ["U"; "SUT1"; "PlatformProfiler"]);
       (Target, ["U"; "SUT1"; "WorkloadProfiler"]);
       (Target, ["U"; "SUT1"; "Results"]);
       (Target, ["U"; "SUT1"; "WorkloadProfiler"; "run1"; "iteration1"]);
       (Target, ["U"; "SUT1"; "WorkloadProfiler"; "run2"; "iteration1"]);
       (Target, ["U"; "SUT1"; "Results"; "run1"; "iteration1"; "instance1"]);
       (Target, ["U"; "SUT1"; "Results"; "run1"; "iteration1"; "instance1"])]
    ++ [Copy (Source, ["Logs"; "a"; "l1"])
          (Target, ["U"; "SUT1"; "Results"; "run1"; "iteration1"; "instance1"])]
    ++ map Makedirs
         [(Target, ["U"; "SUT1"; "Results"; "run2"; "iteration1"; "instance1"]);
          (Target, ["U"; "SUT1"; "Results"; "run2"; "iteration1"; "instance1"])].
Proof.
  rewrite (proj1 (unextracted_archive example_tarfile "T" source_root
                    (Target, ["U"]) "CAP.TAR.GZ"
                    (initial example_upper (Dir [("U", Dir [])]) [])
                    (snd (single_system example_tarfile "T" source_root
                            (Target, ["U"])
                            (initial example_upper (Dir [("U", Dir [])]) [])))
                    eq_refl eq_refl
                    ltac:(vm_compute; reflexivity) ltac:(vm_compute; reflexivity)
                    ltac:(vm_compute; reflexivity) ltac:(vm_compute; reflexivity)
                    ltac:(vm_compute; reflexivity))).
  vm_compute. reflexivity.
Defined.

Lemma lower_app a b : Py.lower (a ++ b) = (Py.lower a ++ Py.lower b)%string.
Proof. induction a as [|c a IH]; cbn; [reflexivity|now rewrite IH]. Qed.

Lemma lower_digits x :
  Py.lower (Py.filter_chars Py.isdigit x) = Py.filter_chars Py.isdigit x.
Proof.
  induction x as [|c x IH]; cbn [Py.filter_chars]; [reflexivity|].
  destruct (Py.isdigit c) eqn:E; [|exact IH].
  cbn [Py.lower]. rewrite IH. f_equal.
  unfold Py.lower_ascii, Py.is_upper. unfold Py.isdigit in E.
  apply andb_true_iff in E as [_ E]. apply Nat.leb_le in E.
  destruct (65 <=? nat_of_ascii c) eqn:E'; [|reflexivity].
  apply Nat.leb_le in E'. lia.
Qed.

Lemma length_app a b :
  String.length (a ++ b) = String.length a + String.length b.
Proof. induction a as [|c a IH]; cbn; [reflexivity|now rewrite IH]. Qed.

Lemma drop_app a b : Py.drop (String.length a) (a ++ b) = b.
Proof. induction a as [|c a IH]; cbn; [now destruct b|exact IH]. Qed.

Lemma endswith_app a b : Py.endswith (a ++ b) b = true.
Proof.
  unfold Py.endswith. rewrite length_app.
  replace (String.length a + String.length b - String.length b)
    with (String.length a) by lia.
  rewrite drop_app, String.eqb_refl, andb_true_r.
  apply Nat.leb_le. lia.
Qed.

Lemma prefix_app p x : String.prefix p (p ++ x) = true.
Proof.
  induction p as [|a p IH]; cbn [String.prefix append];
    [now destruct x|].
  destruct (ascii_dec a a); [exact IH|congruence].
Qed.

(** X14. The workload-profiler folder of a SUT is matched on a suffix: any
    entry named wp-, then anything, then the digits of the SUT name is a
    candidate, and the first candidate listed is taken.  So vm1 takes
    wp-vm11, or wp-vm21, when it is listed before wp-vm1. *)
Theorem wp_folder_suffix_match (source_dir : loc) (sut p : string)
  (n : node) (es : list (string * node)) (w : world) :
  fst source_dir = Source ->
  let candidate := ("wp-" ++ p ++ sut_number sut)%string in
  lookup (snd source_dir) (source w) = Some (Dir ((candidate, n) :: es)) ->
  wp_candidate (sut_number sut) candidate = true
  /\ find_wp_folder source_dir sut w = (inr (Some (source_dir // candidate)), w).
Proof.
  intros Hs candidate Hl.
  assert (Hc : wp_candidate (sut_number sut) candidate = true).
  { unfold wp_candidate, candidate, sut_number.
    change (Py.lower ("wp-" ++ p ++ Py.filter_chars Py.isdigit sut))
      with ("wp-" ++ Py.lower (p ++ Py.filter_chars Py.isdigit sut))%string.
    rewrite lower_app, lower_digits.
    unfold Py.startswith. rewrite prefix_app.
    change ("wp-" ++ Py.lower p ++ Py.filter_chars Py.isdigit sut)%string
      with (("wp-" ++ Py.lower p) ++ Py.filter_chars Py.isdigit sut)%string.
    rewrite endswith_app. reflexivity. }
  split; [exact Hc|].
  unfold find_wp_folder, bind, os_listdir, node_at. rewrite Hs. cbn [fs].
  rewrite Hl. cbn [map fst find ret]. fold candidate. rewrite Hc.
  reflexivity.
Qed.

Lemma wp_folder_suffix_match_witness :
  find_wp_folder source_root "vm1"
    (initial (Dir [("wp-vm11", Dir []); ("wp-vm1", Dir []); ("vm1", Dir [])])
       (Dir []) [])
  = (inr (Some (Source, ["wp-vm11"])),
     initial (Dir [("wp-vm11", Dir []); ("wp-vm1", Dir []); ("vm1", Dir [])])
       (Dir []) []).
Proof.
  exact (proj2 (wp_folder_suffix_match source_root "vm1" "vm1" (Dir [])
                  [("wp-vm1", Dir []); ("vm1", Dir [])]
                  (initial (Dir [("wp-vm11", Dir []); ("wp-vm1", Dir []);
                                 ("vm1", Dir [])]) (Dir []) [])
                  eq_refl eq_refl)).
Defined.

(** ** Further properties: the source tree under restructurev3.py *)

Lemma source_writable_inr {A : Type} (m : M A) w a w' :
  respects keeps_readonly m -> m w = (inr a, w') ->
  source_writable w -> source_writable w'.
Proof.
  intros Hm E Hw. unfold source_writable.
  now rewrite (readonly_inr m w a w' Hm E).
Qed.

Lemma shutil_rmtree_source l w w' :
  fst l = Source -> source_writable w ->
  shutil_rmtree l w = (inr tt, w') ->
  source w' = remove (snd l) (source w).
Proof.
  intros Hl Hw H. unfold shutil_rmtree in H. inversion H; subst.
  rewrite Hl. cbn [set_fs log source fs].
  apply rmtree_remove. intros q. now apply source_writable_keep.
Qed.

Lemma copy_wp_items_v3_source tarfile_open wp_src wpdir es items :
  (forall data, escaped (tarfile_open data) = []) ->
  fst wp_src = Source -> fst wpdir = Target ->
  (forall k, assoc ("extracted_wp_temp_" ++ Py.str k)%string es = None) ->
  forall n w w',
    source_writable w ->
    lookup (snd wp_src) (source w) = Some (Dir es) ->
    copy_wp_items_v3 tarfile_open wp_src wpdir n items w = (inr tt, w') ->
    source w' = source w.
Proof.
  intros Hesc Hs Ht Hfresh.
  induction items as [|item items IH]; intros n w w' Hw Hl H;
    cbn [copy_wp_items_v3] in H.
  - inversion H; reflexivity.
  - destruct (Py.endswith item ".tar.gz").
    + set (temp := wp_src // ("extracted_wp_temp_" ++ Py.str n)%string) in *.
      assert (Htemp : fst temp = Source) by exact Hs.
      apply bind_inr in H as ([] & w1 & H1 & H).
      apply bind_inr in H as ([] & w2 & H2 & H).
      apply bind_inr in H as ([] & w3 & H3 & H).
      apply bind_inr in H as ([] & w4 & H4 & H).
      assert (W1 : source_writable w1).
      { eapply source_writable_inr; [|exact H1|exact Hw].
        apply keeps_readonly_extract. }
      assert (W2 : source_writable w2).
      { eapply source_writable_inr; [|exact H2|exact W1].
        unfold os_makedirs. apply keeps_readonly_write. }
      assert (W3 : source_writable w3).
      { eapply source_writable_inr; [|exact H3|exact W2].
        apply copy_walk_flat_respects;
          first [keeps_readonly_side|loc_side]. }
      assert (W4 : source_writable w4).
      { eapply source_writable_inr; [|exact H4|exact W3].
        apply keeps_readonly_rmtree. }
      apply (extract_tar_gz_source tarfile_open (wp_src // item) temp
               (snd wp_src) ("extracted_wp_temp_" ++ Py.str n)%string es
               w w1 Hesc Htemp eq_refl Hl (Hfresh n)) in H1.
      assert (S2 : source w2 = source w1).
      { eapply (emits_source eq_refl H2). apply emits_makedirs. loc_side. }
      assert (S3 : source w3 = source w2).
      { eapply (emits_source eq_refl H3).
        apply copy_walk_flat_emits; [exact Htemp|loc_side]. }
      apply (shutil_rmtree_source temp w3 w4 Htemp W3) in H4.
      assert (S4 : source w4 = source w).
      { rewrite H4, S3, S2. destruct H1 as [->|[Hr _]]; [|exact Hr].
        apply remove_absent. unfold temp, join. cbn [snd].
        rewrite (lookup_snoc _ _ _ _ Hl). apply Hfresh. }
      rewrite <- S4.
      apply (IH (S n) w4 w'); [exact W4|now rewrite S4|exact H].
    + apply bind_inr in H as (isf & w1 & H1 & H).
      inversion H1; subst w1 isf. clear H1.
      destruct (is_file (node_at w (wp_src // item))).
      * apply bind_inr in H as ([] & w2 & H2 & H).
        apply bind_inr in H as ([] & w3 & H3 & H).
        assert (S2 : source w2 = source w).
        { eapply (emits_source eq_refl H2). apply emits_makedirs. loc_side. }
        assert (S3 : source w3 = source w).
        { eapply (emits_source S2 H3). apply emits_copy. loc_side. }
        assert (W2 : source_writable w2).
        { eapply source_writable_inr; [|exact H2|exact Hw].
          unfold os_makedirs. apply keeps_readonly_write. }
        assert (W3 : source_writable w3).
        { eapply source_writable_inr; [|exact H3|exact W2].
          apply keeps_readonly_copy. }
        rewrite <- S3.
        apply (IH (S n) w3 w'); [exact W3|now rewrite S3|exact H].
      * apply (IH n w w'); assumption.
Qed.

(** X15. restructurev3.py leaves the source tree as it was when the
    WorkloadProfiler folder has no entry named extracted_wp_temp_<k>, no
    archive has a member that leads out of the extraction directory and
    nothing in the source is read-only: each archive is extracted into a
    directory of that name, which is new, and the directory is removed
    before the next entry is handled. *)
Theorem restructure_directory_v3_keeps_source
  (tarfile_open : string -> archive)
  (uuid_folder : string) (source_dir target_dir : loc) (w w' : world) :
  fst source_dir = Source -> fst target_dir = Target ->
  (forall k,
      lookup (snd (source_dir // "WorkloadProfiler"
                     // ("extracted_wp_temp_" ++ Py.str k)%string)) (source w)
      = None) ->
  (forall data, escaped (tarfile_open data) = []) ->
  source_writable w ->
  restructure_directory_v3 tarfile_open uuid_folder source_dir target_dir w
  = (inr tt, w') ->
  source w' = source w.
Proof.
  intros Hs Ht Hfresh Hesc Hwr Hrun. unfold restructure_directory_v3 in Hrun.
  apply bind_inr in Hrun as ([] & w1 & H1 & Hrun).
  apply bind_inr in Hrun as (suts & w2 & H2 & Hrun).
  apply bind_inr in Hrun as ([] & w5 & Hbody & Hlast).
  assert (Hu : fst (target_dir // uuid_folder) = Target) by loc_side.
  assert (S1 : source w1 = source w).
  { eapply (emits_source eq_refl H1). now apply emits_makedirs. }
  assert (W1 : source_writable w1).
  { eapply source_writable_inr; [|exact H1|exact Hwr].
    unfold os_makedirs. apply keeps_readonly_write. }
  assert (S2 : source w2 = source w).
  { eapply (emits_source S1 H2). now apply identify_suts_emits. }
  assert (W2 : source_writable w2).
  { eapply source_writable_inr; [|exact H2|exact W1].
    apply identify_suts_respects; keeps_readonly_side. }
  apply print_inr in Hlast as (_ & _ & S5). rewrite S5. clear S5 w'.
  destruct (nonempty suts);
    apply bind_inr in Hbody as ([] & w3 & H3 & H4);
    (assert (W3 : source_writable w3)
       by (eapply source_writable_inr; [|exact H3|exact W2];
           intro; reflexivity));
    apply print_inr in H3 as (_ & _ & S3);
    assert (S3' : source w3 = source w) by congruence;
    clear S3; rename S3' into S3.
  - eapply (emits_source S3 H4). now apply multi_system_emits.
  - unfold single_system_v3 in H4.
    apply bind_inr in H4 as ([] & wa & Ha & H4).
    assert (Sa : source wa = source w).
    { eapply (emits_source S3 Ha). apply create_sut_dirs_emits. loc_side. }
    assert (Wa : source_writable wa).
    { eapply source_writable_inr; [|exact Ha|exact W3].
      apply create_sut_dirs_respects; first [keeps_readonly_side|loc_side]. }
    apply bind_inr in H4 as ([] & wb & Hb & H4).
    assert (Sb : source wb = source w).
    { eapply (emits_source Sa Hb).
      apply copy_platform_profile_single_writes; [exact Hs|loc_side]. }
    assert (Wb : source_writable wb).
    { eapply source_writable_inr; [|exact Hb|exact Wa].
      apply copy_platform_profile_single_respects;
        first [keeps_readonly_side|loc_side]. }
    apply bind_inr in H4 as ([] & wc & Hc & H4).
    assert (Sc : source wc = source w).
    { unfold copy_workload_profiler_v3 in Hc.
      apply bind_inr in Hc as (ex & wx & Hex & Hc).
      inversion Hex; subst wx ex. clear Hex.
      destruct (is_some (node_at wb (source_dir // "WorkloadProfiler")));
        cbn [when] in Hc; [|inversion Hc; subst; exact Sb].
      apply bind_inr in Hc as (items & wx & Hli & Hc).
      unfold os_listdir, node_at in Hli. cbn [fst join fs] in Hli.
      rewrite Hs in Hli. cbn [fs] in Hli.
      destruct (lookup (snd (source_dir // "WorkloadProfiler")) (source wb))
        as [[d|es]|] eqn:E; try discriminate.
      inversion Hli; subst wx items. clear Hli.
      rewrite <- Sb.
      eapply (copy_wp_items_v3_source tarfile_open
                (source_dir // "WorkloadProfiler")
                (target_dir // uuid_folder // "SUT1" // "WorkloadProfiler")
                es);
        [exact Hesc|exact Hs|loc_side| |exact Wb|exact E|exact Hc].
      intros k. rewrite <- (lookup_snoc _ _ _ _ E), Sb. apply Hfresh. }
    apply bind_inr in H4 as ([] & wd & Hd & H4).
    assert (Sd : source wd = source w).
    { eapply (emits_source Sc Hd).
      apply copy_logs_v3_emits; [exact Hs|loc_side]. }
    eapply (emits_source Sd H4).
    apply copy_root_files_v3_emits; [exact Hs|loc_side].
Qed.

Lemma restructure_directory_v3_keeps_source_witness :
  source (snd (restructure_directory_v3 example_confined "U" source_root
                 target_root (initial example_archive_only (Dir []) [])))
  = example_archive_only
  /\ In (Extractall (Source, ["WorkloadProfiler"; "cap.tar.gz"])
           (Source, ["WorkloadProfiler"; "extracted_wp_temp_1"]))
       (trace (snd (restructure_directory_v3 example_confined "U" source_root
                      target_root
                      (initial example_archive_only (Dir []) [])))).
Proof.
  split.
  - apply (restructure_directory_v3_keeps_source example_confined "U"
             source_root target_root
             (initial example_archive_only (Dir []) [])
             (snd (restructure_directory_v3 example_confined "U" source_root
                     target_root (initial example_archive_only (Dir []) [])))
             eq_refl eq_refl).
    + intros k. reflexivity.
    + intros data. reflexivity.
    + intros l [].
    + vm_compute. reflexivity.
  - vm_compute. tauto.
Defined.

(** ** Further properties: where a run writes *)

Ltac below_leaf :=
  repeat match goal with
         | |- context [if ?b then _ else _] => destruct b
         end;
  unfold below; cbn [dest]; unfold join, join_rel; cbn [fst snd];
  rewrite <- ?app_assoc; cbn [app];
  first [ eexists; reflexivity
        | exists []; rewrite app_nil_r; reflexivity ].

Ltac below_events :=
  repeat first
    [ apply Forall_nil
    | apply Forall_cons; [below_leaf|]
    | apply Forall_app; split
    | apply Forall_flat_map_all; intros ?
    | apply Forall_map_all; intros ?; below_leaf
    | match goal with
      | |- Forall _ (if ?b then _ else _) => destruct b
      | |- Forall _ (match ?x with Some _ => _ | None => _ end) => destruct x
      end ].

Lemma multi_events_below s strict source_dir uuid_dir suts :
  Forall (below uuid_dir) (multi_events s strict source_dir uuid_dir suts).
Proof.
  unfold multi_events, sut_events, skeleton_events, root_events,
    mapper_events, pp_events, pp_folder_events, pp_run_events,
    wp_sut_events, wp_events, wp_file_events, results_events, runs_events,
    run_events, iteration_events, instance_events, no_iteration_events,
    log_file_events.
  below_events.
Qed.

Lemma single_plain_writes_below s source_dir uuid_dir :
  Forall (below uuid_dir)
    (single_plain_writes s source_dir (uuid_dir // "SUT1")).
Proof.
  unfold single_plain_writes, skeleton_events, pp_single_events,
    replication_events, logs_events, walk_tree_events, root_single_events.
  below_events.
Qed.

Lemma single_v3_writes_below s source_dir uuid_dir :
  Forall (below uuid_dir) (single_v3_writes s source_dir (uuid_dir // "SUT1")).
Proof.
  unfold single_v3_writes, skeleton_events, pp_single_events, wp_v3_events,
    logs_v3_events, root_v3_events.
  below_events.
Qed.

Lemma below_self d : below d (Makedirs d).
Proof. exists []. cbn [dest]. now rewrite app_nil_r, <- surjective_pairing. Qed.

Section WholeRuns.

Variable tarfile_open : string -> archive.
Variable s : node.
Variables source_dir target_dir : loc.
Variable uuid_folder : string.
Hypothesis Hsource : fst source_dir = Source.
Hypothesis Htarget : fst target_dir = Target.

Lemma restructure_directory_multi_emits temp_uuid :
  nonempty (suts_of s source_dir) = true ->
  emits s (restructure_directory tarfile_open uuid_folder temp_uuid source_dir
             target_dir) tt
    (Makedirs (target_dir // uuid_folder)
     :: multi_events s false source_dir (target_dir // uuid_folder)
          (suts_of s source_dir)).
Proof.
  intros Hn. unfold restructure_directory.
  eapply emits_conv;
    [ eapply emits_bind; [apply emits_makedirs; loc_side|];
      eapply emits_bind; [apply identify_suts_emits; exact Hsource|];
      rewrite Hn;
      eapply emits_bind;
        [ eapply emits_bind; [apply emits_print|];
          apply multi_system_emits; [exact Hsource|loc_side]
        | apply emits_print ]
    | reflexivity | ].
  cbn [app]. now rewrite app_nil_r.
Qed.

Lemma restructure_directory_v3_multi_emits :
  nonempty (suts_of s source_dir) = true ->
  emits s (restructure_directory_v3 tarfile_open uuid_folder source_dir
             target_dir) tt
    (Makedirs (target_dir // uuid_folder)
     :: multi_events s false source_dir (target_dir // uuid_folder)
          (suts_of s source_dir)).
Proof.
  intros Hn. unfold restructure_directory_v3.
  eapply emits_conv;
    [ eapply emits_bind; [apply emits_makedirs; loc_side|];
      eapply emits_bind; [apply identify_suts_emits; exact Hsource|];
      rewrite Hn;
      eapply emits_bind;
        [ eapply emits_bind; [apply emits_print|];
          apply multi_system_emits; [exact Hsource|loc_side]
        | apply emits_print ]
    | reflexivity | ].
  cbn [app]. now rewrite app_nil_r.
Qed.

Lemma restructure_directory_v2_emits :
  emits s (restructure_directory_v2 uuid_folder source_dir target_dir) tt
    (Makedirs (target_dir // uuid_folder)
     :: multi_events s true source_dir (target_dir // uuid_folder)
          (suts_of s source_dir)).
Proof.
  unfold restructure_directory_v2.
  eapply emits_conv;
    [ eapply emits_bind; [apply emits_makedirs; loc_side|];
      eapply emits_bind; [apply identify_suts_emits; exact Hsource|];
      eapply emits_bind;
        [ apply multi_system_emits; [exact Hsource|loc_side]
        | apply emits_print ]
    | reflexivity | ].
  cbn [app]. now rewrite app_nil_r.
Qed.

End WholeRuns.

(** X16. A completed run writes the output root and below it, nowhere
    else: every directory created and every copy made lands at or below
    target_dir/uuid_folder.  For v2restructure.py always; for restructure.py
    and restructurev3.py whenever no archive is extracted (the multi-system
    case, or a WorkloadProfiler folder without a .tar.gz entry). *)
Theorem output_confined
  (tarfile_open : string -> archive)
  (uuid_folder temp_uuid : string) (source_dir target_dir : loc)
  (w w' : world) :
  fst source_dir = Source -> fst target_dir = Target ->
  let wp_items := listing (source w) (source_dir // "WorkloadProfiler") in
  let confined :=
    exists evs, trace w' = trace w ++ evs
                /\ Forall (below (target_dir // uuid_folder)) evs in
  (restructure_directory_v2 uuid_folder source_dir target_dir w = (inr tt, w')
   -> confined)
  /\ ((forall item, In item wp_items ->
                    Py.endswith (Py.lower item) ".tar.gz" = false) ->
      restructure_directory tarfile_open uuid_folder temp_uuid source_dir
        target_dir w = (inr tt, w') -> confined)
  /\ ((forall item, In item wp_items -> Py.endswith item ".tar.gz" = false) ->
      restructure_directory_v3 tarfile_open uuid_folder source_dir target_dir w
      = (inr tt, w') -> confined).
Proof.
  intros Hs Ht wp_items confined. unfold confined.
  assert (G : forall (m : M unit) evs,
                emits (source w) m tt
                  (Makedirs (target_dir // uuid_folder) :: evs) ->
                Forall (below (target_dir // uuid_folder)) evs ->
                m w = (inr tt, w') ->
                exists evs, trace w' = trace w ++ evs
                  /\ Forall (below (target_dir // uuid_folder)) evs).
  { intros m evs He Hb Hrun.
    destruct (He w tt w' eq_refl Hrun) as (_ & T & _).
    eexists. split; [exact T|].
    apply Forall_cons; [apply below_self|exact Hb]. }
  repeat split.
  - apply G with (1 := restructure_directory_v2_emits (source w) source_dir
                         target_dir uuid_folder Hs Ht).
    apply multi_events_below.
  - intros Hno.
    destruct (nonempty (suts_of (source w) source_dir)) eqn:Hn.
    + apply G with (1 := restructure_directory_multi_emits tarfile_open
                           (source w) source_dir target_dir uuid_folder Hs Ht
                           temp_uuid Hn).
      apply multi_events_below.
    + apply nonempty_false in Hn.
      apply G with (1 := restructure_directory_single_emits tarfile_open
                           (source w) uuid_folder temp_uuid source_dir
                           target_dir Hs Ht Hn Hno).
      apply single_plain_writes_below.
  - intros Hno.
    destruct (nonempty (suts_of (source w) source_dir)) eqn:Hn.
    + apply G with (1 := restructure_directory_v3_multi_emits tarfile_open
                           (source w) source_dir target_dir uuid_folder Hs Ht
                           Hn).
      apply multi_events_below.
    + apply nonempty_false in Hn.
      apply G with (1 := restructure_directory_v3_single_emits tarfile_open
                           (source w) uuid_folder source_dir target_dir
                           Hs Ht Hn Hno).
      apply single_v3_writes_below.
Qed.

Lemma output_confined_witness :
  exists evs,
    trace (snd (restructure_directory example_tarfile "U" "T" source_root
                  (Target, ["out"])
                  (initial example_single (Dir [("out", Dir [])]) [])))
    = [] ++ evs
    /\ Forall (below (Target, ["out"; "U"])) evs.
Proof.
  apply (proj1 (proj2
           (output_confined example_tarfile "U" "T" source_root
              (Target, ["out"])
              (initial example_single (Dir [("out", Dir [])]) [])
              (snd (restructure_directory example_tarfile "U" "T" source_root
                      (Target, ["out"])
                      (initial example_single (Dir [("out", Dir [])]) [])))
              eq_refl eq_refl))).
  - vm_compute. intuition (subst; reflexivity).
  - vm_compute. reflexivity.
Defined.
